(** * Elegant La Vie: the checkout core and the payment webhook

    A shallow embedding of the two order pipelines of the repository:

    - [Storefront]: [POST /api/checkout] of the PKR worker (WhatsApp and
      cash on delivery), with its price lookup, per-line validation, totals
      and the two writes to D1;
    - [StorefrontDoubles]: the same handler with its amounts in binary64;
    - [StripeWorker]: [POST /api/checkout/webhook] of [src/worker.js], the
      Stripe confirmation handler.

    Conventions of the embedding.  [Storefront] carries the amounts in PKR
    as whole rupees in [Z] (the seed catalogue only has whole rupees), and
    its properties are those that do not depend on how the handler adds
    and multiplies.  [StorefrontDoubles] is the same handler with every
    amount a binary64 number, as JavaScript and the REAL columns have
    them; the properties of the total and of the line totals are stated
    there, in [CheckoutDoublesFacts], where the two readings are also
    shown to give the same answers, amounts apart, and the same amounts
    on catalogues of whole rupees below 2^53.  Ids, stock and quantities
    are integers in [Z], as JavaScript has them below 2^53.  Text is the
    bytes of its UTF-8 encoding.  A D1 table is the list of its rows in rowid
    order.  An omitted JSON key is [None].  An exception that escapes a
    handler is the response [Uncaught] (Hono answers 500). *)

(** The rest of the two workers is modelled after the claims' modules:
    [Http] and [Auth] (the answers and the token middleware of both
    files), [Orders] (order updates, order history, dashboard and product
    view of the storefront) and [StripeCheckout] (checkout and order
    detail of [src/worker.js]); their properties are in [StorefrontFacts],
    [AuthFacts] and [StripeFacts]. *)

From Stdlib Require Import ZArith QArith Floats String Ascii List Lia Bool.
From stdpp Require Import base option list strings gmap.

Local Open Scope string_scope.
Local Open Scope list_scope.
Local Open Scope Z_scope.

(** ** JavaScript primitives used by the handlers *)

Module Js.

(** Text is held as the bytes of its UTF-8 encoding, which is what the
    request body and the TEXT columns carry.  The white space stripped by
    [String.prototype.trim] and skipped by [parseInt] is WhiteSpace and
    LineTerminator of the language: TAB, LF, VT, FF, CR, SPACE on one byte;
    U+00A0 on two; U+1680, U+2000 to U+200A, U+2028, U+2029, U+202F, U+205F,
    U+3000 and U+FEFF on three. *)
Definition is_white_space (a : ascii) : bool :=
  let n := nat_of_ascii a in
  (Nat.eqb n 9 || Nat.eqb n 10 || Nat.eqb n 11 || Nat.eqb n 12
   || Nat.eqb n 13 || Nat.eqb n 32)%bool.

(** U+00A0 is C2 A0. *)
Definition is_white_space2 (a b : ascii) : bool :=
  (Nat.eqb (nat_of_ascii a) 194 && Nat.eqb (nat_of_ascii b) 160)%bool.

(** U+1680 is E1 9A 80; U+2000 to U+200A are E2 80 80 to E2 80 8A;
    U+2028, U+2029 and U+202F are E2 80 A8, E2 80 A9 and E2 80 AF;
    U+205F is E2 81 9F; U+3000 is E3 80 80; U+FEFF is EF BB BF. *)
Definition is_white_space3 (a b c : ascii) : bool :=
  let x := nat_of_ascii a in
  let y := nat_of_ascii b in
  let z := nat_of_ascii c in
  (Nat.eqb x 225 && Nat.eqb y 154 && Nat.eqb z 128
   || Nat.eqb x 226 && Nat.eqb y 128
      && (Nat.leb 128 z && Nat.leb z 138 || Nat.eqb z 168 || Nat.eqb z 169
          || Nat.eqb z 175)
   || Nat.eqb x 226 && Nat.eqb y 129 && Nat.eqb z 159
   || Nat.eqb x 227 && Nat.eqb y 128 && Nat.eqb z 128
   || Nat.eqb x 239 && Nat.eqb y 187 && Nat.eqb z 191)%bool.

(** Drops the white-space characters that [s] starts with; [w1], [w2] and
    [w3] recognise the characters of one, two and three bytes. *)
Fixpoint strip (w1 : ascii → bool) (w2 : ascii → ascii → bool)
    (w3 : ascii → ascii → ascii → bool) (s : string) : string :=
  match s with
  | String a r =>
      if w1 a then strip w1 w2 w3 r
      else
        match r with
        | String b r1 =>
            if w2 a b then strip w1 w2 w3 r1
            else
              match r1 with
              | String c r2 => if w3 a b c then strip w1 w2 w3 r2 else s
              | EmptyString => s
              end
        | EmptyString => s
        end
  | EmptyString => EmptyString
  end.

Definition trimStart (s : string) : string :=
  strip is_white_space is_white_space2 is_white_space3 s.

(** The same from the end: the text is read backwards, last byte first. *)
Definition trimEnd (s : string) : string :=
  String.rev
    (strip is_white_space (λ b a, is_white_space2 a b)
       (λ c b a, is_white_space3 a b c) (String.rev s)).

Definition trim (s : string) : string := trimEnd (trimStart s).

(** [!x?.trim()] on an optional string: true when the key is missing or
    the trimmed text is empty. *)
Definition blank (x : option string) : bool :=
  match x with
  | None => true
  | Some s => bool_decide (trim s = "")
  end.

(** Text made of white-space characters only, the empty text included. *)
Inductive only_white_space : string → Prop :=
| ows_empty : only_white_space ""
| ows_1 a s :
    is_white_space a = true → only_white_space s → only_white_space (String a s)
| ows_2 a b s :
    is_white_space2 a b = true → only_white_space s →
    only_white_space (String a (String b s))
| ows_3 a b c s :
    is_white_space3 a b c = true → only_white_space s →
    only_white_space (String a (String b (String c s))).

(** A key of the body that is missing or whose text is white space only. *)
Definition missing_or_blank (x : option string) : Prop :=
  match x with
  | None => True
  | Some s => only_white_space s
  end.

(** [x?.trim() || null] *)
Definition trim_or_null (x : option string) : option string :=
  match x with
  | None => None
  | Some s => if bool_decide (trim s = "") then None else Some (trim s)
  end.

(** Value of a character as a digit in [radix], if it is one. *)
Definition digit_of (radix : Z) (a : ascii) : option Z :=
  let n := Z.of_nat (nat_of_ascii a) in
  let d := if (48 <=? n) && (n <=? 57) then Some (n - 48)
           else if (97 <=? n) && (n <=? 122) then Some (n - 87)
           else if (65 <=? n) && (n <=? 90) then Some (n - 55)
           else None in
  match d with
  | Some v => if v <? radix then Some v else None
  | None => None
  end.

(** The longest prefix of digits of [s], read in [radix]; [acc] is the
    value read so far, [None] while no digit has been seen. *)
Fixpoint parse_digits (radix : Z) (s : string) (acc : option Z) : option Z :=
  match s with
  | String a rest =>
      match digit_of radix a with
      | Some d => parse_digits radix rest (Some (radix * default 0 acc + d))
      | None => acc
      end
  | EmptyString => acc
  end.

(** [parseInt(s)] without a radix argument, on the text [s] that
    [ToString] gives for the argument.  [None] is NaN.  Leading white
    space is skipped, one sign is read, a [0x]/[0X] prefix selects
    radix 16, and the digits stop at the first character that is not one. *)
Definition parseInt (s : string) : option Z :=
  let s1 := trimStart s in
  let '(sign, s2) :=
    match s1 with
    | String "-" r => (-1, r)
    | String "+" r => (1, r)
    | _ => (1, s1)
    end in
  let '(radix, s3) :=
    match s2 with
    | String "0" (String "x" r) => (16, r)
    | String "0" (String "X" r) => (16, r)
    | _ => (10, s2)
    end in
  match parse_digits radix s3 None with
  | Some n => Some (sign * n)
  | None => None
  end.

(** U+00A0 NO-BREAK SPACE, as text. *)
Definition nbsp : string := String "194" (String "160" "").

(** [x || d] on the result of [parseInt]: NaN and 0 are falsy. *)
Definition or_else (x : option Z) (d : Z) : Z :=
  match x with
  | Some n => if n =? 0 then d else n
  | None => d
  end.

End Js.

(** ** The storefront checkout (PKR, WhatsApp and cash on delivery) *)

Module Storefront.

(** *** Rows of the D1 tables read and written by the handler *)

(** The columns of [products] that the checkout query selects. *)
Record product := {
  p_id : Z;
  p_name : string;
  price_pkr : Z;
  sale_price_pkr : option Z;     (* NULL = no active sale *)
  stock : Z;
  is_active : Z                  (* INTEGER used as a flag; 0 is falsy *)
}.

Record order := {
  o_id : Z;
  customer_name : string;
  customer_phone : string;
  customer_city : string;
  customer_address : string;
  user_id : option Z;
  status : string;
  payment_method : string;
  payment_status : string;
  subtotal_pkr : Z;
  shipping_pkr : Z;
  discount_pkr : Z;
  total_pkr : Z;
  gift_wrapping : string;
  gift_message : option string;
  notes : option string;
  whatsapp_sent_at : option string;
  o_created_at : string;
  o_updated_at : string
}.

Record order_item := {
  oi_id : Z;
  oi_order_id : Z;
  oi_product_id : Z;
  oi_product_name : string;
  oi_quantity : Z;
  oi_unit_price_pkr : Z;
  oi_line_total_pkr : Z;
  oi_created_at : string
}.

(** The database: the three tables and the two AUTOINCREMENT counters
    (the largest rowid ever handed out, which sqlite never reuses). *)
Record D1 := {
  products : list product;
  orders : list order;
  order_items : list order_item;
  orders_seq : Z;
  order_items_seq : Z
}.

(** *** The request and the response *)

(** One entry of [items].  [ci_product_id] is [Number(item.product_id)];
    [ci_quantity] is the text that [parseInt] reads, i.e. [ToString] of
    [item.quantity] (the digits of a number, the text of a string,
    ["undefined"] for a missing key). *)
Record cart_item := {
  ci_product_id : Z;
  ci_quantity : string
}.

Record request := {
  r_customer_name : option string;
  r_customer_phone : option string;
  r_customer_city : option string;
  r_customer_address : option string;
  r_payment_method : option string;     (* omitted: 'cod' *)
  r_gift_wrapping : option string;      (* omitted: 'none' *)
  r_gift_message : option string;       (* omitted: '' *)
  r_notes : option string;              (* omitted: '' *)
  r_items : list cart_item              (* a missing key and [] both have no length *)
}.

(** An element of [lineItems]. *)
Record line_item := {
  product_id : Z;
  product_name : string;
  quantity : Z;
  unit_price_pkr : Z;
  line_total_pkr : Z
}.

(** The [summary] object of the response, without [total_display]. *)
Record summary := {
  s_items : list line_item;
  s_subtotal_pkr : Z;
  s_shipping_pkr : Z;
  s_discount_pkr : Z;
  s_wrapping_fee : Z;
  s_total_pkr : Z;
  s_free_shipping : bool
}.

(** The messages passed to [jsonError], one constructor per text. *)
Inductive message :=
| ApnaNaamDarain              (* 'Apna naam darain' *)
| PhoneNumberDarain           (* 'Phone number darain' *)
| SheherKaNaamDarain          (* 'Sheher ka naam darain' *)
| AddressDarain               (* 'Address darain' *)
| CartIsEmpty                 (* 'Cart is empty' *)
| InvalidPaymentMethod        (* 'Invalid payment method' *)
| InvalidGiftWrappingOption   (* 'Invalid gift wrapping option' *)
| ProductNotFound (id : Z)                  (* `Product ${id} not found` *)
| CurrentlyUnavailable (name : string)      (* `"${name}" is currently unavailable` *)
| OnlyLeftInStock (name : string) (left : Z). (* `"${name}" — only ${left} left in stock` *)

(** What the handler answers.  [Json] is the success body without the
    WhatsApp text and link, which no property below reads. *)
Inductive response :=
| jsonError (m : message) (http_status : Z)
| Json (order_id : Z) (s : summary)
| Uncaught.

(** *** Constants of the handler *)

Definition VALID_PAYMENTS : list string := ["cod"; "easypaisa"; "jazzcash"; "bank"].
Definition VALID_WRAPPING : list string := ["none"; "standard"; "premium"].
Definition FREE_SHIPPING_THRESHOLD : Z := 5000.
Definition WRAPPING_FEES : gmap string Z :=
  {[ "none" := 0; "standard" := 300; "premium" := 600 ]}.
Definition DISCOUNT_PKR : Z := 0.   (* hook in coupon logic here *)

(** [subtotalPkr >= FREE_SHIPPING_THRESHOLD ? 0 : 200] *)
Definition SHIPPING_PKR (subtotalPkr : Z) : Z :=
  if FREE_SHIPPING_THRESHOLD <=? subtotalPkr then 0 else 200.

(** [WRAPPING_FEES[gift_wrapping] ?? 0].  The handler only gets here with
    a key of [VALID_WRAPPING], so the lookup never meets a property that
    a JavaScript object inherits. *)
Definition WRAPPING_FEE (gift_wrapping : string) : Z :=
  default 0 (WRAPPING_FEES !! gift_wrapping).

(** [subtotalPkr + SHIPPING_PKR + WRAPPING_FEE - DISCOUNT_PKR] *)
Definition totalPkr (subtotalPkr : Z) (gift_wrapping : string) : Z :=
  subtotalPkr + SHIPPING_PKR subtotalPkr + WRAPPING_FEE gift_wrapping - DISCOUNT_PKR.

Definition includes (l : list string) (x : string) : bool := bool_decide (x ∈ l).

(** *** Step 1: server-side prices *)

(** [[...new Set(items.map(i => Number(i.product_id)))]] *)
Definition productIds (items : list cart_item) : gset Z :=
  list_to_set (ci_product_id <$> items).

(** [SELECT id, name, price_pkr, sale_price_pkr, stock, is_active
     FROM products WHERE id IN (...)] *)
Definition select_products (ids : gset Z) (db : D1) : list product :=
  filter (λ p, p_id p ∈ ids) (products db).

(** *** Step 2: one turn of the loop over [items] *)

(** [Math.max(1, parseInt(item.quantity) || 1)] *)
Definition qty_of (item : cart_item) : Z :=
  Z.max 1 (Js.or_else (Js.parseInt (ci_quantity item)) 1).

(** [product.sale_price_pkr ?? product.price_pkr] *)
Definition unitPrice (p : product) : Z :=
  default (price_pkr p) (sale_price_pkr p).

(** The body of [for (const item of items)]: either the early
    [return jsonError(...)] or the line pushed on [lineItems]. *)
Definition line_of (dbProducts : list product) (item : cart_item) : response + line_item :=
  let qty := qty_of item in
  match List.find (λ p, p_id p =? ci_product_id item) dbProducts with
  | None => inl (jsonError (ProductNotFound (ci_product_id item)) 422)
  | Some p =>
      if is_active p =? 0 then inl (jsonError (CurrentlyUnavailable (p_name p)) 422)
      else if stock p <? qty then inl (jsonError (OnlyLeftInStock (p_name p) (stock p)) 422)
      else
        let lineTotal := unitPrice p * qty in
        inr {| product_id := p_id p;
               product_name := p_name p;
               quantity := qty;
               unit_price_pkr := unitPrice p;
               line_total_pkr := lineTotal |}
  end.

(** The loop, with its two accumulators [subtotalPkr] and [lineItems]. *)
Fixpoint build_lines (dbProducts : list product) (items : list cart_item)
    (subtotalPkr : Z) (lineItems : list line_item) : response + (Z * list line_item) :=
  match items with
  | [] => inr (subtotalPkr, lineItems)
  | item :: rest =>
      match line_of dbProducts item with
      | inl r => inl r
      | inr li =>
          build_lines dbProducts rest
            (subtotalPkr + line_total_pkr li) (lineItems ++ [li])
      end
  end.

(** *** Steps 4 and 5: the writes *)

(** [INSERT INTO orders (...) VALUES (...) RETURNING id]: the columns the
    statement names, the defaults of the others, and the new rowid. *)
Definition insert_order (now : string)
    (name phone city address payment wrapping : string)
    (message note : option string) (subtotal shipping discount total : Z)
    (db : D1) : Z * D1 :=
  let id := orders_seq db + 1 in
  let row := {| o_id := id;
                customer_name := name;
                customer_phone := phone;
                customer_city := city;
                customer_address := address;
                user_id := None;
                status := "pending_whatsapp";
                payment_method := payment;
                payment_status := "pending";
                subtotal_pkr := subtotal;
                shipping_pkr := shipping;
                discount_pkr := discount;
                total_pkr := total;
                gift_wrapping := wrapping;
                gift_message := message;
                notes := note;
                whatsapp_sent_at := Some now;
                o_created_at := now;
                o_updated_at := now |} in
  (id, {| products := products db;
          orders := orders db ++ [row];
          order_items := order_items db;
          orders_seq := id;
          order_items_seq := order_items_seq db |}).

(** One [INSERT INTO order_items (...) VALUES (?,?,?,?,?,?)]. *)
Definition insert_order_item (now : string) (orderId : Z) (li : line_item) (db : D1) : D1 :=
  let id := order_items_seq db + 1 in
  {| products := products db;
     orders := orders db;
     order_items := order_items db ++
       [{| oi_id := id;
           oi_order_id := orderId;
           oi_product_id := product_id li;
           oi_product_name := product_name li;
           oi_quantity := quantity li;
           oi_unit_price_pkr := unit_price_pkr li;
           oi_line_total_pkr := line_total_pkr li;
           oi_created_at := now |}];
     orders_seq := orders_seq db;
     order_items_seq := id |}.

(** [db.batch(statements)]: D1 runs the statements in order inside one
    transaction of its own.  [fails i] says that the store raises on the
    statement at position [i]; the batch then has no effect ([None]) and
    the promise rejects. *)
Fixpoint batch_from (fails : nat → bool) (now : string) (orderId : Z)
    (i : nat) (lineItems : list line_item) (db : D1) : option D1 :=
  match lineItems with
  | [] => Some db
  | li :: rest =>
      if fails i then None
      else batch_from fails now orderId (S i) rest (insert_order_item now orderId li db)
  end.

Definition batch (fails : nat → bool) (now : string) (orderId : Z)
    (lineItems : list line_item) (db : D1) : option D1 :=
  batch_from fails now orderId 0 lineItems db.

(** *** The handler *)

(** [app.post('/api/checkout', ...)].  [now] is the store's
    [datetime('now')]; [fails] is the fault behaviour of the store during
    the batch.  The result is the database after the call and the answer. *)
Definition checkout (fails : nat → bool) (now : string) (req : request) (db : D1)
    : D1 * response :=
  let payment_method := default "cod" (r_payment_method req) in
  let gift_wrapping := default "none" (r_gift_wrapping req) in
  let gift_message := Some (default "" (r_gift_message req)) in
  let notes := Some (default "" (r_notes req)) in
  let items := r_items req in
  if Js.blank (r_customer_name req) then (db, jsonError ApnaNaamDarain 400)
  else if Js.blank (r_customer_phone req) then (db, jsonError PhoneNumberDarain 400)
  else if Js.blank (r_customer_city req) then (db, jsonError SheherKaNaamDarain 400)
  else if Js.blank (r_customer_address req) then (db, jsonError AddressDarain 400)
  else if bool_decide (items = []) then (db, jsonError CartIsEmpty 400)
  else if negb (includes VALID_PAYMENTS payment_method)
    then (db, jsonError InvalidPaymentMethod 400)
  else if negb (includes VALID_WRAPPING gift_wrapping)
    then (db, jsonError InvalidGiftWrappingOption 400)
  else
    let dbProducts := select_products (productIds items) db in
    match build_lines dbProducts items 0 [] with
    | inl r => (db, r)
    | inr (subtotalPkr, lineItems) =>
        let '(orderId, db1) :=
          insert_order now
            (Js.trim (default "" (r_customer_name req)))
            (Js.trim (default "" (r_customer_phone req)))
            (Js.trim (default "" (r_customer_city req)))
            (Js.trim (default "" (r_customer_address req)))
            payment_method gift_wrapping
            (Js.trim_or_null gift_message) (Js.trim_or_null notes)
            subtotalPkr (SHIPPING_PKR subtotalPkr) DISCOUNT_PKR
            (totalPkr subtotalPkr gift_wrapping) db in
        match batch fails now orderId lineItems db1 with
        | None => (db1, Uncaught)
        | Some db2 =>
            (db2, Json orderId
                    {| s_items := lineItems;
                       s_subtotal_pkr := subtotalPkr;
                       s_shipping_pkr := SHIPPING_PKR subtotalPkr;
                       s_discount_pkr := DISCOUNT_PKR;
                       s_wrapping_fee := WRAPPING_FEE gift_wrapping;
                       s_total_pkr := totalPkr subtotalPkr gift_wrapping;
                       s_free_shipping := SHIPPING_PKR subtotalPkr =? 0 |})
        end
    end.

(** The HTTP status of an answer; [c.json] without a status is 200 and an
    uncaught exception is answered by the framework with 500. *)
Definition status_of (r : response) : Z :=
  match r with
  | jsonError _ st => st
  | Json _ _ => 200
  | Uncaught => 500
  end.

(** *** Vocabulary of the statements *)

(** Written from the specification (4.1 and the glossary), to be compared
    with [unitPrice]: the sale price if set and lower than the list
    price, else the list price. *)
Definition effective_price_spec (p : product) : Z :=
  match sale_price_pkr p with
  | Some sale => if sale <? price_pkr p then sale else price_pkr p
  | None => price_pkr p
  end.

Definition sum_line_totals (ls : list line_item) : Z :=
  foldr (λ li acc, line_total_pkr li + acc) 0 ls.

(** The rows that a batch which goes through adds to [order_items] when
    the counter stands at [seq]. *)
Fixpoint item_rows (now : string) (orderId seq : Z) (ls : list line_item) : list order_item :=
  match ls with
  | [] => []
  | li :: rest =>
      {| oi_id := seq + 1;
         oi_order_id := orderId;
         oi_product_id := product_id li;
         oi_product_name := product_name li;
         oi_quantity := quantity li;
         oi_unit_price_pkr := unit_price_pkr li;
         oi_line_total_pkr := line_total_pkr li;
         oi_created_at := now |} :: item_rows now orderId (seq + 1) rest
  end.

(** The checks of the request that come before any query. *)
Definition fields_ok (req : request) : bool :=
  negb (Js.blank (r_customer_name req)) && negb (Js.blank (r_customer_phone req))
  && negb (Js.blank (r_customer_city req)) && negb (Js.blank (r_customer_address req))
  && negb (bool_decide (r_items req = []))
  && includes VALID_PAYMENTS (default "cod" (r_payment_method req)).

(** The header row that step 4 writes for a subtotal and a wrapping. *)
Definition header_written (db : D1) (sub : Z) (wrapping : string) (row : order) : Prop :=
  o_id row = orders_seq db + 1 ∧ subtotal_pkr row = sub
  ∧ shipping_pkr row = SHIPPING_PKR sub ∧ discount_pkr row = DISCOUNT_PKR
  ∧ total_pkr row = totalPkr sub wrapping ∧ gift_wrapping row = wrapping.

(** The product row that the loop's [dbProducts.find] reaches for a cart
    line, read on the table itself. *)
Definition product_for (db : D1) (item : cart_item) : option product :=
  List.find (λ p, p_id p =? ci_product_id item) (products db).

(** *** Sample data for the worked examples *)

Definition floral_bloom : product :=
  {| p_id := 1; p_name := "Floral Bloom"; price_pkr := 2500;
     sale_price_pkr := None; stock := 3; is_active := 1 |}.

(** On sale below the list price. *)
Definition velvet_rose : product :=
  {| p_id := 2; p_name := "Velvet Rose"; price_pkr := 5500;
     sale_price_pkr := Some 4999; stock := 10; is_active := 1 |}.

(** A sale price above the list price. *)
Definition midnight_oud : product :=
  {| p_id := 3; p_name := "Midnight Oud"; price_pkr := 4000;
     sale_price_pkr := Some 4500; stock := 10; is_active := 1 |}.

(** A row with a negative price, which the REAL column accepts. *)
Definition store_credit : product :=
  {| p_id := 4; p_name := "Store Credit"; price_pkr := -1000;
     sale_price_pkr := None; stock := 10; is_active := 1 |}.

Definition shop : D1 :=
  {| products := [floral_bloom; velvet_rose; midnight_oud; store_credit];
     orders := []; order_items := [];
     orders_seq := 0; order_items_seq := 0 |}.

Definition line (id : Z) (qty : string) : cart_item :=
  {| ci_product_id := id; ci_quantity := qty |}.

(** A complete request with the given wrapping key and cart. *)
Definition order_form (wrapping : option string) (items : list cart_item) : request :=
  {| r_customer_name := Some "Ayesha Khan";
     r_customer_phone := Some "03001234567";
     r_customer_city := Some "Lahore";
     r_customer_address := Some " 12 Mall Road ";
     r_payment_method := None;
     r_gift_wrapping := wrapping;
     r_gift_message := None;
     r_notes := None;
     r_items := items |}.

(** The same form with a name made of a space, U+00A0 and a tab. *)
Definition nameless_form (items : list cart_item) : request :=
  {| r_customer_name := Some (" " +:+ Js.nbsp +:+ String "009" "");
     r_customer_phone := Some "03001234567";
     r_customer_city := Some "Lahore";
     r_customer_address := Some " 12 Mall Road ";
     r_payment_method := None;
     r_gift_wrapping := None;
     r_gift_message := None;
     r_notes := None;
     r_items := items |}.

Definition no_fault : nat → bool := λ _, false.
Definition fault_at (k : nat) : nat → bool := λ i, Nat.eqb i k.

End Storefront.

(** ** The storefront checkout with its amounts as IEEE doubles *)

(** [price_pkr], [sale_price_pkr] and the amounts of [orders] and
    [order_items] are REAL columns and the handler computes with
    JavaScript numbers: both are binary64.  [Storefront] above reads the
    handler on whole rupees; this module is the same handler with every
    amount a [float] (the binary64 numbers of the kernel, whose [+], [-],
    [*] and comparisons round and compare as JavaScript's do), for the
    properties that depend on the arithmetic.  Ids, stock and quantities
    stay in [Z], and the request, the cart lines, the messages and the
    coercion of the quantity are those of [Storefront]. *)
Module StorefrontDoubles.

(** The Number of an integer: its value rounded to the nearest double,
    ties to even.  This is the number [parseInt] and [Math.max] hand to
    the multiplication. *)
Definition of_Z (z : Z) : float := SF2Prim (binary_normalize prec emax z 0 false).

(** The decimal [n / 100] as a JSON body or an SQL literal is read: the
    double nearest to it. *)
Definition of_cents (n : Z) : float := (of_Z n / 100)%float.

(** The columns of [products] that the checkout query selects. *)
Record product := {
  p_id : Z;
  p_name : string;
  price_pkr : float;
  sale_price_pkr : option float;     (* NULL = no active sale *)
  stock : Z;
  is_active : Z
}.

Record order := {
  o_id : Z;
  customer_name : string;
  customer_phone : string;
  customer_city : string;
  customer_address : string;
  user_id : option Z;
  status : string;
  payment_method : string;
  payment_status : string;
  subtotal_pkr : float;
  shipping_pkr : float;
  discount_pkr : float;
  total_pkr : float;
  gift_wrapping : string;
  gift_message : option string;
  notes : option string;
  whatsapp_sent_at : option string;
  o_created_at : string;
  o_updated_at : string
}.

Record order_item := {
  oi_id : Z;
  oi_order_id : Z;
  oi_product_id : Z;
  oi_product_name : string;
  oi_quantity : Z;
  oi_unit_price_pkr : float;
  oi_line_total_pkr : float;
  oi_created_at : string
}.

Record D1 := {
  products : list product;
  orders : list order;
  order_items : list order_item;
  orders_seq : Z;
  order_items_seq : Z
}.

(** An element of [lineItems]. *)
Record line_item := {
  product_id : Z;
  product_name : string;
  quantity : Z;
  unit_price_pkr : float;
  line_total_pkr : float
}.

(** The [summary] object handed to [c.json], without [total_display]. *)
Record summary := {
  s_items : list line_item;
  s_subtotal_pkr : float;
  s_shipping_pkr : float;
  s_discount_pkr : float;
  s_wrapping_fee : float;
  s_total_pkr : float;
  s_free_shipping : bool
}.

Inductive response :=
| jsonError (m : Storefront.message) (http_status : Z)
| Json (order_id : Z) (s : summary)
| Uncaught.

(** *** Constants of the handler *)

Definition FREE_SHIPPING_THRESHOLD : float := 5000.
Definition WRAPPING_FEES : gmap string float :=
  {[ "none" := 0%float; "standard" := 300%float; "premium" := 600%float ]}.
Definition DISCOUNT_PKR : float := 0.   (* hook in coupon logic here *)

(** [subtotalPkr >= FREE_SHIPPING_THRESHOLD ? 0 : 200]; the comparison is
    false on NaN. *)
Definition SHIPPING_PKR (subtotalPkr : float) : float :=
  if (FREE_SHIPPING_THRESHOLD <=? subtotalPkr)%float then 0%float else 200%float.

(** [WRAPPING_FEES[gift_wrapping] ?? 0] *)
Definition WRAPPING_FEE (gift_wrapping : string) : float :=
  default 0%float (WRAPPING_FEES !! gift_wrapping).

(** [subtotalPkr + SHIPPING_PKR + WRAPPING_FEE - DISCOUNT_PKR], which
    JavaScript evaluates from left to right, rounding after each step. *)
Definition totalPkr (subtotalPkr : float) (gift_wrapping : string) : float :=
  (subtotalPkr + SHIPPING_PKR subtotalPkr + WRAPPING_FEE gift_wrapping - DISCOUNT_PKR)%float.

(** *** Step 1: server-side prices *)

Definition select_products (ids : gset Z) (db : D1) : list product :=
  filter (λ p, p_id p ∈ ids) (products db).

(** *** Step 2: one turn of the loop over [items] *)

(** [product.sale_price_pkr ?? product.price_pkr] *)
Definition unitPrice (p : product) : float :=
  default (price_pkr p) (sale_price_pkr p).

(** The body of [for (const item of items)]; [lineTotal = unitPrice * qty]
    is one multiplication of doubles. *)
Definition line_of (dbProducts : list product) (item : Storefront.cart_item)
    : response + line_item :=
  let qty := Storefront.qty_of item in
  match List.find (λ p, p_id p =? Storefront.ci_product_id item) dbProducts with
  | None => inl (jsonError (Storefront.ProductNotFound (Storefront.ci_product_id item)) 422)
  | Some p =>
      if is_active p =? 0
      then inl (jsonError (Storefront.CurrentlyUnavailable (p_name p)) 422)
      else if stock p <? qty
      then inl (jsonError (Storefront.OnlyLeftInStock (p_name p) (stock p)) 422)
      else
        let lineTotal := (unitPrice p * of_Z qty)%float in
        inr {| product_id := p_id p;
               product_name := p_name p;
               quantity := qty;
               unit_price_pkr := unitPrice p;
               line_total_pkr := lineTotal |}
  end.

(** The loop, with its two accumulators; [subtotalPkr += lineTotal] is one
    addition of doubles per line. *)
Fixpoint build_lines (dbProducts : list product) (items : list Storefront.cart_item)
    (subtotalPkr : float) (lineItems : list line_item)
    : response + (float * list line_item) :=
  match items with
  | [] => inr (subtotalPkr, lineItems)
  | item :: rest =>
      match line_of dbProducts item with
      | inl r => inl r
      | inr li =>
          build_lines dbProducts rest
            (subtotalPkr + line_total_pkr li)%float (lineItems ++ [li])
      end
  end.

(** *** Steps 4 and 5: the writes *)

(** [INSERT INTO orders (...) VALUES (...) RETURNING id].  A REAL column
    keeps the double that is bound to it. *)
Definition insert_order (now : string)
    (name phone city address payment wrapping : string)
    (message note : option string) (subtotal shipping discount total : float)
    (db : D1) : Z * D1 :=
  let id := orders_seq db + 1 in
  let row := {| o_id := id;
                customer_name := name;
                customer_phone := phone;
                customer_city := city;
                customer_address := address;
                user_id := None;
                status := "pending_whatsapp";
                payment_method := payment;
                payment_status := "pending";
                subtotal_pkr := subtotal;
                shipping_pkr := shipping;
                discount_pkr := discount;
                total_pkr := total;
                gift_wrapping := wrapping;
                gift_message := message;
                notes := note;
                whatsapp_sent_at := Some now;
                o_created_at := now;
                o_updated_at := now |} in
  (id, {| products := products db;
          orders := orders db ++ [row];
          order_items := order_items db;
          orders_seq := id;
          order_items_seq := order_items_seq db |}).

(** One [INSERT INTO order_items (...) VALUES (?,?,?,?,?,?)]. *)
Definition insert_order_item (now : string) (orderId : Z) (li : line_item) (db : D1) : D1 :=
  let id := order_items_seq db + 1 in
  {| products := products db;
     orders := orders db;
     order_items := order_items db ++
       [{| oi_id := id;
           oi_order_id := orderId;
           oi_product_id := product_id li;
           oi_product_name := product_name li;
           oi_quantity := quantity li;
           oi_unit_price_pkr := unit_price_pkr li;
           oi_line_total_pkr := line_total_pkr li;
           oi_created_at := now |}];
     orders_seq := orders_seq db;
     order_items_seq := id |}.

(** [db.batch(statements)], with the fault behaviour [fails] of the store
    as in [Storefront.batch]. *)
Fixpoint batch_from (fails : nat → bool) (now : string) (orderId : Z)
    (i : nat) (lineItems : list line_item) (db : D1) : option D1 :=
  match lineItems with
  | [] => Some db
  | li :: rest =>
      if fails i then None
      else batch_from fails now orderId (S i) rest (insert_order_item now orderId li db)
  end.

Definition batch (fails : nat → bool) (now : string) (orderId : Z)
    (lineItems : list line_item) (db : D1) : option D1 :=
  batch_from fails now orderId 0 lineItems db.

(** *** The handler *)

(** [app.post('/api/checkout', ...)].  An amount that is not finite would
    reach the store as NULL; the properties below are about runs that
    answer, and say nothing that depends on how the store takes it. *)
Definition checkout (fails : nat → bool) (now : string) (req : Storefront.request) (db : D1)
    : D1 * response :=
  let payment_method := default "cod" (Storefront.r_payment_method req) in
  let gift_wrapping := default "none" (Storefront.r_gift_wrapping req) in
  let gift_message := Some (default "" (Storefront.r_gift_message req)) in
  let notes := Some (default "" (Storefront.r_notes req)) in
  let items := Storefront.r_items req in
  if Js.blank (Storefront.r_customer_name req)
    then (db, jsonError Storefront.ApnaNaamDarain 400)
  else if Js.blank (Storefront.r_customer_phone req)
    then (db, jsonError Storefront.PhoneNumberDarain 400)
  else if Js.blank (Storefront.r_customer_city req)
    then (db, jsonError Storefront.SheherKaNaamDarain 400)
  else if Js.blank (Storefront.r_customer_address req)
    then (db, jsonError Storefront.AddressDarain 400)
  else if bool_decide (items = []) then (db, jsonError Storefront.CartIsEmpty 400)
  else if negb (Storefront.includes Storefront.VALID_PAYMENTS payment_method)
    then (db, jsonError Storefront.InvalidPaymentMethod 400)
  else if negb (Storefront.includes Storefront.VALID_WRAPPING gift_wrapping)
    then (db, jsonError Storefront.InvalidGiftWrappingOption 400)
  else
    let dbProducts := select_products (Storefront.productIds items) db in
    match build_lines dbProducts items 0%float [] with
    | inl r => (db, r)
    | inr (subtotalPkr, lineItems) =>
        let '(orderId, db1) :=
          insert_order now
            (Js.trim (default "" (Storefront.r_customer_name req)))
            (Js.trim (default "" (Storefront.r_customer_phone req)))
            (Js.trim (default "" (Storefront.r_customer_city req)))
            (Js.trim (default "" (Storefront.r_customer_address req)))
            payment_method gift_wrapping
            (Js.trim_or_null gift_message) (Js.trim_or_null notes)
            subtotalPkr (SHIPPING_PKR subtotalPkr) DISCOUNT_PKR
            (totalPkr subtotalPkr gift_wrapping) db in
        match batch fails now orderId lineItems db1 with
        | None => (db1, Uncaught)
        | Some db2 =>
            (db2, Json orderId
                    {| s_items := lineItems;
                       s_subtotal_pkr := subtotalPkr;
                       s_shipping_pkr := SHIPPING_PKR subtotalPkr;
                       s_discount_pkr := DISCOUNT_PKR;
                       s_wrapping_fee := WRAPPING_FEE gift_wrapping;
                       s_total_pkr := totalPkr subtotalPkr gift_wrapping;
                       s_free_shipping := (SHIPPING_PKR subtotalPkr =? 0)%float |})
        end
    end.

(** *** Vocabulary of the statements *)

(** The subtotal that the loop reaches from [subtotalPkr] over the lines
    [ls]: the line totals added one by one, in the order of the cart. *)
Definition add_line_totals (subtotalPkr : float) (ls : list line_item) : float :=
  foldl (λ acc li, (acc + line_total_pkr li)%float) subtotalPkr ls.

(** The rows that a batch which goes through adds to [order_items] when
    the counter stands at [seq]. *)
Fixpoint item_rows (now : string) (orderId seq : Z) (ls : list line_item) : list order_item :=
  match ls with
  | [] => []
  | li :: rest =>
      {| oi_id := seq + 1;
         oi_order_id := orderId;
         oi_product_id := product_id li;
         oi_product_name := product_name li;
         oi_quantity := quantity li;
         oi_unit_price_pkr := unit_price_pkr li;
         oi_line_total_pkr := line_total_pkr li;
         oi_created_at := now |} :: item_rows now orderId (seq + 1) rest
  end.

(** The product row that the loop's [dbProducts.find] reaches for a cart
    line, read on the table itself. *)
Definition product_for (db : D1) (item : Storefront.cart_item) : option product :=
  List.find (λ p, p_id p =? Storefront.ci_product_id item) (products db).

(** The representations of the doubles [x] with [0 <= x]: the two zeros,
    the positive numbers and plus infinity. *)
Definition no_sign (x : spec_float) : Prop :=
  match x with
  | S754_zero _ | S754_infinity false | S754_finite false _ _ => True
  | _ => False
  end.

(** [n] shifted left by [k] binary places. *)
Definition shl (n : positive) (k : Z) : positive :=
  match k with
  | Z.pos p => Pos.iter xO n p
  | _ => n
  end.

(** The number of binary digits of [n]. *)
Definition digits (n : positive) : Z := Z.pos (digits2_pos n).

(** The representation of the double that is the integer [n], for [n]
    below 2^53: the mantissa is [n] shifted to 53 digits. *)
Definition rep (n : positive) : spec_float :=
  S754_finite false (shl n (53 - digits n)) (digits n - 53).

(** A row of [products] read on whole rupees and the same row read on
    doubles: everything but the two prices. *)
Definition same_but_prices (p : Storefront.product) (q : product) : Prop :=
  Storefront.p_id p = p_id q ∧ Storefront.p_name p = p_name q
  ∧ Storefront.stock p = stock q ∧ Storefront.is_active p = is_active q.

Definition same_line (li : Storefront.line_item) (li' : line_item) : Prop :=
  Storefront.product_id li = product_id li'
  ∧ Storefront.product_name li = product_name li'
  ∧ Storefront.quantity li = quantity li'.

(** The same answer, amounts apart. *)
Definition same_answer (r : Storefront.response) (r' : response) : Prop :=
  match r, r' with
  | Storefront.jsonError m st, jsonError m' st' => m = m' ∧ st = st'
  | Storefront.Json oid s, Json oid' s' =>
      oid = oid' ∧ Forall2 same_line (Storefront.s_items s) (s_items s')
  | Storefront.Uncaught, Uncaught => True
  | _, _ => False
  end.

(** *** The tables and the answer of [Storefront], read in doubles *)

Definition product_in_doubles (p : Storefront.product) : product :=
  {| p_id := Storefront.p_id p;
     p_name := Storefront.p_name p;
     price_pkr := of_Z (Storefront.price_pkr p);
     sale_price_pkr := of_Z <$> Storefront.sale_price_pkr p;
     stock := Storefront.stock p;
     is_active := Storefront.is_active p |}.

Definition order_in_doubles (o : Storefront.order) : order :=
  {| o_id := Storefront.o_id o;
     customer_name := Storefront.customer_name o;
     customer_phone := Storefront.customer_phone o;
     customer_city := Storefront.customer_city o;
     customer_address := Storefront.customer_address o;
     user_id := Storefront.user_id o;
     status := Storefront.status o;
     payment_method := Storefront.payment_method o;
     payment_status := Storefront.payment_status o;
     subtotal_pkr := of_Z (Storefront.subtotal_pkr o);
     shipping_pkr := of_Z (Storefront.shipping_pkr o);
     discount_pkr := of_Z (Storefront.discount_pkr o);
     total_pkr := of_Z (Storefront.total_pkr o);
     gift_wrapping := Storefront.gift_wrapping o;
     gift_message := Storefront.gift_message o;
     notes := Storefront.notes o;
     whatsapp_sent_at := Storefront.whatsapp_sent_at o;
     o_created_at := Storefront.o_created_at o;
     o_updated_at := Storefront.o_updated_at o |}.

Definition order_item_in_doubles (r : Storefront.order_item) : order_item :=
  {| oi_id := Storefront.oi_id r;
     oi_order_id := Storefront.oi_order_id r;
     oi_product_id := Storefront.oi_product_id r;
     oi_product_name := Storefront.oi_product_name r;
     oi_quantity := Storefront.oi_quantity r;
     oi_unit_price_pkr := of_Z (Storefront.oi_unit_price_pkr r);
     oi_line_total_pkr := of_Z (Storefront.oi_line_total_pkr r);
     oi_created_at := Storefront.oi_created_at r |}.

Definition in_doubles (db : Storefront.D1) : D1 :=
  {| products := product_in_doubles <$> Storefront.products db;
     orders := order_in_doubles <$> Storefront.orders db;
     order_items := order_item_in_doubles <$> Storefront.order_items db;
     orders_seq := Storefront.orders_seq db;
     order_items_seq := Storefront.order_items_seq db |}.

Definition line_in_doubles (li : Storefront.line_item) : line_item :=
  {| product_id := Storefront.product_id li;
     product_name := Storefront.product_name li;
     quantity := Storefront.quantity li;
     unit_price_pkr := of_Z (Storefront.unit_price_pkr li);
     line_total_pkr := of_Z (Storefront.line_total_pkr li) |}.

Definition summary_in_doubles (s : Storefront.summary) : summary :=
  {| s_items := line_in_doubles <$> Storefront.s_items s;
     s_subtotal_pkr := of_Z (Storefront.s_subtotal_pkr s);
     s_shipping_pkr := of_Z (Storefront.s_shipping_pkr s);
     s_discount_pkr := of_Z (Storefront.s_discount_pkr s);
     s_wrapping_fee := of_Z (Storefront.s_wrapping_fee s);
     s_total_pkr := of_Z (Storefront.s_total_pkr s);
     s_free_shipping := Storefront.s_free_shipping s |}.

(** The rational number that a finite double stands for: the sign, the
    mantissa and the binary exponent of its representation. *)
Definition exact (x : float) : option Q :=
  match Prim2SF x with
  | S754_zero _ => Some (inject_Z 0)
  | S754_finite s m e =>
      let n := if s then Z.neg m else Z.pos m in
      Some (if 0 <=? e then inject_Z (n * 2 ^ e) else Qmake n (Z.to_pos (2 ^ (- e))))
  | S754_infinity _ | S754_nan => None
  end.

(** Whether the number [t] stands for is the sum [sub + ship + fee - disc]
    of the numbers its terms stand for; [None] when one of the five is not
    finite. *)
Definition is_exact_total (t sub ship fee disc : float) : option bool :=
  match exact t, exact sub, exact ship, exact fee, exact disc with
  | Some t', Some a, Some b, Some c, Some d => Some (Qeq_bool t' (a + b + c - d)%Q)
  | _, _, _, _, _ => None
  end.


(** *** Sample data for the worked examples *)

Definition floral_bloom : product :=
  {| p_id := 1; p_name := "Floral Bloom"; price_pkr := 2500;
     sale_price_pkr := None; stock := 3; is_active := 1 |}.

Definition velvet_rose : product :=
  {| p_id := 2; p_name := "Velvet Rose"; price_pkr := 5500;
     sale_price_pkr := Some 4999%float; stock := 10; is_active := 1 |}.

(** Priced at 999.99. *)
Definition attar_sample : product :=
  {| p_id := 3; p_name := "Attar Sample"; price_pkr := of_cents 99999;
     sale_price_pkr := None; stock := 10; is_active := 1 |}.

(** A row with a negative price, which the REAL column accepts. *)
Definition store_credit : product :=
  {| p_id := 4; p_name := "Store Credit"; price_pkr := -1000;
     sale_price_pkr := None; stock := 10; is_active := 1 |}.

(** Priced at 499.99. *)
Definition rose_mist : product :=
  {| p_id := 5; p_name := "Rose Mist"; price_pkr := of_cents 49999;
     sale_price_pkr := None; stock := 10; is_active := 1 |}.

Definition shop : D1 :=
  {| products := [floral_bloom; velvet_rose; attar_sample; store_credit; rose_mist];
     orders := []; order_items := [];
     orders_seq := 0; order_items_seq := 0 |}.

End StorefrontDoubles.

(** ** The Stripe worker: the payment webhook of [src/worker.js] *)

Module StripeWorker.

(** [status TEXT CHECK(status IN ('pending','paid','shipped','delivered','cancelled'))] *)
Inductive order_status := pending | paid | shipped | delivered | cancelled.

#[export] Instance order_status_eq_dec : EqDecision order_status.
Proof. solve_decision. Defined.

(** A row of [orders] in the schema of the Stripe worker. *)
Record order := {
  id : Z;
  user_id : option Z;
  status : order_status;
  stripe_payment_intent : option string;     (* TEXT UNIQUE, NULL until the intent exists *)
  stripe_charge_id : option string;
  gift_wrapping : option string;
  gift_message : option string;
  subtotal_cents : Z;
  tax_cents : Z;
  shipping_cents : Z;
  total_cents : Z;
  shipping_address : option string;
  created_at : string;
  updated_at : string
}.

(** [event.data.object] of a payment-intent event: the fields read. *)
Record payment_intent := {
  pi_id : string;
  latest_charge : option string
}.

Record event := {
  type : string;
  data_object : payment_intent
}.

Inductive message :=
| WebhookSignatureVerificationFailed (err_message : string).

Inductive response :=
| jsonError (m : message) (http_status : Z)
| JsonReceived.                              (* c.json({ received: true }) *)

(** The HTTP status of an answer; [c.json] without a status is 200. *)
Definition status_of (r : response) : Z :=
  match r with
  | jsonError _ st => st
  | JsonReceived => 200
  end.

(** The effect of the UPDATE on one row: [SET status = 'paid',
    stripe_charge_id = ?, updated_at = datetime('now')] where
    [stripe_payment_intent = ?], any other row as it was. *)
Definition set_paid (charge intent now : string) (o : order) : order :=
  if bool_decide (stripe_payment_intent o = Some intent) then
    {| id := id o;
       user_id := user_id o;
       status := paid;
       stripe_payment_intent := stripe_payment_intent o;
       stripe_charge_id := Some charge;
       gift_wrapping := gift_wrapping o;
       gift_message := gift_message o;
       subtotal_cents := subtotal_cents o;
       tax_cents := tax_cents o;
       shipping_cents := shipping_cents o;
       total_cents := total_cents o;
       shipping_address := shipping_address o;
       created_at := created_at o;
       updated_at := now |}
  else o.

(** [UPDATE orders SET ... WHERE stripe_payment_intent = ?] on the table. *)
Definition update_paid (charge intent now : string) (db : list order) : list order :=
  set_paid charge intent now <$> db.

Section Webhook.

(** [stripe.webhooks.constructEventAsync(body, signature, secret)] of
    the Stripe SDK: the verified event, or the message of the error
    it throws. *)
Variable constructEventAsync : string → string → string → string + event.

(** [app.post('/api/checkout/webhook', ...)]: [secret] is
    [STRIPE_WEBHOOK_SECRET], [signature] the [stripe-signature] header
    (or [''] without one), [now] the store's [datetime('now')].  The
    UPDATE is taken to run: an outage of the store is not part of this
    model. *)
Definition webhook (secret now body signature : string) (db : list order)
    : list order * response :=
  match constructEventAsync body signature secret with
  | inl err_message =>
      (db, jsonError (WebhookSignatureVerificationFailed err_message) 400)
  | inr event =>
      let db' :=
        if bool_decide (type event = "payment_intent.succeeded") then
          let pi := data_object event in
          update_paid (default "" (latest_charge pi)) (pi_id pi) now db
        else db in
      (db', JsonReceived)
  end.

End Webhook.

(** A row without its [updated_at] stamp: the payment state of an order. *)
Definition forget_updated_at (o : order) : order :=
  {| id := id o;
     user_id := user_id o;
     status := status o;
     stripe_payment_intent := stripe_payment_intent o;
     stripe_charge_id := stripe_charge_id o;
     gift_wrapping := gift_wrapping o;
     gift_message := gift_message o;
     subtotal_cents := subtotal_cents o;
     tax_cents := tax_cents o;
     shipping_cents := shipping_cents o;
     total_cents := total_cents o;
     shipping_address := shipping_address o;
     created_at := created_at o;
     updated_at := "" |}.

(** *** Sample data for the worked examples *)

Definition sample_order (n : Z) (st : order_status) (intent charge : option string) : order :=
  {| id := n; user_id := Some 7; status := st;
     stripe_payment_intent := intent; stripe_charge_id := charge;
     gift_wrapping := Some "none"; gift_message := None;
     subtotal_cents := 12000; tax_cents := 0; shipping_cents := 0;
     total_cents := 12000; shipping_address := Some "{}";
     created_at := "2025-03-01 09:00:00"; updated_at := "2025-03-01 09:00:00" |}.

Definition sample_orders : list order :=
  [ sample_order 1 pending (Some "pi_101") None;
    sample_order 2 cancelled (Some "pi_102") None;
    sample_order 3 delivered (Some "pi_103") (Some "ch_old");
    sample_order 4 pending None None ].

Definition succeeded (intent : string) (charge : option string) : event :=
  {| type := "payment_intent.succeeded";
     data_object := {| pi_id := intent; latest_charge := charge |} |}.

(** A stand-in for the SDK in the examples: the signature must be the
    secret, and the body names the event. *)
Definition sample_construct (body signature secret : string) : string + event :=
  if bool_decide (signature = secret) then
    if bool_decide (body = "succeeded pi_101") then inr (succeeded "pi_101" (Some "ch_501"))
    else if bool_decide (body = "succeeded pi_102") then inr (succeeded "pi_102" (Some "ch_502"))
    else if bool_decide (body = "succeeded pi_999") then inr (succeeded "pi_999" None)
    else inr {| type := "charge.refunded";
                data_object := {| pi_id := "ch_501"; latest_charge := None |} |}
  else inl "No signatures found matching the expected signature for payload".

End StripeWorker.

(** ** Answers and the token check shared by both workers *)

Module Http.

(** What a handler other than the storefront checkout answers:
    [jsonError(message, status)] or [c.json(body, status)]. *)
Inductive reply (A : Type) :=
| jsonError (message : string) (http_status : Z)
| json (body : A) (http_status : Z).

Arguments jsonError {A} message http_status.
Arguments json {A} body http_status.

End Http.

Module Auth.

(** The claims of a token that the handlers read; [exp] is checked by the
    library that verifies the token. *)
Record payload := {
  id : Z;
  email : option string;
  username : option string;
  role : string
}.

(** [header.slice(n)]: the text from position [n] on. *)
Fixpoint slice (n : nat) (s : string) : string :=
  match n, s with
  | O, _ => s
  | S n', String _ rest => slice n' rest
  | S _, EmptyString => EmptyString
  end.

(** [header.startsWith('Bearer ') ? header.slice(7) : null] *)
Definition bearer_token (header : string) : option string :=
  if String.prefix "Bearer " header then Some (slice 7 header) else None.

Section Middleware.

Context {S A : Type}.

(** [verify(token, secret)] of [hono/jwt]: the payload, or [None] when it
    throws (bad signature, expired, malformed). *)
Variable verify : string → string → option payload.

(** [authMiddleware]: [authorization] is the [Authorization] header,
    [next] the rest of the route, which finds the payload under ['user'].
    An exception of [next] does not come back here: the framework turns
    it into an answer inside [next]. *)
Definition authMiddleware (JWT_SECRET : string) (authorization : option string)
    (next : payload → S → S * Http.reply A) (s : S) : S * Http.reply A :=
  let header := default "" authorization in
  match bearer_token header with
  | None | Some EmptyString => (s, Http.jsonError "Unauthorised" 401)
  | Some token =>
      match verify token JWT_SECRET with
      | Some user => next user s
      | None => (s, Http.jsonError "Invalid or expired token" 401)
      end
  end.

(** [adminOnly], after [authMiddleware] has stored the payload. *)
Definition adminOnly (user : payload) (next : S → S * Http.reply A) (s : S)
    : S * Http.reply A :=
  if bool_decide (role user = "admin") then next s
  else (s, Http.jsonError "Forbidden" 403).

End Middleware.

End Auth.

(** ** The storefront: order administration, order history, dashboard *)

Module Orders.
Import Storefront.

Definition VALID_STATUS : list string :=
  ["pending_whatsapp"; "confirmed"; "dispatched"; "delivered"; "cancelled"].
Definition VALID_PAYMENT : list string := ["pending"; "paid"; "refunded"].

(** A text field of the body as a condition: a missing key and [''] are
    falsy; [Some s] is the value when the condition holds. *)
Definition truthy (x : option string) : option string :=
  match x with
  | Some EmptyString => None
  | other => other
  end.

(** [x && !VALID.includes(x)] *)
Definition invalid (valid : list string) (x : option string) : bool :=
  match truthy x with
  | Some s => negb (includes valid s)
  | None => false
  end.

(** The SET list of the UPDATE on one row: [updated_at = datetime('now')]
    always, [status = ?] and [payment_status = ?] when the body has them. *)
Definition update_order_row (now : string) (new_status new_payment : option string)
    (o : order) : order :=
  {| o_id := o_id o;
     customer_name := customer_name o;
     customer_phone := customer_phone o;
     customer_city := customer_city o;
     customer_address := customer_address o;
     user_id := user_id o;
     status := default (status o) (truthy new_status);
     payment_method := payment_method o;
     payment_status := default (payment_status o) (truthy new_payment);
     subtotal_pkr := subtotal_pkr o;
     shipping_pkr := shipping_pkr o;
     discount_pkr := discount_pkr o;
     total_pkr := total_pkr o;
     gift_wrapping := gift_wrapping o;
     gift_message := gift_message o;
     notes := notes o;
     whatsapp_sent_at := whatsapp_sent_at o;
     o_created_at := o_created_at o;
     o_updated_at := now |}.

Definition with_orders (rows : list order) (db : D1) : D1 :=
  {| products := products db;
     orders := rows;
     order_items := order_items db;
     orders_seq := orders_seq db;
     order_items_seq := order_items_seq db |}.

(** The handler of [PUT /api/admin/orders/:id], after the two middlewares.
    [id] is [parseInt(c.req.param('id'))] for a path parameter that starts
    with a number; the body of the answer is [order_id]. *)
Definition put_admin_order (now : string) (id : Z) (new_status new_payment : option string)
    (db : D1) : D1 * Http.reply Z :=
  if invalid VALID_STATUS new_status then (db, Http.jsonError "Invalid status value" 400)
  else if invalid VALID_PAYMENT new_payment
    then (db, Http.jsonError "Invalid payment_status value" 400)
  else
    (with_orders
       ((λ o, if o_id o =? id then update_order_row now new_status new_payment o else o)
          <$> orders db) db,
     Http.json id 200).

(** The joined rows of the detail query: an order item and the product
    row it joins (of which the query reads image_url, slug and gender). *)
Definition order_items_joined (id : Z) (db : D1) : list (order_item * product) :=
  oi ← filter (λ oi, oi_order_id oi = id) (order_items db);
  (λ p, (oi, p)) <$> filter (λ p, p_id p = oi_product_id oi) (products db).

(** The handler of [GET /api/orders/:id], after [authMiddleware]. *)
Definition get_order (user : Auth.payload) (id : Z) (db : D1)
    : Http.reply (order * list (order_item * product)) :=
  match List.find (λ o, o_id o =? id) (orders db) with
  | None => Http.jsonError "Order not found" 404
  | Some order =>
      if bool_decide (user_id order ≠ Some (Auth.id user))
         && bool_decide (Auth.role user ≠ "admin")
      then Http.jsonError "Forbidden" 403
      else Http.json (order, order_items_joined (o_id order) db) 200
  end.

(** The WHERE clause of [GET /api/orders]: the rows of one account. *)
Definition orders_of (user : Auth.payload) (db : D1) : list order :=
  filter (λ o, user_id o = Some (Auth.id user)) (orders db).

Section History.

(** [ORDER BY created_at DESC]: the engine's arrangement of the selected
    rows, newest first. *)
Variable newest_first : list order → list order.

(** The handler of [GET /api/orders], after [authMiddleware]. *)
Definition get_orders (user : Auth.payload) (db : D1) : Http.reply (list order) :=
  Http.json (take 20 (newest_first (orders_of user db))) 200.

End History.

(** The body of [GET /api/admin/stats], without [revenue_display]. *)
Record stats := {
  total_orders : Z;
  pending_orders : Z;
  total_revenue : Z;
  active_products : Z
}.

Section Dashboard.

(** [COALESCE(SUM(total_pkr), 0)]: what the engine makes of the values of
    the column on the selected rows, given in the order of the rows.  The
    column is REAL and the engine adds doubles in its own way, so the
    function is taken as it comes. *)
Variable SUM : list Z → Z.

(** The handler of [GET /api/admin/stats], after the two middlewares. *)
Definition get_admin_stats (db : D1) : stats :=
  {| total_orders := Z.of_nat (length (orders db));
     pending_orders :=
       Z.of_nat (length (filter (λ o, status o = "pending_whatsapp") (orders db)));
     total_revenue :=
       SUM (total_pkr <$> filter (λ o, status o ≠ "cancelled") (orders db));
     active_products :=
       Z.of_nat (length (filter (λ p, is_active p = 1) (products db))) |}.

End Dashboard.

(** *** The product view of [GET /api/products] and [GET /api/products/:slug] *)

(** [p.sale_price_pkr ?? p.price_pkr] *)
Definition effective_price_pkr (p : product) : Z :=
  default (price_pkr p) (sale_price_pkr p).

(** [Boolean(p.sale_price_pkr && p.sale_price_pkr < p.price_pkr)] *)
Definition on_sale (p : product) : bool :=
  match sale_price_pkr p with
  | Some sale => negb (sale =? 0) && (sale <? price_pkr p)
  | None => false
  end.

(** *** Vocabulary of the statements *)

(** The row that step 4 of the checkout inserts under the id [id] when
    the cart adds up to [sub]. *)
Definition header_row (now : string) (req : request) (id sub : Z) : order :=
  {| o_id := id;
     customer_name := Js.trim (default "" (r_customer_name req));
     customer_phone := Js.trim (default "" (r_customer_phone req));
     customer_city := Js.trim (default "" (r_customer_city req));
     customer_address := Js.trim (default "" (r_customer_address req));
     user_id := None;
     status := "pending_whatsapp";
     payment_method := default "cod" (r_payment_method req);
     payment_status := "pending";
     subtotal_pkr := sub;
     shipping_pkr := SHIPPING_PKR sub;
     discount_pkr := DISCOUNT_PKR;
     total_pkr := totalPkr sub (default "none" (r_gift_wrapping req));
     gift_wrapping := default "none" (r_gift_wrapping req);
     gift_message := Js.trim_or_null (Some (default "" (r_gift_message req)));
     notes := Js.trim_or_null (Some (default "" (r_notes req)));
     whatsapp_sent_at := Some now;
     o_created_at := now;
     o_updated_at := now |}.

(** The database once the header row is in. *)
Definition with_header (now : string) (req : request) (sub : Z) (db : D1) : D1 :=
  {| products := products db;
     orders := orders db ++ [header_row now req (orders_seq db + 1) sub];
     order_items := order_items db;
     orders_seq := orders_seq db + 1;
     order_items_seq := order_items_seq db |}.

(** The database once the header row and the item rows are in. *)
Definition with_order (now : string) (req : request) (sub : Z) (lis : list line_item)
    (db : D1) : D1 :=
  {| products := products db;
     orders := orders db ++ [header_row now req (orders_seq db + 1) sub];
     order_items :=
       order_items db ++ item_rows now (orders_seq db + 1) (order_items_seq db) lis;
     orders_seq := orders_seq db + 1;
     order_items_seq := order_items_seq db + Z.of_nat (length lis) |}.

(** The [summary] of the answer for a cart that adds up to [sub]. *)
Definition summary_of (req : request) (sub : Z) (lis : list line_item) : summary :=
  {| s_items := lis;
     s_subtotal_pkr := sub;
     s_shipping_pkr := SHIPPING_PKR sub;
     s_discount_pkr := DISCOUNT_PKR;
     s_wrapping_fee := WRAPPING_FEE (default "none" (r_gift_wrapping req));
     s_total_pkr := totalPkr sub (default "none" (r_gift_wrapping req));
     s_free_shipping := SHIPPING_PKR sub =? 0 |}.

(** The databases that checkouts and order updates lead to from [db0]. *)
Inductive reachable (db0 : D1) : D1 → Prop :=
| reach_start : reachable db0 db0
| reach_checkout db fails now req :
    reachable db0 db → reachable db0 (fst (checkout fails now req db))
| reach_put_admin_order db now id new_status new_payment :
    reachable db0 db →
    reachable db0 (fst (put_admin_order now id new_status new_payment db)).

(** A cart line that passes the three checks of the loop. *)
Definition line_ok (db : D1) (item : cart_item) : Prop :=
  ∃ p, product_for db item = Some p ∧ is_active p ≠ 0 ∧ qty_of item ≤ stock p.

(** The CHECK constraints of [orders] on one row. *)
Definition checks_hold (o : order) : Prop :=
  status o ∈ VALID_STATUS ∧ payment_method o ∈ VALID_PAYMENTS
  ∧ payment_status o ∈ VALID_PAYMENT ∧ gift_wrapping o ∈ VALID_WRAPPING.

(** Keys and references of the two order tables: ids were handed out by
    the counters and are not repeated, and every order item points to an
    order and to a product that exist. *)
Record consistent (db : D1) : Prop := {
  order_ids_issued : Forall (λ o, o_id o ≤ orders_seq db) (orders db);
  order_ids_unique : NoDup (o_id <$> orders db);
  item_ids_issued : Forall (λ it, oi_id it ≤ order_items_seq db) (order_items db);
  item_ids_unique : NoDup (oi_id <$> order_items db);
  items_have_order : Forall (λ it, oi_order_id it ∈ (o_id <$> orders db)) (order_items db);
  items_have_product :
    Forall (λ it, oi_product_id it ∈ (p_id <$> products db)) (order_items db)
}.

(** *** Sample data for the worked examples *)

(** A [SUM] to run the examples with: the sum of whole rupees. *)
Definition sum_of_whole_rupees (values : list Z) : Z := foldr Z.add 0 values.

Definition admin_user : Auth.payload :=
  {| Auth.id := 1; Auth.email := Some "admin@elegantlavie.pk";
     Auth.username := Some "admin"; Auth.role := "admin" |}.

Definition customer_user : Auth.payload :=
  {| Auth.id := 7; Auth.email := Some "ayesha@example.com";
     Auth.username := Some "ayesha"; Auth.role := "customer" |}.

(** A stand-in for the token library in the examples. *)
Definition sample_verify (token secret : string) : option Auth.payload :=
  if bool_decide (secret = "jwt_secret") then
    if bool_decide (token = "admin.token") then Some admin_user
    else if bool_decide (token = "customer.token") then Some customer_user
    else None
  else None.

(** The shop after one order of two bottles of Floral Bloom. *)
Definition shop_after_order : D1 :=
  fst (checkout no_fault "2025-03-01 10:00:00" (order_form None [line 1 "2"]) shop).

End Orders.

(** ** The Stripe worker: the checkout and the order detail of [src/worker.js] *)

Module StripeCheckout.

(** The columns of [products] that the checkout reads.  [price] is a REAL
    in the schema; it is carried as the whole number of cents that the
    handler makes of it, [Math.round(product.price * 100)]. *)
Record product := {
  p_id : Z;
  price_cents : Z;
  stock : Z;
  is_active : Z
}.

Record order_item := {
  oi_id : Z;
  oi_order_id : Z;
  oi_product_id : Z;
  oi_quantity : Z;
  oi_unit_price_cents : Z;
  oi_created_at : string
}.

Record D1 := {
  products : list product;
  orders : list StripeWorker.order;
  order_items : list order_item;
  orders_seq : Z;
  order_items_seq : Z
}.

(** One entry of [items], with the numbers of the documented request. *)
Record cart_item := {
  product_id : Z;
  quantity : Z
}.

(** The body of the request; [shipping_address] is the JSON text of the
    field. *)
Record request := {
  items : list cart_item;
  gift_wrapping : option string;
  gift_message : option string;
  shipping_address : option string
}.

Record line_item := {
  li_product_id : Z;
  li_quantity : Z;
  unit_price_cents : Z
}.

Inductive message :=
| CartIsEmpty                       (* 'Cart is empty' *)
| NotFoundOrInactive                (* 'One or more products not found or inactive' *)
| ProductNotFound (id : Z)          (* `Product ${id} not found` *)
| InsufficientStock (id : Z).       (* `Insufficient stock for product ${id}` *)

Inductive response :=
| jsonError (m : message) (http_status : Z)
| Json (client_secret : string) (order_id : Z)
| Uncaught.

(** [CHECK(gift_wrapping IN ('emerald_box','wooden_chest','none'))] *)
Definition GIFT_WRAPPING_CHECK : list string := ["emerald_box"; "wooden_chest"; "none"].

(** [SELECT id, price, stock FROM products WHERE id IN (...) AND is_active = 1] *)
Definition select_products (ids : list Z) (db : D1) : list product :=
  filter (λ p, p_id p ∈ ids ∧ is_active p = 1) (products db).

(** The body of the loop over [items]. *)
Definition line_of (selected : list product) (item : cart_item) : response + line_item :=
  match List.find (λ p, p_id p =? product_id item) selected with
  | None => inl (jsonError (ProductNotFound (product_id item)) 422)
  | Some p =>
      if stock p <? quantity item
      then inl (jsonError (InsufficientStock (product_id item)) 422)
      else inr {| li_product_id := p_id p;
                  li_quantity := quantity item;
                  unit_price_cents := price_cents p |}
  end.

(** The loop, with its accumulators [subtotalCents] and [lineItems]. *)
Fixpoint build_lines (selected : list product) (cart : list cart_item)
    (subtotalCents : Z) (lineItems : list line_item) : response + (Z * list line_item) :=
  match cart with
  | [] => inr (subtotalCents, lineItems)
  | item :: rest =>
      match line_of selected item with
      | inl r => inl r
      | inr li =>
          build_lines selected rest
            (subtotalCents + unit_price_cents li * li_quantity li) (lineItems ++ [li])
      end
  end.

(** [INSERT INTO orders (user_id, gift_wrapping, gift_message,
    subtotal_cents, total_cents, shipping_address) ... RETURNING id] with
    the defaults of the other columns.  The row is refused when the
    wrapping breaks the CHECK of the column; the account of the token is
    taken to exist. *)
Definition insert_order (now : string) (user : Z) (wrapping : string)
    (message : option string) (subtotal total : Z) (address : string) (db : D1)
    : option (Z * D1) :=
  if bool_decide (wrapping ∈ GIFT_WRAPPING_CHECK) then
    let id := orders_seq db + 1 in
    Some (id,
          {| products := products db;
             orders := orders db ++
               [{| StripeWorker.id := id;
                   StripeWorker.user_id := Some user;
                   StripeWorker.status := StripeWorker.pending;
                   StripeWorker.stripe_payment_intent := None;
                   StripeWorker.stripe_charge_id := None;
                   StripeWorker.gift_wrapping := Some wrapping;
                   StripeWorker.gift_message := message;
                   StripeWorker.subtotal_cents := subtotal;
                   StripeWorker.tax_cents := 0;
                   StripeWorker.shipping_cents := 0;
                   StripeWorker.total_cents := total;
                   StripeWorker.shipping_address := Some address;
                   StripeWorker.created_at := now;
                   StripeWorker.updated_at := now |}];
             order_items := order_items db;
             orders_seq := id;
             order_items_seq := order_items_seq db |})
  else None.

(** The rows of [db.batch(itemInserts)] when the counter stands at [seq]. *)
Fixpoint item_rows (now : string) (orderId seq : Z) (ls : list line_item) : list order_item :=
  match ls with
  | [] => []
  | li :: rest =>
      {| oi_id := seq + 1;
         oi_order_id := orderId;
         oi_product_id := li_product_id li;
         oi_quantity := li_quantity li;
         oi_unit_price_cents := unit_price_cents li;
         oi_created_at := now |} :: item_rows now orderId (seq + 1) rest
  end.

(** [db.batch(itemInserts)], for a batch that the store takes. *)
Definition insert_items (now : string) (orderId : Z) (ls : list line_item) (db : D1) : D1 :=
  {| products := products db;
     orders := orders db;
     order_items := order_items db ++ item_rows now orderId (order_items_seq db) ls;
     orders_seq := orders_seq db;
     order_items_seq := order_items_seq db + Z.of_nat (length ls) |}.

(** The effect of [SET stripe_payment_intent = ?] on the row [o]. *)
Definition with_intent (intent : string) (o : StripeWorker.order) : StripeWorker.order :=
  {| StripeWorker.id := StripeWorker.id o;
     StripeWorker.user_id := StripeWorker.user_id o;
     StripeWorker.status := StripeWorker.status o;
     StripeWorker.stripe_payment_intent := Some intent;
     StripeWorker.stripe_charge_id := StripeWorker.stripe_charge_id o;
     StripeWorker.gift_wrapping := StripeWorker.gift_wrapping o;
     StripeWorker.gift_message := StripeWorker.gift_message o;
     StripeWorker.subtotal_cents := StripeWorker.subtotal_cents o;
     StripeWorker.tax_cents := StripeWorker.tax_cents o;
     StripeWorker.shipping_cents := StripeWorker.shipping_cents o;
     StripeWorker.total_cents := StripeWorker.total_cents o;
     StripeWorker.shipping_address := StripeWorker.shipping_address o;
     StripeWorker.created_at := StripeWorker.created_at o;
     StripeWorker.updated_at := StripeWorker.updated_at o |}.

(** [UPDATE orders SET stripe_payment_intent = ? WHERE id = ?]; the column
    is UNIQUE, so the statement is refused ([None]) when another row
    already carries the intent. *)
Definition store_intent (intent : string) (orderId : Z) (db : D1) : option D1 :=
  if bool_decide (Exists (λ o, StripeWorker.id o ≠ orderId
                               ∧ StripeWorker.stripe_payment_intent o = Some intent)
                    (orders db))
  then None
  else Some {| products := products db;
               orders := (λ o, if StripeWorker.id o =? orderId
                               then with_intent intent o else o) <$> orders db;
               order_items := order_items db;
               orders_seq := orders_seq db;
               order_items_seq := order_items_seq db |}.

Section Checkout.

(** [stripe.paymentIntents.create({ amount, currency: 'usd', metadata:
    { order_id, user_id }, ... })], given the amount, the order id and the
    user id: the id and the client secret of the intent, or [None] when
    the call throws. *)
Variable paymentIntents_create : Z → Z → Z → option (string * string).

(** The handler of [POST /api/checkout], after [authMiddleware]. *)
Definition checkout (now : string) (user : Auth.payload) (req : request) (db : D1)
    : D1 * response :=
  if bool_decide (items req = []) then (db, jsonError CartIsEmpty 400)
  else
    let productIds := product_id <$> items req in
    let selected := select_products productIds db in
    if negb (length selected =? length (items req))%nat
    then (db, jsonError NotFoundOrInactive 422)
    else
      match build_lines selected (items req) 0 [] with
      | inl r => (db, r)
      | inr (subtotalCents, lineItems) =>
          let totalCents := subtotalCents in
          match insert_order now (Auth.id user) (default "none" (gift_wrapping req))
                  (gift_message req) subtotalCents totalCents
                  (default "{}" (shipping_address req)) db with
          | None => (db, Uncaught)
          | Some (orderId, db1) =>
              let db2 := insert_items now orderId lineItems db1 in
              match paymentIntents_create totalCents orderId (Auth.id user) with
              | None => (db2, Uncaught)
              | Some (intent, client_secret) =>
                  match store_intent intent orderId db2 with
                  | None => (db2, Uncaught)
                  | Some db3 => (db3, Json client_secret orderId)
                  end
              end
          end
      end.

End Checkout.

(** The joined rows of the detail query: an order item and the product
    row it joins (of which the query reads name and image_url). *)
Definition order_items_joined (id : Z) (db : D1) : list (order_item * product) :=
  oi ← filter (λ oi, oi_order_id oi = id) (order_items db);
  (λ p, (oi, p)) <$> filter (λ p, p_id p = oi_product_id oi) (products db).

(** The handler of [GET /api/orders/:id], after [authMiddleware]; [id] is
    [parseInt(c.req.param('id'))] for a parameter that starts with a
    number. *)
Definition get_order (user : Auth.payload) (id : Z) (db : D1)
    : Http.reply (StripeWorker.order * list (order_item * product)) :=
  match List.find (λ o, StripeWorker.id o =? id) (orders db) with
  | None => Http.jsonError "Order not found" 404
  | Some order =>
      if bool_decide (StripeWorker.user_id order ≠ Some (Auth.id user))
         && bool_decide (Auth.role user ≠ "admin")
      then Http.jsonError "Forbidden" 403
      else Http.json (order, order_items_joined (StripeWorker.id order) db) 200
  end.

(** *** Vocabulary of the statements *)

Definition sum_cents (ls : list line_item) : Z :=
  foldr (λ li acc, unit_price_cents li * li_quantity li + acc) 0 ls.

(** The row that the handler inserts for a cart that adds up to [sub]. *)
Definition new_order (now : string) (user : Auth.payload) (req : request) (id sub : Z)
    : StripeWorker.order :=
  {| StripeWorker.id := id;
     StripeWorker.user_id := Some (Auth.id user);
     StripeWorker.status := StripeWorker.pending;
     StripeWorker.stripe_payment_intent := None;
     StripeWorker.stripe_charge_id := None;
     StripeWorker.gift_wrapping := Some (default "none" (gift_wrapping req));
     StripeWorker.gift_message := gift_message req;
     StripeWorker.subtotal_cents := sub;
     StripeWorker.tax_cents := 0;
     StripeWorker.shipping_cents := 0;
     StripeWorker.total_cents := sub;
     StripeWorker.shipping_address := Some (default "{}" (shipping_address req));
     StripeWorker.created_at := now;
     StripeWorker.updated_at := now |}.

(** The database once the order row and its item rows are in. *)
Definition with_order (now : string) (user : Auth.payload) (req : request) (sub : Z)
    (lis : list line_item) (db : D1) : D1 :=
  {| products := products db;
     orders := orders db ++ [new_order now user req (orders_seq db + 1) sub];
     order_items :=
       order_items db ++ item_rows now (orders_seq db + 1) (order_items_seq db) lis;
     orders_seq := orders_seq db + 1;
     order_items_seq := order_items_seq db + Z.of_nat (length lis) |}.

(** The line that the loop makes of a cart entry and its product row. *)
Definition line_for (item : cart_item) (p : product) : line_item :=
  {| li_product_id := p_id p; li_quantity := quantity item;
     unit_price_cents := price_cents p |}.

(** Order ids lie within their counter. *)
Definition ids_issued (db : D1) : Prop :=
  Forall (λ o, StripeWorker.id o ≤ orders_seq db) (orders db).

(** *** Sample data for the worked examples *)

Definition oud_noir : product :=
  {| p_id := 1; price_cents := 18500; stock := 40; is_active := 1 |}.
Definition rose_royale : product :=
  {| p_id := 2; price_cents := 16000; stock := 55; is_active := 1 |}.

Definition boutique : D1 :=
  {| products := [oud_noir; rose_royale]; orders := []; order_items := [];
     orders_seq := 0; order_items_seq := 0 |}.

Definition buyer : Auth.payload :=
  {| Auth.id := 7; Auth.email := Some "layla@example.com";
     Auth.username := None; Auth.role := "customer" |}.

Definition stranger : Auth.payload :=
  {| Auth.id := 8; Auth.email := Some "omar@example.com";
     Auth.username := None; Auth.role := "customer" |}.

Definition cart (lines : list (Z * Z)) : request :=
  {| items := (λ l, {| product_id := l.1; quantity := l.2 |}) <$> lines;
     gift_wrapping := None; gift_message := None; shipping_address := None |}.

(** A stand-in for Stripe in the examples: it refuses amounts under 50
    cents and names the intent after the order. *)
Definition sample_stripe (amount orderId userId : Z) : option (string * string) :=
  if amount <? 50 then None
  else if orderId =? 1 then Some ("pi_order_1", "pi_order_1_secret")
  else Some ("pi_order_n", "pi_order_n_secret").

(** The SDK stand-in of the webhook examples for the event of order 1. *)
Definition sample_construct (body signature secret : string) : string + StripeWorker.event :=
  if bool_decide (signature = secret)
  then inr (StripeWorker.succeeded "pi_order_1" (Some "ch_1"))
  else inl "No signatures found matching the expected signature for payload".

End StripeCheckout.

(** ** Properties of the storefront checkout *)

Module CheckoutFacts.
Import Storefront.

(** Closes the branch of an early [return jsonError(...)], where nothing
    has been written. *)
Ltac early_return := left; simplify_eq; eauto 6.

(** Turns [fields_ok req = true] into the outcome of each check of the
    request and runs those checks in the handler of the goal. *)
Ltac pass_request_checks Hf :=
  unfold fields_ok in Hf;
  repeat (apply andb_prop in Hf as [Hf ?]);
  repeat match goal with H : negb _ = true |- _ => apply negb_true_iff in H end;
  unfold checkout;
  repeat match goal with H : _ = false |- _ => rewrite H end;
  repeat match goal with H : _ = true |- _ => rewrite H end.

(** *** Quantities *)

Lemma qty_of_ge_1 item : 1 ≤ qty_of item.
Proof. unfold qty_of. lia. Qed.


Lemma qty_of_not_positive item n :
  Js.parseInt (ci_quantity item) = Some n → n ≤ 0 → qty_of item = 1.
Proof.
  unfold qty_of. intros -> Hn. unfold Js.or_else.
  destruct (Z.eqb_spec n 0); lia.
Qed.

Lemma qty_of_positive item n :
  Js.parseInt (ci_quantity item) = Some n → 1 ≤ n → qty_of item = n.
Proof.
  unfold qty_of. intros -> Hn. unfold Js.or_else.
  destruct (Z.eqb_spec n 0); lia.
Qed.

(** *** The loop over the cart *)

(** What a line that passes says about the row it was priced from. *)
Lemma line_of_inr dbProducts item li :
  line_of dbProducts item = inr li →
  ∃ p, List.find (λ p, p_id p =? ci_product_id item) dbProducts = Some p
       ∧ is_active p ≠ 0 ∧ qty_of item ≤ stock p
       ∧ li = {| product_id := p_id p; product_name := p_name p;
                 quantity := qty_of item; unit_price_pkr := unitPrice p;
                 line_total_pkr := unitPrice p * qty_of item |}.
Proof.
  unfold line_of. intros H.
  destruct (List.find _ dbProducts) as [p|]; [|discriminate].
  destruct (Z.eqb_spec (is_active p) 0); [discriminate|].
  destruct (Z.ltb_spec (stock p) (qty_of item)); [discriminate|].
  exists p. repeat split; [assumption..|congruence].
Qed.

Lemma line_of_pass dbProducts item p :
  List.find (λ p, p_id p =? ci_product_id item) dbProducts = Some p →
  is_active p ≠ 0 → qty_of item ≤ stock p →
  ∃ li, line_of dbProducts item = inr li.
Proof.
  intros Hf Ha Hs. unfold line_of. rewrite Hf.
  destruct (Z.eqb_spec (is_active p) 0); [contradiction|].
  destruct (Z.ltb_spec (stock p) (qty_of item)); [lia|]. eauto.
Qed.

(** The loop returns lines exactly when every turn does; it then has
    appended them in order and added their totals. *)
Lemma build_lines_inr dbProducts items : ∀ sub acc sub' lis,
  build_lines dbProducts items sub acc = inr (sub', lis) →
  ∃ ls, Forall2 (λ item li, line_of dbProducts item = inr li) items ls
        ∧ lis = acc ++ ls ∧ sub' = sub + sum_line_totals ls.
Proof.
  induction items as [|item rest IH]; intros sub acc sub' lis H; simpl in H.
  - inversion H; subst. exists []. rewrite app_nil_r. simpl. split; [constructor|split; [done|lia]].
  - destruct (line_of dbProducts item) as [r|li] eqn:Hl; [discriminate|].
    apply IH in H as (ls & Hall & -> & ->).
    exists (li :: ls). split; [by constructor|].
    rewrite <- app_assoc. simpl. split; [done|lia].
Qed.

Lemma build_lines_pass dbProducts items : ∀ sub acc,
  Forall (λ item, ∃ li, line_of dbProducts item = inr li) items →
  ∃ sub' lis, build_lines dbProducts items sub acc = inr (sub', lis).
Proof.
  induction items as [|item rest IH]; intros sub acc Hall; simpl.
  - eauto.
  - inversion Hall as [|? ? [li Hli] Hrest]; subst. rewrite Hli. by apply IH.
Qed.

(** An error of the loop is one of its three 422 answers. *)
Lemma build_lines_inl dbProducts items : ∀ sub acc r,
  build_lines dbProducts items sub acc = inl r → ∃ m, r = jsonError m 422.
Proof.
  induction items as [|item rest IH]; intros sub acc r H; simpl in H; [discriminate|].
  destruct (line_of dbProducts item) as [r'|li] eqn:Hl.
  - inversion H; subst. unfold line_of in Hl.
    repeat case_match; simplify_eq; eauto.
  - eauto.
Qed.

(** *** The query *)

(** Looking a cart line up in the rows selected for the cart is looking
    it up in the table. *)
Lemma find_select_products db items item :
  item ∈ items →
  List.find (λ p, p_id p =? ci_product_id item) (select_products (productIds items) db)
  = product_for db item.
Proof.
  intros Hin. unfold select_products, product_for.
  induction (products db) as [|p ps IH]; [done|].
  rewrite filter_cons. simpl.
  destruct (Z.eqb_spec (p_id p) (ci_product_id item)) as [Heq|Hne].
  - rewrite decide_True.
    + simpl. destruct (Z.eqb_spec (p_id p) (ci_product_id item)); [done|contradiction].
    + unfold productIds. rewrite elem_of_list_to_set, Heq. by apply list_elem_of_fmap_2.
  - case_decide; [|done]. simpl.
    destruct (Z.eqb_spec (p_id p) (ci_product_id item)); [contradiction|done].
Qed.

(** *** The batch *)

Lemma batch_from_Some fails now orderId lineItems : ∀ i db db',
  batch_from fails now orderId i lineItems db = Some db' →
  products db' = products db ∧ orders db' = orders db
  ∧ orders_seq db' = orders_seq db
  ∧ order_items db' =
      order_items db ++ item_rows now orderId (order_items_seq db) lineItems.
Proof.
  induction lineItems as [|li rest IH]; intros i db db' H; simpl in H.
  - inversion H; subst. simpl. by rewrite app_nil_r.
  - destruct (fails i); [discriminate|].
    apply IH in H as (Hp & Ho & Hs & Hi). simpl in *.
    rewrite Hi, <- app_assoc. done.
Qed.

Lemma batch_from_no_fault fails now orderId lineItems : ∀ i db,
  (∀ j, fails j = false) →
  ∃ db', batch_from fails now orderId i lineItems db = Some db'.
Proof.
  induction lineItems as [|li rest IH]; intros i db Hf; simpl; [eauto|].
  rewrite Hf. by apply IH.
Qed.

(** *** The three ways the handler ends *)

(** Every run ends in exactly one of: an error answer before any write;
    the header written and the batch refused; both writes done. *)
Lemma checkout_cases fails now req db db' r :
  checkout fails now req db = (db', r) →
  let wrapping := default "none" (r_gift_wrapping req) in
  (db' = db ∧ ∃ m st, r = jsonError m st ∧ (st = 400 ∨ st = 422))
  ∨ ∃ sub lis row,
      fields_ok req = true ∧ includes VALID_WRAPPING wrapping = true
      ∧ build_lines (select_products (productIds (r_items req)) db)
          (r_items req) 0 [] = inr (sub, lis)
      ∧ header_written db sub wrapping row
      ∧ products db' = products db
      ∧ orders db' = orders db ++ [row]
      ∧ ((r = Uncaught ∧ order_items db' = order_items db)
         ∨ (r = Json (orders_seq db + 1)
                  {| s_items := lis;
                     s_subtotal_pkr := sub;
                     s_shipping_pkr := SHIPPING_PKR sub;
                     s_discount_pkr := DISCOUNT_PKR;
                     s_wrapping_fee := WRAPPING_FEE wrapping;
                     s_total_pkr := totalPkr sub wrapping;
                     s_free_shipping := SHIPPING_PKR sub =? 0 |}
            ∧ order_items db' =
                order_items db
                ++ item_rows now (orders_seq db + 1) (order_items_seq db) lis)).
Proof.
  intros H wrapping. subst wrapping. unfold checkout in H. unfold fields_ok.
  destruct (Js.blank (r_customer_name req)); [early_return|].
  destruct (Js.blank (r_customer_phone req)); [early_return|].
  destruct (Js.blank (r_customer_city req)); [early_return|].
  destruct (Js.blank (r_customer_address req)); [early_return|].
  destruct (bool_decide (r_items req = [])); [early_return|].
  destruct (includes VALID_PAYMENTS _); simpl in H; [|early_return].
  destruct (includes VALID_WRAPPING _) eqn:Hw; simpl in H; [|early_return].
  destruct (build_lines _ _ _ _) as [e|[sub lis]] eqn:Hb.
  - left. simplify_eq. split; [done|].
    apply build_lines_inl in Hb as [m ->]. eauto 6.
  - right. simpl in H.
    match type of H with
    | context [batch _ _ _ _ ?d] => set (db1 := d) in *
    end.
    exists sub, lis. eexists. split; [done|]. split; [done|]. split; [done|].
    destruct (batch _ _ _ _ db1) as [db2|] eqn:Hbatch; simplify_eq.
    + apply batch_from_Some in Hbatch as (Hp & Ho & Hs & Hi). simpl in *.
      split; [|split; [exact Hp|split; [exact Ho|right; split; [done|exact Hi]]]].
      repeat split.
    + simpl. split; [|split; [done|split; [done|left; done]]].
      repeat split.
Qed.

Lemma Forall2_impl_elem {A B} (P Q : A → B → Prop) (l : list A) (k : list B) :
  Forall2 P l k → (∀ x y, x ∈ l → P x y → Q x y) → Forall2 Q l k.
Proof.
  induction 1 as [|x y l k Hxy Hlk IH]; intros Himp; constructor.
  - apply Himp; [left|done].
  - apply IH. intros x' y' Hin. apply Himp. by right.
Qed.

Lemma Forall2_Forall_elem {A B} (P : A → B → Prop) (Q : B → Prop)
    (l : list A) (k : list B) :
  Forall2 P l k → (∀ x y, x ∈ l → P x y → Q y) → Forall Q k.
Proof.
  induction 1 as [|x y l k Hxy Hlk IH]; intros Himp; constructor.
  - eapply Himp; [left|done].
  - apply IH. intros x' y' Hin. apply Himp. by right.
Qed.

(** The lines of a successful answer, one per cart entry, each priced
    from the row of the table that carries the entry's id. *)
Lemma checkout_lines fails now req db db' oid s :
  checkout fails now req db = (db', Json oid s) →
  Forall2 (λ item li, ∃ p, product_for db item = Some p
             ∧ is_active p ≠ 0 ∧ qty_of item ≤ stock p
             ∧ li = {| product_id := p_id p; product_name := p_name p;
                       quantity := qty_of item; unit_price_pkr := unitPrice p;
                       line_total_pkr := unitPrice p * qty_of item |})
    (r_items req) (s_items s).
Proof.
  intros H. apply checkout_cases in H as [(_ & m & st & ? & _)|H]; [discriminate|].
  destruct H as (sub & lis & row & _ & _ & Hb & _ & _ & _ & [[? _]|[Hr _]]); [discriminate|].
  inversion Hr; subst; simpl.
  apply build_lines_inr in Hb as (ls & Hall & -> & _). simpl.
  eapply Forall2_impl_elem; [exact Hall|]. intros item li Hin Hl. simpl in Hl.
  apply line_of_inr in Hl as (p & Hf & Ha & Hs & ->).
  rewrite find_select_products in Hf by done. eauto 6.
Qed.

Lemma batch_from_fault fails now orderId lineItems : ∀ i db j,
  (j < length lineItems)%nat → fails (i + j)%nat = true →
  batch_from fails now orderId i lineItems db = None.
Proof.
  induction lineItems as [|li rest IH]; intros i db j Hj Hf; simpl in *; [lia|].
  destruct (fails i) eqn:Hi; [done|].
  destruct j as [|j]; [rewrite Nat.add_0_r in Hf; congruence|].
  apply (IH (S i) _ j); [lia|]. by replace (S i + j)%nat with (i + S j)%nat by lia.
Qed.

(** Once the request and the cart have passed, the handler writes the
    header and its answer only depends on how the batch ends. *)
Lemma checkout_validated fails now req db sub lis :
  fields_ok req = true →
  includes VALID_WRAPPING (default "none" (r_gift_wrapping req)) = true →
  build_lines (select_products (productIds (r_items req)) db) (r_items req) 0 []
    = inr (sub, lis) →
  ∃ db1 row,
    products db1 = products db ∧ orders db1 = orders db ++ [row]
    ∧ order_items db1 = order_items db
    ∧ header_written db sub (default "none" (r_gift_wrapping req)) row
    ∧ checkout fails now req db =
        match batch fails now (orders_seq db + 1) lis db1 with
        | None => (db1, Uncaught)
        | Some db2 =>
            (db2, Json (orders_seq db + 1)
                    {| s_items := lis;
                       s_subtotal_pkr := sub;
                       s_shipping_pkr := SHIPPING_PKR sub;
                       s_discount_pkr := DISCOUNT_PKR;
                       s_wrapping_fee := WRAPPING_FEE (default "none" (r_gift_wrapping req));
                       s_total_pkr := totalPkr sub (default "none" (r_gift_wrapping req));
                       s_free_shipping := SHIPPING_PKR sub =? 0 |})
        end.
Proof.
  intros Hf Hw Hb. pass_request_checks Hf.
  simpl negb. cbv iota. rewrite Hb. simpl.
  eexists _, _. split_and!; cycle 4; [reflexivity|simpl; try reflexivity..].
  repeat split.
Qed.

(** *** C1: the unit price of a line *)

(** C1, as amended.  For every product resolved during a checkout that
    goes through, the unit price of its line is the sale price whenever a
    sale price is set, and the list price only when none is set; the
    handler does not compare the two prices. *)
Theorem C1_unit_price_is_sale_price_when_set fails now req db db' oid s :
  checkout fails now req db = (db', Json oid s) →
  Forall2 (λ item li, ∃ p, product_for db item = Some p
             ∧ product_id li = p_id p
             ∧ unit_price_pkr li =
                 match sale_price_pkr p with
                 | Some sale => sale
                 | None => price_pkr p
                 end)
    (r_items req) (s_items s).
Proof.
  intros H. apply checkout_lines in H.
  eapply Forall2_impl; [exact H|]. intros item li (p & Hp & _ & _ & ->); simpl.
  exists p. split; [done|]. split; [done|].
  unfold unitPrice. by destruct (sale_price_pkr p).
Qed.

Lemma C1_unit_price_witness :
  ∃ db' oid s,
    checkout no_fault "2025-03-01 10:00:00" (order_form None [line 2 "1"; line 3 "1"]) shop
      = (db', Json oid s)
    ∧ unit_price_pkr <$> s_items s = [4999; 4500]
    ∧ Forall2 (λ item li, ∃ p, product_for shop item = Some p
                 ∧ product_id li = p_id p
                 ∧ unit_price_pkr li =
                     match sale_price_pkr p with
                     | Some sale => sale
                     | None => price_pkr p
                     end)
        [line 2 "1"; line 3 "1"] (s_items s).
Proof.
  eexists _, _, _. split; [vm_compute; reflexivity|]. split; [reflexivity|].
  eapply (C1_unit_price_is_sale_price_when_set no_fault "2025-03-01 10:00:00"
            (order_form None [line 2 "1"; line 3 "1"]) shop).
  vm_compute. reflexivity.
Defined.

(** The claim as the specification words it fails on a product whose sale
    price is not below its list price: Midnight Oud lists at 4000 with a
    sale price of 4500, the specification's effective price is 4000, and
    the line is charged 4500. *)
Lemma C1_counterexample :
  product_for shop (line 3 "1") = Some midnight_oud
  ∧ effective_price_spec midnight_oud = 4000
  ∧ snd (checkout no_fault "2025-03-01 10:00:00" (order_form None [line 3 "1"]) shop)
    = Json 1 {| s_items :=
                  [{| product_id := 3; product_name := "Midnight Oud"; quantity := 1;
                      unit_price_pkr := 4500; line_total_pkr := 4500 |}];
                s_subtotal_pkr := 4500; s_shipping_pkr := 200; s_discount_pkr := 0;
                s_wrapping_fee := 0; s_total_pkr := 4700; s_free_shipping := false |}.
Proof. repeat split. Qed.

(** *** C2: the two writes are separate *)

(** C2, as amended.  When the request and the cart have passed, the
    header insert has succeeded and the store then refuses one of the
    order-item inserts, the call ends with an uncaught error; no item row
    of the attempt exists afterwards (the batch is all or nothing), but
    the header row stays in [orders]: the handler does not undo it. *)
Theorem C2_header_row_survives_failed_batch fails now req db sub lis i :
  fields_ok req = true →
  includes VALID_WRAPPING (default "none" (r_gift_wrapping req)) = true →
  build_lines (select_products (productIds (r_items req)) db) (r_items req) 0 []
    = inr (sub, lis) →
  (i < length lis)%nat → fails i = true →
  ∃ db' row,
    checkout fails now req db = (db', Uncaught)
    ∧ order_items db' = order_items db
    ∧ orders db' = orders db ++ [row]
    ∧ header_written db sub (default "none" (r_gift_wrapping req)) row
    ∧ products db' = products db.
Proof.
  intros Hf Hw Hb Hi Hfail.
  destruct (checkout_validated fails now req db sub lis Hf Hw Hb)
    as (db1 & row & Hp & Ho & Hit & Hrow & ->).
  unfold batch. rewrite (batch_from_fault fails now _ lis 0%nat db1 i Hi Hfail).
  exists db1, row. done.
Qed.

Lemma C2_header_row_witness :
  ∃ db' row,
    checkout (fault_at 1) "2025-03-01 10:00:00"
      (order_form None [line 1 "1"; line 2 "1"]) shop = (db', Uncaught)
    ∧ order_items db' = order_items shop
    ∧ orders db' = orders shop ++ [row]
    ∧ header_written shop 7499 (default "none" None) row
    ∧ products db' = products shop.
Proof.
  apply (C2_header_row_survives_failed_batch (fault_at 1) "2025-03-01 10:00:00"
           (order_form None [line 1 "1"; line 2 "1"]) shop 7499
           [{| product_id := 1; product_name := "Floral Bloom"; quantity := 1;
               unit_price_pkr := 2500; line_total_pkr := 2500 |};
            {| product_id := 2; product_name := "Velvet Rose"; quantity := 1;
               unit_price_pkr := 4999; line_total_pkr := 4999 |}] 1%nat);
    [vm_compute; reflexivity..|simpl; lia|reflexivity].
Defined.

(** The claim fails when the store refuses the last of two item inserts:
    the call ends with an uncaught error, [order_items] is empty, and
    [orders], empty before the call, holds the header row of the attempt. *)
Lemma C2_counterexample :
  orders shop = []
  ∧ snd (checkout (fault_at 1) "2025-03-01 10:00:00"
           (order_form None [line 1 "1"; line 2 "1"]) shop) = Uncaught
  ∧ order_items (fst (checkout (fault_at 1) "2025-03-01 10:00:00"
                        (order_form None [line 1 "1"; line 2 "1"]) shop)) = []
  ∧ (o_id <$> orders (fst (checkout (fault_at 1) "2025-03-01 10:00:00"
                             (order_form None [line 1 "1"; line 2 "1"]) shop))) = [1]
  ∧ (total_pkr <$> orders (fst (checkout (fault_at 1) "2025-03-01 10:00:00"
                                  (order_form None [line 1 "1"; line 2 "1"]) shop))) = [7499].
Proof. repeat split; vm_compute; reflexivity. Qed.

(** *** C4: the shipping fee *)

(** What a successful answer and the database after it look like. *)
Lemma checkout_Json fails now req db db' oid s :
  checkout fails now req db = (db', Json oid s) →
  let wrapping := default "none" (r_gift_wrapping req) in
  ∃ sub lis row,
    includes VALID_WRAPPING wrapping = true
    ∧ build_lines (select_products (productIds (r_items req)) db)
        (r_items req) 0 [] = inr (sub, lis)
    ∧ oid = orders_seq db + 1
    ∧ s = {| s_items := lis;
             s_subtotal_pkr := sub;
             s_shipping_pkr := SHIPPING_PKR sub;
             s_discount_pkr := DISCOUNT_PKR;
             s_wrapping_fee := WRAPPING_FEE wrapping;
             s_total_pkr := totalPkr sub wrapping;
             s_free_shipping := SHIPPING_PKR sub =? 0 |}
    ∧ header_written db sub wrapping row
    ∧ orders db' = orders db ++ [row]
    ∧ order_items db' = order_items db ++ item_rows now oid (order_items_seq db) lis.
Proof.
  intros H wrapping.
  apply checkout_cases in H as [(_ & m & st & ? & _)|H]; [discriminate|].
  destruct H as (sub & lis & row & _ & Hw & Hb & Hrow & _ & Ho & [[? _]|[Hr Hi]]);
    [discriminate|].
  inversion Hr; subst. exists sub, lis, row. done.
Qed.

(** The fee of each wrapping that the handler lets through. *)
Lemma WRAPPING_FEE_valid w :
  includes VALID_WRAPPING w = true →
  (w = "none" ∧ WRAPPING_FEE w = 0) ∨ (w = "standard" ∧ WRAPPING_FEE w = 300)
  ∨ (w = "premium" ∧ WRAPPING_FEE w = 600).
Proof.
  unfold includes, VALID_WRAPPING. intros H%bool_decide_eq_true.
  repeat (apply elem_of_cons in H as [->|H]); [by left|by right; left|by right; right|].
  by apply elem_of_nil in H.
Qed.

(** C4.  For every cart that goes through, the shipping fee is 0 when the
    subtotal reaches the free-shipping threshold and the flat fee 200
    when it is below; the threshold is 5000, so a subtotal of exactly
    5000 ships free and one of 4999 pays 200.  The same fee is stored on
    the order, and [free_shipping] says whether it is 0. *)
Theorem C4_shipping_fee_by_threshold fails now req db db' oid s :
  checkout fails now req db = (db', Json oid s) →
  FREE_SHIPPING_THRESHOLD = 5000
  ∧ (FREE_SHIPPING_THRESHOLD ≤ s_subtotal_pkr s → s_shipping_pkr s = 0)
  ∧ (s_subtotal_pkr s < FREE_SHIPPING_THRESHOLD → s_shipping_pkr s = 200)
  ∧ (s_subtotal_pkr s = 5000 → s_shipping_pkr s = 0)
  ∧ (s_subtotal_pkr s = 4999 → s_shipping_pkr s = 200)
  ∧ s_free_shipping s = (s_shipping_pkr s =? 0)
  ∧ (∃ row, orders db' = orders db ++ [row] ∧ o_id row = oid
            ∧ shipping_pkr row = s_shipping_pkr s).
Proof.
  intros H.
  apply checkout_Json in H as (sub & lis & row & _ & _ & -> & -> & Hrow & Ho & _).
  destruct Hrow as (Hid & _ & Hship & _). simpl.
  unfold SHIPPING_PKR, FREE_SHIPPING_THRESHOLD.
  split; [reflexivity|].
  repeat split; try (intros ?; destruct (Z.leb_spec 5000 sub); lia).
  exists row. rewrite Hship. unfold SHIPPING_PKR, FREE_SHIPPING_THRESHOLD. done.
Qed.

Lemma C4_shipping_fee_witness :
  (∃ db' s,
     checkout no_fault "2025-03-01 10:00:00" (order_form None [line 1 "2"]) shop
       = (db', Json 1 s)
     ∧ s_subtotal_pkr s = 5000 ∧ s_shipping_pkr s = 0)
  ∧ (∃ db' s,
       checkout no_fault "2025-03-01 10:00:00" (order_form None [line 2 "1"]) shop
         = (db', Json 1 s)
       ∧ s_subtotal_pkr s = 4999 ∧ s_shipping_pkr s = 200).
Proof.
  split.
  - eexists _, _. split; [vm_compute; reflexivity|]. split; [reflexivity|].
    edestruct (C4_shipping_fee_by_threshold no_fault "2025-03-01 10:00:00"
                 (order_form None [line 1 "2"]) shop) as (_ & _ & _ & H5000 & _);
      [vm_compute; reflexivity|].
    apply H5000. reflexivity.
  - eexists _, _. split; [vm_compute; reflexivity|]. split; [reflexivity|].
    edestruct (C4_shipping_fee_by_threshold no_fault "2025-03-01 10:00:00"
                 (order_form None [line 2 "1"]) shop) as (_ & _ & _ & _ & H4999 & _);
      [vm_compute; reflexivity|].
    apply H4999. reflexivity.
Defined.

(** *** C6: the gift-wrapping selection *)

(** C6, as amended.  A request that omits the gift-wrapping selection is
    handled as 'none': the surcharge is 0 and the checkout proceeds.  A
    selection that is present but not one of none, standard and premium
    is not mapped to 0: the otherwise well-formed request is answered
    400 'Invalid gift wrapping option' and nothing is written. *)
Theorem C6_wrapping_omitted_is_free_unknown_is_rejected fails now req db :
  fields_ok req = true →
  (r_gift_wrapping req = None →
   ∀ sub lis,
     build_lines (select_products (productIds (r_items req)) db) (r_items req) 0 []
       = inr (sub, lis) →
     (∀ j, fails j = false) →
     ∃ db' s, checkout fails now req db = (db', Json (orders_seq db + 1) s)
              ∧ s_wrapping_fee s = 0
              ∧ s_total_pkr s = s_subtotal_pkr s + s_shipping_pkr s)
  ∧ (∀ w, r_gift_wrapping req = Some w → w ∉ VALID_WRAPPING →
       checkout fails now req db = (db, jsonError InvalidGiftWrappingOption 400)).
Proof.
  intros Hf. split.
  - intros Hnone sub lis Hb Hok.
    assert (Hw : includes VALID_WRAPPING (default "none" (r_gift_wrapping req)) = true)
      by (rewrite Hnone; reflexivity).
    destruct (checkout_validated fails now req db sub lis Hf Hw Hb)
      as (db1 & row & _ & _ & _ & _ & ->).
    destruct (batch_from_no_fault fails now (orders_seq db + 1) lis 0%nat db1 Hok)
      as [db2 Hbatch].
    unfold batch. rewrite Hbatch. eexists _, _. split; [reflexivity|].
    rewrite Hnone. simpl. split; [reflexivity|].
    unfold totalPkr, DISCOUNT_PKR. change (WRAPPING_FEE "none") with 0. lia.
  - intros w Hsome Hbad. pass_request_checks Hf.
    rewrite Hsome. simpl default. unfold includes at 1.
    rewrite bool_decide_eq_false_2 by done. reflexivity.
Qed.

Lemma C6_wrapping_witness :
  (∃ db' s,
     checkout no_fault "2025-03-01 10:00:00" (order_form None [line 1 "1"]) shop
       = (db', Json 1 s)
     ∧ s_wrapping_fee s = 0 ∧ s_total_pkr s = s_subtotal_pkr s + s_shipping_pkr s)
  ∧ checkout no_fault "2025-03-01 10:00:00" (order_form (Some "deluxe") [line 1 "1"]) shop
    = (shop, jsonError InvalidGiftWrappingOption 400).
Proof.
  split.
  - destruct (C6_wrapping_omitted_is_free_unknown_is_rejected no_fault
                "2025-03-01 10:00:00" (order_form None [line 1 "1"]) shop)
      as [Hnone _]; [vm_compute; reflexivity|].
    apply (Hnone eq_refl 2500
             [{| product_id := 1; product_name := "Floral Bloom"; quantity := 1;
                 unit_price_pkr := 2500; line_total_pkr := 2500 |}]);
      [vm_compute; reflexivity|reflexivity].
  - destruct (C6_wrapping_omitted_is_free_unknown_is_rejected no_fault
                "2025-03-01 10:00:00" (order_form (Some "deluxe") [line 1 "1"]) shop)
      as [_ Hbad]; [vm_compute; reflexivity|].
    apply (Hbad "deluxe" eq_refl). unfold VALID_WRAPPING.
    intros Hin. repeat (apply elem_of_cons in Hin as [Hin|Hin]; [discriminate|]).
    by apply elem_of_nil in Hin.
Defined.

(** The claim fails on a selection outside the enumerated options: with
    ['deluxe'] the otherwise valid request is rejected with 400 and no
    order is written, instead of going through with a surcharge of 0. *)
Lemma C6_counterexample :
  checkout no_fault "2025-03-01 10:00:00" (order_form (Some "deluxe") [line 1 "1"]) shop
    = (shop, jsonError InvalidGiftWrappingOption 400)
  ∧ ∃ db' s, checkout no_fault "2025-03-01 10:00:00" (order_form None [line 1 "1"]) shop
             = (db', Json 1 s).
Proof. split; [vm_compute; reflexivity|]. eexists _, _. vm_compute. reflexivity. Qed.

(** *** The coercion of the quantity, on examples *)

Example qty_of_examples :
  qty_of (line 1 "3") = 3 ∧ qty_of (line 1 "abc") = 1 ∧ qty_of (line 1 "") = 1
  ∧ qty_of (line 1 "undefined") = 1 ∧ qty_of (line 1 "0") = 1
  ∧ qty_of (line 1 "-3") = 1 ∧ qty_of (line 1 "2.7") = 2 ∧ qty_of (line 1 "0.5") = 1
  ∧ qty_of (line 1 (" " +:+ Js.nbsp +:+ "3")) = 3.
Proof. repeat split. Qed.

(** *** C9: stock is checked line by line *)

(** C9.  The stock check looks at one cart line at a time, against the
    rows fetched once for the whole cart.  When the request is well
    formed and every line, taken alone, names an active product with at
    least the line's quantity in stock, validation passes and (the store
    accepting the writes) the order is created; nothing compares the sum
    of the quantities of lines that share a product with its stock. *)
Theorem C9_stock_checked_per_line fails now req db :
  fields_ok req = true →
  includes VALID_WRAPPING (default "none" (r_gift_wrapping req)) = true →
  (∀ item, item ∈ r_items req →
     ∃ p, product_for db item = Some p ∧ is_active p ≠ 0 ∧ qty_of item ≤ stock p) →
  (∀ j, fails j = false) →
  ∃ sub lis db' s,
    build_lines (select_products (productIds (r_items req)) db) (r_items req) 0 []
      = inr (sub, lis)
    ∧ quantity <$> lis = qty_of <$> r_items req
    ∧ checkout fails now req db = (db', Json (orders_seq db + 1) s)
    ∧ s_items s = lis.
Proof.
  intros Hf Hw Hlines Hok.
  destruct (build_lines_pass (select_products (productIds (r_items req)) db)
              (r_items req) 0 []) as (sub & lis & Hb).
  { apply Forall_forall. intros item Hin.
    destruct (Hlines item Hin) as (p & Hp & Ha & Hs).
    rewrite <- (find_select_products db (r_items req) item Hin) in Hp.
    eapply line_of_pass; eauto. }
  destruct (checkout_validated fails now req db sub lis Hf Hw Hb)
    as (db1 & row & _ & _ & _ & _ & Hc).
  destruct (batch_from_no_fault fails now (orders_seq db + 1) lis 0%nat db1 Hok)
    as [db2 Hbatch].
  unfold batch in Hc. rewrite Hbatch in Hc.
  exists sub, lis. eexists _, _. split; [exact Hb|]. split; [|split; [exact Hc|reflexivity]].
  apply build_lines_inr in Hb as (ls & Hall & -> & _). simpl. clear -Hall.
  induction Hall as [|item li items ls Hl _ IH]; [reflexivity|].
  apply line_of_inr in Hl as (p & _ & _ & _ & ->).
  rewrite !fmap_cons. f_equal. exact IH.
Qed.

(** Two lines of two bottles each of a product with three in stock: each
    line alone fits, their sum does not, and the order is created. *)
Lemma C9_stock_witness :
  stock floral_bloom = 3 ∧ 3 < qty_of (line 1 "2") + qty_of (line 1 "2")
  ∧ ∃ sub lis db' s,
      build_lines (select_products (productIds [line 1 "2"; line 1 "2"]) shop)
        [line 1 "2"; line 1 "2"] 0 [] = inr (sub, lis)
      ∧ quantity <$> lis = [2; 2]
      ∧ checkout no_fault "2025-03-01 10:00:00"
          (order_form None [line 1 "2"; line 1 "2"]) shop = (db', Json 1 s)
      ∧ s_items s = lis.
Proof.
  split; [reflexivity|]. split; [reflexivity|].
  apply (C9_stock_checked_per_line no_fault "2025-03-01 10:00:00"
           (order_form None [line 1 "2"; line 1 "2"]) shop);
    [vm_compute; reflexivity..| |reflexivity].
  intros item Hin. simpl in Hin.
  repeat (apply elem_of_cons in Hin as [->|Hin]);
    [exists floral_bloom; repeat split; [discriminate|vm_compute; discriminate]..|].
  by apply elem_of_nil in Hin.
Defined.

End CheckoutFacts.

(** ** Properties of the storefront checkout that depend on its arithmetic *)

Module CheckoutDoublesFacts.
Import StorefrontDoubles.

(** *** The loop, the batch and the answer, on doubles *)

(** What a line that passes says about the row it was priced from. *)
Lemma doubles_line_of_inr dbProducts item li :
  line_of dbProducts item = inr li →
  ∃ p, List.find (λ p, p_id p =? Storefront.ci_product_id item) dbProducts = Some p
       ∧ is_active p ≠ 0 ∧ Storefront.qty_of item ≤ stock p
       ∧ li = {| product_id := p_id p; product_name := p_name p;
                 quantity := Storefront.qty_of item; unit_price_pkr := unitPrice p;
                 line_total_pkr := (unitPrice p * of_Z (Storefront.qty_of item))%float |}.
Proof.
  unfold line_of. intros H.
  destruct (List.find _ dbProducts) as [p|]; [|discriminate].
  destruct (Z.eqb_spec (is_active p) 0); [discriminate|].
  destruct (Z.ltb_spec (stock p) (Storefront.qty_of item)); [discriminate|].
  exists p. repeat split; [assumption..|congruence].
Qed.

Lemma add_line_totals_app sub ls ls' :
  add_line_totals sub (ls ++ ls') = add_line_totals (add_line_totals sub ls) ls'.
Proof. unfold add_line_totals. apply foldl_app. Qed.

(** The loop returns lines exactly when every turn does; it then has
    appended them in order and added their totals one by one. *)
Lemma doubles_build_lines_inr dbProducts items : ∀ sub acc sub' lis,
  build_lines dbProducts items sub acc = inr (sub', lis) →
  ∃ ls, Forall2 (λ item li, line_of dbProducts item = inr li) items ls
        ∧ lis = acc ++ ls ∧ sub' = add_line_totals sub ls.
Proof.
  induction items as [|item rest IH]; intros sub acc sub' lis H; simpl in H.
  - inversion H; subst. exists []. rewrite app_nil_r. split; [constructor|done].
  - destruct (line_of dbProducts item) as [r|li] eqn:Hl; [discriminate|].
    apply IH in H as (ls & Hall & -> & ->).
    exists (li :: ls). split; [by constructor|].
    rewrite <- app_assoc. done.
Qed.

(** An error of the loop is one of its three 422 answers. *)
Lemma doubles_build_lines_inl dbProducts items : ∀ sub acc r,
  build_lines dbProducts items sub acc = inl r → ∃ m, r = jsonError m 422.
Proof.
  induction items as [|item rest IH]; intros sub acc r H; simpl in H; [discriminate|].
  destruct (line_of dbProducts item) as [r'|li] eqn:Hl.
  - inversion H; subst. unfold line_of in Hl.
    repeat case_match; simplify_eq; eauto.
  - eauto.
Qed.

Lemma doubles_batch_from_Some fails now orderId lineItems : ∀ i db db',
  batch_from fails now orderId i lineItems db = Some db' →
  products db' = products db ∧ orders db' = orders db
  ∧ orders_seq db' = orders_seq db
  ∧ order_items db' =
      order_items db ++ item_rows now orderId (order_items_seq db) lineItems.
Proof.
  induction lineItems as [|li rest IH]; intros i db db' H; simpl in H.
  - inversion H; subst. simpl. by rewrite app_nil_r.
  - destruct (fails i); [discriminate|].
    apply IH in H as (Hp & Ho & Hs & Hi). simpl in *.
    rewrite Hi, <- app_assoc. done.
Qed.

(** A run that answers with the order has passed the loop, written the
    header with the amounts of the answer, and added one row per line. *)
Lemma doubles_checkout_Json fails now req db db' oid s :
  checkout fails now req db = (db', Json oid s) →
  let wrapping := default "none" (Storefront.r_gift_wrapping req) in
  ∃ sub lis row,
    build_lines (select_products (Storefront.productIds (Storefront.r_items req)) db)
      (Storefront.r_items req) 0%float [] = inr (sub, lis)
    ∧ oid = orders_seq db + 1
    ∧ s = {| s_items := lis;
             s_subtotal_pkr := sub;
             s_shipping_pkr := SHIPPING_PKR sub;
             s_discount_pkr := DISCOUNT_PKR;
             s_wrapping_fee := WRAPPING_FEE wrapping;
             s_total_pkr := totalPkr sub wrapping;
             s_free_shipping := (SHIPPING_PKR sub =? 0)%float |}
    ∧ (o_id row = oid ∧ subtotal_pkr row = sub ∧ shipping_pkr row = SHIPPING_PKR sub
       ∧ discount_pkr row = DISCOUNT_PKR ∧ total_pkr row = totalPkr sub wrapping
       ∧ gift_wrapping row = wrapping)
    ∧ orders db' = orders db ++ [row]
    ∧ order_items db' = order_items db ++ item_rows now oid (order_items_seq db) lis.
Proof.
  intros H wrapping. subst wrapping. unfold checkout in H.
  destruct (Js.blank (Storefront.r_customer_name req)); [discriminate|].
  destruct (Js.blank (Storefront.r_customer_phone req)); [discriminate|].
  destruct (Js.blank (Storefront.r_customer_city req)); [discriminate|].
  destruct (Js.blank (Storefront.r_customer_address req)); [discriminate|].
  destruct (bool_decide (Storefront.r_items req = [])); [discriminate|].
  destruct (Storefront.includes Storefront.VALID_PAYMENTS _); simpl in H; [|discriminate].
  destruct (Storefront.includes Storefront.VALID_WRAPPING _); simpl in H; [|discriminate].
  destruct (build_lines _ _ _ _) as [e|[sub lis]] eqn:Hb.
  { apply doubles_build_lines_inl in Hb as [m ->]. discriminate. }
  simpl in H.
  match type of H with
  | context [batch _ _ _ _ ?d] => set (db1 := d) in *
  end.
  destruct (batch _ _ _ _ db1) as [db2|] eqn:Hbatch; [|discriminate].
  inversion H; subst db2 oid s; clear H.
  apply doubles_batch_from_Some in Hbatch as (Hp & Ho & Hs & Hi). simpl in *.
  exists sub, lis. eexists. split; [reflexivity|]. split; [reflexivity|].
  split; [reflexivity|]. split; [|split; [exact Ho|exact Hi]].
  repeat split.
Qed.


(** *** Signs in double arithmetic *)

(** Rounding never turns a mantissa that is not negative into one that
    is: the shifts and the rounding to nearest even keep it at or above
    zero. *)
Lemma shr_1_nonneg mrs : 0 ≤ shr_m mrs → 0 ≤ shr_m (shr_1 mrs).
Proof. destruct mrs as [[|[p|p|]|[p|p|]] r s]; simpl; lia. Qed.

Lemma iter_shr_1_nonneg n : ∀ mrs, 0 ≤ shr_m mrs → 0 ≤ shr_m (SpecFloat.iter_pos shr_1 n mrs).
Proof.
  induction n as [n IH|n IH|]; intros mrs H; simpl.
  - apply IH, IH, shr_1_nonneg, H.
  - apply IH, IH, H.
  - apply shr_1_nonneg, H.
Qed.

Lemma shr_fexp_nonneg m e l : 0 ≤ m → 0 ≤ shr_m (shr_fexp prec emax m e l).1.
Proof.
  intros H. unfold shr_fexp, shr.
  assert (Hm : 0 ≤ shr_m (shr_record_of_loc m l)) by (destruct l as [|[]]; exact H).
  destruct (_ - e); simpl; [exact Hm|by apply iter_shr_1_nonneg|exact Hm].
Qed.

Lemma round_nearest_even_nonneg m l : 0 ≤ m → 0 ≤ round_nearest_even m l.
Proof. intros H. destruct l as [|[]]; simpl; [lia| |lia|lia]. destruct (Z.even m); lia. Qed.

Lemma binary_round_aux_no_sign mx ex lx :
  0 ≤ mx → no_sign (binary_round_aux prec emax false mx ex lx).
Proof.
  intros H. unfold binary_round_aux.
  pose proof (shr_fexp_nonneg mx ex lx H) as H1.
  destruct (shr_fexp prec emax mx ex lx) as [mrs' e']. simpl in H1.
  pose proof (shr_fexp_nonneg _ e' loc_Exact
                (round_nearest_even_nonneg _ (loc_of_shr_record mrs') H1)) as H2.
  destruct (shr_fexp prec emax _ e' loc_Exact) as [mrs'' e'']. simpl in H2.
  destruct (shr_m mrs'') as [|m|m]; [done| |lia].
  by destruct (e'' <=? emax - prec).
Qed.

Lemma SFadd_no_sign a b : no_sign a → no_sign b → no_sign (SFadd prec emax a b).
Proof.
  destruct a as [[]|[]| |[] ma ea], b as [[]|[]| |[] mb eb]; try done.
  intros _ _. unfold SFadd, cond_Zopp, binary_normalize.
  change (Z.pos ?p + Z.pos ?q) with (Z.pos (p + q)).
  unfold binary_round. destruct (shl_align _ _ _) as [mz ez].
  by apply binary_round_aux_no_sign.
Qed.

Lemma SFsub_zero_no_sign a : no_sign a → no_sign (SFsub prec emax a (S754_zero false)).
Proof. by destruct a as [[]|[]| |[] ma ea]. Qed.

Lemma SFmul_no_sign a m e :
  no_sign a → no_sign (SFmul prec emax a (S754_finite false m e)).
Proof.
  destruct a as [[]|[]| |[] ma ea]; try done.
  intros _. unfold SFmul. by apply binary_round_aux_no_sign.
Qed.

Lemma leb_zero x : (0 <=? x)%float = true ↔ no_sign (Prim2SF x).
Proof.
  rewrite leb_spec. change (Prim2SF 0) with (S754_zero false).
  by destruct (Prim2SF x) as [[]|[]| |[] m e].
Qed.

Lemma add_nonneg x y :
  (0 <=? x)%float = true → (0 <=? y)%float = true → (0 <=? x + y)%float = true.
Proof. rewrite !leb_zero, add_spec. apply SFadd_no_sign. Qed.

Lemma sub_zero_nonneg x : (0 <=? x)%float = true → (0 <=? x - 0)%float = true.
Proof.
  rewrite !leb_zero, sub_spec. change (Prim2SF 0) with (S754_zero false).
  apply SFsub_zero_no_sign.
Qed.

(** *** Integers below 2^53 in double arithmetic *)

Lemma shl_0 n : shl n 0 = n.
Proof. reflexivity. Qed.

Lemma shl_value n k : 0 ≤ k → Z.pos (shl n k) = Z.pos n * 2 ^ k.
Proof.
  intros Hk. destruct k as [|p|p]; [simpl; lia| |lia]. unfold shl. clear Hk.
  induction p as [|p IH] using Pos.peano_ind.
  - change (Pos.iter xO n 1) with (n~0)%positive. change (2 ^ 1) with 2. lia.
  - rewrite Pos.iter_succ, Pos2Z.inj_succ, Z.pow_succ_r by lia.
    rewrite Pos2Z.inj_xO, IH. lia.
Qed.

Lemma shl_shl n j k : 0 ≤ j → 0 ≤ k → shl (shl n j) k = shl n (j + k).
Proof.
  intros Hj Hk. apply Pos2Z.inj. rewrite !shl_value by lia.
  rewrite Z.pow_add_r by lia. lia.
Qed.

Lemma digits_shl n k : 0 ≤ k → digits (shl n k) = digits n + k.
Proof.
  intros Hk. destruct k as [|p|p]; [simpl; lia| |lia]. unfold digits, shl. clear Hk.
  induction p as [|p IH] using Pos.peano_ind.
  - simpl. lia.
  - rewrite Pos.iter_succ. simpl. lia.
Qed.

Lemma digits_lower q : 2 ^ (digits q - 1) ≤ Z.pos q.
Proof.
  unfold digits.
  induction q as [q IH|q IH|]; simpl digits2_pos; [| |simpl; lia].
  - rewrite Pos2Z.inj_succ. replace (Z.succ (Z.pos (digits2_pos q)) - 1)
      with (Z.succ (Z.pos (digits2_pos q) - 1)) by lia.
    rewrite Z.pow_succ_r by lia. lia.
  - rewrite Pos2Z.inj_succ. replace (Z.succ (Z.pos (digits2_pos q)) - 1)
      with (Z.succ (Z.pos (digits2_pos q) - 1)) by lia.
    rewrite Z.pow_succ_r by lia. lia.
Qed.

Lemma digits_upper q : Z.pos q < 2 ^ digits q.
Proof.
  unfold digits.
  induction q as [q IH|q IH|]; simpl digits2_pos; [| |simpl; lia].
  - rewrite Pos2Z.inj_succ, Z.pow_succ_r by lia. lia.
  - rewrite Pos2Z.inj_succ, Z.pow_succ_r by lia. lia.
Qed.

Lemma digits_pos q : 1 ≤ digits q.
Proof. unfold digits. lia. Qed.

Lemma digits_le_53 q : Z.pos q < 2 ^ 53 → digits q ≤ 53.
Proof.
  intros H. pose proof (digits_lower q) as Hl.
  destruct (Z.le_gt_cases (digits q) 53) as [|Hgt]; [done|].
  assert (2 ^ 53 ≤ 2 ^ (digits q - 1)) by (apply Z.pow_le_mono_r; lia).
  lia.
Qed.

(** Shifting right the places that a shift to the left added is exact. *)
Lemma iter_pos_iter {A} (f : A → A) n : ∀ x, SpecFloat.iter_pos f n x = Pos.iter f x n.
Proof.
  induction n as [n IH|n IH|]; intros x; simpl; [|by rewrite !IH|done].
  rewrite !IH, !Pos.iter_swap. reflexivity.
Qed.

Lemma shr_of_shl m p :
  SpecFloat.iter_pos shr_1 p {| shr_m := Z.pos (Pos.iter xO m p); shr_r := false; shr_s := false |}
  = {| shr_m := Z.pos m; shr_r := false; shr_s := false |}.
Proof.
  rewrite iter_pos_iter.
  induction p as [|p IH] using Pos.peano_ind.
  - reflexivity.
  - rewrite Pos.iter_succ_r. rewrite (Pos.iter_succ p _ xO). exact IH.
Qed.

Lemma fexp_digits d : 1 ≤ d → fexp prec emax d = d - 53.
Proof. intros H. unfold fexp, emin, prec, emax. lia. Qed.

Lemma binary_round_aux_exact n k :
  Z.pos n < 2 ^ 53 → 53 - digits n ≤ k →
  binary_round_aux prec emax false (Z.pos (shl n k)) (- k) loc_Exact = rep n.
Proof.
  intros Hn Hk. pose proof (digits_le_53 n Hn) as Hd. pose proof (digits_pos n) as Hd1.
  assert (Hk0 : 0 ≤ k) by lia.
  assert (Hcanon : ∀ e, e = digits n - 53 →
            shr_fexp prec emax (Z.pos (shl n (53 - digits n))) e loc_Exact
            = ({| shr_m := Z.pos (shl n (53 - digits n)); shr_r := false; shr_s := false |},
               e)).
  { intros e ->. unfold shr_fexp, Zdigits2. fold (digits (shl n (53 - digits n))).
    rewrite digits_shl by lia. rewrite fexp_digits by lia.
    replace (digits n + (53 - digits n) + (digits n - 53) - 53 - (digits n - 53)) with 0 by lia.
    reflexivity. }
  assert (Hfirst : shr_fexp prec emax (Z.pos (shl n k)) (- k) loc_Exact
                   = ({| shr_m := Z.pos (shl n (53 - digits n)); shr_r := false;
                         shr_s := false |}, digits n - 53)).
  { unfold shr_fexp, Zdigits2. fold (digits (shl n k)).
    rewrite digits_shl by lia. rewrite fexp_digits by lia.
    destruct (digits n + k + - k - 53 - - k) as [|p|p] eqn:Hs; [|..].
    - simpl. replace k with (53 - digits n) by lia. f_equal. lia.
    - unfold shr. f_equal; [|lia].
      replace (shl n k) with (Pos.iter xO (shl n (53 - digits n)) p).
      + apply shr_of_shl.
      + change (Pos.iter xO (shl n (53 - digits n)) p)
          with (shl (shl n (53 - digits n)) (Z.pos p)).
        rewrite shl_shl by lia. f_equal. lia.
    - lia. }
  unfold binary_round_aux. rewrite Hfirst. simpl round_nearest_even.
  rewrite (Hcanon _ eq_refl). simpl shr_m.
  replace (digits n - 53 <=? emax - prec) with true; [reflexivity|].
  symmetry. apply Z.leb_le. unfold emax, prec. lia.
Qed.

Lemma binary_round_exact n k :
  Z.pos n < 2 ^ 53 → 0 ≤ k →
  binary_round prec emax false (shl n k) (- k) = rep n.
Proof.
  intros Hn Hk. pose proof (digits_le_53 n Hn) as Hd. pose proof (digits_pos n) as Hd1.
  unfold binary_round. fold (digits (shl n k)).
  rewrite digits_shl by lia. rewrite fexp_digits by lia.
  unfold shl_align.
  destruct (digits n + k + - k - 53 - - k) as [|p|p] eqn:Hs.
  - apply binary_round_aux_exact; [done|lia].
  - apply binary_round_aux_exact; [done|lia].
  - change (Pos.iter xO (shl n k) p) with (shl (shl n k) (Z.pos p)).
    rewrite shl_shl by lia.
    replace (digits n + k + - k - 53) with (- (k + Z.pos p)) by lia.
    apply binary_round_aux_exact; [done|lia].
Qed.

Lemma valid_rep n : Z.pos n < 2 ^ 53 → valid_binary (rep n) = true.
Proof.
  intros Hn. pose proof (digits_le_53 n Hn) as Hd. pose proof (digits_pos n) as Hd1.
  unfold rep, valid_binary, SpecFloat.valid_binary, bounded, canonical_mantissa.
  fold (digits (shl n (53 - digits n))). rewrite digits_shl by lia.
  apply andb_true_intro. split.
  - apply Z.eqb_eq. rewrite fexp_digits by lia. lia.
  - apply Z.leb_le. unfold emax, prec. lia.
Qed.

Lemma Prim2SF_of_Z_pos n : Z.pos n < 2 ^ 53 → Prim2SF (of_Z (Z.pos n)) = rep n.
Proof.
  intros Hn. unfold of_Z, binary_normalize.
  change (binary_round prec emax false n 0)
    with (binary_round prec emax false (shl n 0) (- 0)).
  rewrite (binary_round_exact n 0 Hn) by lia.
  by apply Prim2SF_SF2Prim, valid_rep.
Qed.

Lemma Prim2SF_of_Z_0 : Prim2SF (of_Z 0) = S754_zero false.
Proof. reflexivity. Qed.

(** The product of two integers, when it stays below 2^53. *)
Lemma shl_mul a b j k : 0 ≤ j → 0 ≤ k → (shl a j * shl b k)%positive = shl (a * b) (j + k).
Proof.
  intros Hj Hk. apply Pos2Z.inj. rewrite Pos2Z.inj_mul, !shl_value by lia.
  rewrite Pos2Z.inj_mul, Z.pow_add_r by lia. lia.
Qed.

Lemma digits_mul_lower a b : digits a + digits b - 1 ≤ digits (a * b).
Proof.
  pose proof (digits_lower a). pose proof (digits_lower b).
  pose proof (digits_upper (a * b)) as Hu. rewrite Pos2Z.inj_mul in Hu.
  pose proof (digits_pos a). pose proof (digits_pos b). pose proof (digits_pos (a * b)).
  assert (2 ^ (digits a - 1 + (digits b - 1)) < 2 ^ digits (a * b)).
  { rewrite Z.pow_add_r by lia. nia. }
  apply Z.pow_lt_mono_r_iff in H4; lia.
Qed.

Lemma mul_exact a b :
  0 ≤ a < 2 ^ 53 → 0 ≤ b < 2 ^ 53 → a * b < 2 ^ 53 →
  (of_Z a * of_Z b)%float = of_Z (a * b).
Proof.
  intros Ha Hb Hab. apply Prim2SF_inj. rewrite mul_spec.
  destruct a as [|a|a]; [|
    destruct b as [|b|b]; [| |lia]|lia].
  - rewrite Z.mul_0_l, Prim2SF_of_Z_0.
    destruct b as [|b|b]; [reflexivity| |lia].
    rewrite Prim2SF_of_Z_pos by lia. reflexivity.
  - rewrite Z.mul_0_r, Prim2SF_of_Z_0, Prim2SF_of_Z_pos by lia. reflexivity.
  - change (Z.pos a * Z.pos b) with (Z.pos (a * b)) in *.
    rewrite !Prim2SF_of_Z_pos by lia.
    pose proof (digits_le_53 a ltac:(lia)). pose proof (digits_le_53 b ltac:(lia)).
    pose proof (digits_mul_lower a b).
    unfold SF64mul. unfold rep at 1 2. unfold SFmul. simpl xorb.
    rewrite shl_mul by lia.
    replace (digits a - 53 + (digits b - 53))
      with (- (53 - digits a + (53 - digits b))) by lia.
    apply binary_round_aux_exact; [done|lia].
Qed.

(** The sum of two integers, when it stays below 2^53. *)
Lemma shl_align_shl a j k :
  0 ≤ j ≤ k → (shl_align (shl a j) (- j) (- k)).1 = shl a k.
Proof.
  intros H. unfold shl_align.
  destruct (- k - - j) as [|p|p] eqn:Hs; simpl.
  - f_equal. lia.
  - lia.
  - change (Pos.iter xO (shl a j) p) with (shl (shl a j) (Z.pos p)).
    rewrite shl_shl by lia. f_equal. lia.
Qed.

Lemma shl_add a b k : 0 ≤ k → (shl a k + shl b k)%positive = shl (a + b) k.
Proof.
  intros Hk. apply Pos2Z.inj. rewrite Pos2Z.inj_add, !shl_value by lia.
  rewrite Pos2Z.inj_add. lia.
Qed.

Lemma add_exact a b :
  0 ≤ a → 0 ≤ b → a + b < 2 ^ 53 → (of_Z a + of_Z b)%float = of_Z (a + b).
Proof.
  intros Ha Hb Hab. apply Prim2SF_inj. rewrite add_spec.
  destruct a as [|a|a]; [|
    destruct b as [|b|b]; [| |lia]|lia].
  - rewrite Z.add_0_l, Prim2SF_of_Z_0.
    destruct b as [|b|b]; [reflexivity| |lia].
    rewrite Prim2SF_of_Z_pos by lia. reflexivity.
  - rewrite Z.add_0_r, Prim2SF_of_Z_0, Prim2SF_of_Z_pos by lia. reflexivity.
  - change (Z.pos a + Z.pos b) with (Z.pos (a + b)) in *.
    rewrite !Prim2SF_of_Z_pos by lia.
    pose proof (digits_le_53 a ltac:(lia)). pose proof (digits_le_53 b ltac:(lia)).
    pose proof (digits_pos a). pose proof (digits_pos b).
    unfold SF64add. unfold rep at 1 2. unfold SFadd, cond_Zopp.
    set (k := Z.max (53 - digits a) (53 - digits b)).
    replace (Z.min (digits a - 53) (digits b - 53)) with (- k) by lia.
    replace (digits a - 53) with (- (53 - digits a)) by lia.
    replace (digits b - 53) with (- (53 - digits b)) by lia.
    rewrite !shl_align_shl by lia.
    change (Z.pos (shl a k) + Z.pos (shl b k)) with (Z.pos (shl a k + shl b k)).
    rewrite shl_add by lia. unfold binary_normalize.
    apply binary_round_exact; [done|lia].
Qed.

Lemma sub_zero_exact a : 0 ≤ a < 2 ^ 53 → (of_Z a - 0)%float = of_Z a.
Proof.
  intros Ha. apply Prim2SF_inj. rewrite sub_spec.
  change (Prim2SF 0) with (S754_zero false).
  destruct a as [|a|a]; [reflexivity| |lia].
  rewrite Prim2SF_of_Z_pos by lia. reflexivity.
Qed.

(** Doubles of integers compare as the integers do. *)
Lemma leb_exact c a :
  0 ≤ c < 2 ^ 53 → 0 ≤ a < 2 ^ 53 → (of_Z c <=? of_Z a)%float = (c <=? a).
Proof.
  intros Hc Ha. rewrite leb_spec.
  destruct c as [|c|c]; [|
    destruct a as [|a|a]; [| |lia]|lia].
  - rewrite Prim2SF_of_Z_0. destruct a as [|a|a]; [reflexivity| |lia].
    rewrite Prim2SF_of_Z_pos by lia. reflexivity.
  - rewrite Prim2SF_of_Z_0, Prim2SF_of_Z_pos by lia. reflexivity.
  - rewrite !Prim2SF_of_Z_pos by lia.
    pose proof (digits_le_53 a ltac:(lia)). pose proof (digits_le_53 c ltac:(lia)).
    pose proof (digits_lower a). pose proof (digits_upper a).
    pose proof (digits_lower c). pose proof (digits_upper c).
    pose proof (digits_pos a). pose proof (digits_pos c).
    unfold SFleb, SFcompare, rep.
    destruct (Z.compare_spec (digits c - 53) (digits a - 53)) as [He|He|He].
    + replace (digits c) with (digits a) by lia.
      change (PosDef.Pos.compare_cont Eq (shl c (53 - digits a)) (shl a (53 - digits a)))
        with ((shl c (53 - digits a) ?= shl a (53 - digits a))%positive).
      rewrite Pos2Z.inj_compare, !shl_value by lia.
      assert (0 < 2 ^ (53 - digits a)) by (apply Z.pow_pos_nonneg; lia).
      destruct (Z.compare_spec (Z.pos c * 2 ^ (53 - digits a))
                  (Z.pos a * 2 ^ (53 - digits a)));
        symmetry; [apply Z.leb_le|apply Z.leb_le|apply Z.leb_gt]; nia.
    + symmetry. apply Z.leb_le.
      assert (2 ^ digits c ≤ 2 ^ (digits a - 1)) by (apply Z.pow_le_mono_r; lia). lia.
    + symmetry. apply Z.leb_gt.
      assert (2 ^ digits a ≤ 2 ^ (digits c - 1)) by (apply Z.pow_le_mono_r; lia). lia.
Qed.

Lemma eqb_zero_exact a : 0 ≤ a < 2 ^ 53 → (of_Z a =? 0)%float = (a =? 0).
Proof.
  intros Ha. rewrite FloatAxioms.eqb_spec. change (Prim2SF 0) with (S754_zero false).
  destruct a as [|a|a]; [reflexivity| |lia].
  rewrite Prim2SF_of_Z_pos by lia. reflexivity.
Qed.

Lemma mul_of_Z_nonneg x q :
  (0 <=? x)%float = true → 1 ≤ q < 2 ^ 53 → (0 <=? x * of_Z q)%float = true.
Proof.
  intros Hx Hq. apply leb_zero. apply leb_zero in Hx. rewrite mul_spec.
  destruct q as [|q|q]; [lia| |lia].
  rewrite Prim2SF_of_Z_pos by lia. by apply SFmul_no_sign.
Qed.

Lemma WRAPPING_FEE_nonneg w : (0 <=? WRAPPING_FEE w)%float = true.
Proof.
  unfold WRAPPING_FEE, WRAPPING_FEES.
  destruct (decide (w = "none")) as [->|?]; [reflexivity|].
  destruct (decide (w = "standard")) as [->|?]; [reflexivity|].
  destruct (decide (w = "premium")) as [->|?]; [reflexivity|].
  rewrite !lookup_insert_ne by done. rewrite lookup_singleton_ne by done. reflexivity.
Qed.

Lemma SHIPPING_PKR_nonneg sub : (0 <=? SHIPPING_PKR sub)%float = true.
Proof.
  unfold SHIPPING_PKR. destruct (FREE_SHIPPING_THRESHOLD <=? sub)%float; reflexivity.
Qed.

Lemma add_line_totals_nonneg ls : ∀ sub,
  (0 <=? sub)%float = true →
  Forall (λ li, (0 <=? line_total_pkr li)%float = true) ls →
  (0 <=? add_line_totals sub ls)%float = true.
Proof.
  induction ls as [|li ls IH]; intros sub Hsub Hls; [exact Hsub|].
  inversion Hls as [|? ? Hli Hrest]; subst.
  apply IH; [|exact Hrest]. by apply add_nonneg.
Qed.

(** Looking a cart line up in the rows selected for the cart is looking
    it up in the table. *)
Lemma doubles_find_select_products db items item :
  item ∈ items →
  List.find (λ p, p_id p =? Storefront.ci_product_id item)
    (select_products (Storefront.productIds items) db)
  = product_for db item.
Proof.
  intros Hin. unfold select_products, product_for.
  induction (products db) as [|p ps IH]; [done|].
  rewrite filter_cons. simpl.
  destruct (Z.eqb_spec (p_id p) (Storefront.ci_product_id item)) as [Heq|Hne].
  - rewrite decide_True.
    + simpl. destruct (Z.eqb_spec (p_id p) (Storefront.ci_product_id item));
        [done|contradiction].
    + unfold Storefront.productIds. rewrite elem_of_list_to_set, Heq.
      by apply list_elem_of_fmap_2.
  - case_decide; [|done]. simpl.
    destruct (Z.eqb_spec (p_id p) (Storefront.ci_product_id item)); [contradiction|done].
Qed.

(** *** The two readings of the handler *)

(** Which answer the handler gives, which order id it issues and which
    products and quantities its lines carry do not depend on the prices:
    on catalogues with the same ids, names, stock and flags, the handler
    on whole rupees and the handler on doubles answer alike. *)
Lemma find_same_but_prices k (ids : gset Z) ps qs :
  Forall2 same_but_prices ps qs →
  match List.find (λ p, Storefront.p_id p =? k)
          (filter (λ p, Storefront.p_id p ∈ ids) ps),
        List.find (λ q, p_id q =? k) (filter (λ q, p_id q ∈ ids) qs) with
  | Some p, Some q => same_but_prices p q
  | None, None => True
  | _, _ => False
  end.
Proof.
  induction 1 as [|p q ps qs Hpq _ IH]; [done|].
  rewrite !filter_cons. pose proof Hpq as (Hid & _).
  rewrite <- Hid. destruct (decide (Storefront.p_id p ∈ ids)); [|exact IH].
  simpl. rewrite <- Hid. destruct (Storefront.p_id p =? k); [exact Hpq|exact IH].
Qed.

Lemma line_of_same_but_prices (ids : gset Z) ps qs item :
  Forall2 same_but_prices ps qs →
  match Storefront.line_of (filter (λ p, Storefront.p_id p ∈ ids) ps) item,
        line_of (filter (λ q, p_id q ∈ ids) qs) item with
  | inl r, inl r' => same_answer r r'
  | inr li, inr li' => same_line li li'
  | _, _ => False
  end.
Proof.
  intros H. unfold Storefront.line_of, line_of.
  pose proof (find_same_but_prices (Storefront.ci_product_id item) ids ps qs H) as Hf.
  destruct (List.find _ (filter _ ps)) as [p|], (List.find _ (filter _ qs)) as [q|];
    try done.
  destruct Hf as (Hid & Hname & Hstock & Hactive).
  rewrite <- Hid, <- Hname, <- Hstock, <- Hactive.
  destruct (Storefront.is_active p =? 0); [done|].
  destruct (Storefront.stock p <? Storefront.qty_of item); done.
Qed.

Lemma build_lines_same_but_prices (ids : gset Z) ps qs items :
  Forall2 same_but_prices ps qs →
  ∀ sub sub' acc acc', Forall2 same_line acc acc' →
  match Storefront.build_lines (filter (λ p, Storefront.p_id p ∈ ids) ps) items sub acc,
        build_lines (filter (λ q, p_id q ∈ ids) qs) items sub' acc' with
  | inl r, inl r' => same_answer r r'
  | inr (_, lis), inr (_, lis') => Forall2 same_line lis lis'
  | _, _ => False
  end.
Proof.
  intros H. induction items as [|item rest IH]; intros sub sub' acc acc' Hacc; simpl.
  - exact Hacc.
  - pose proof (line_of_same_but_prices ids ps qs item H) as Hl.
    destruct (Storefront.line_of _ item) as [r|li], (line_of _ item) as [r'|li'];
      try done.
    apply IH. apply Forall2_app; [exact Hacc|by constructor].
Qed.

Lemma batch_same_lines fails now orderId lis lis' :
  Forall2 same_line lis lis' →
  ∀ i db db',
    is_Some (Storefront.batch_from fails now orderId i lis db)
    ↔ is_Some (batch_from fails now orderId i lis' db').
Proof.
  induction 1 as [|li li' lis lis' _ _ IH]; intros i db db'; simpl.
  - split; eauto.
  - destruct (fails i); [|apply IH]. split; intros [? ?]; discriminate.
Qed.

Lemma checkouts_answer_alike fails now req db db' :
  Forall2 same_but_prices (Storefront.products db) (products db') →
  Storefront.orders_seq db = orders_seq db' →
  same_answer (Storefront.checkout fails now req db).2 (checkout fails now req db').2.
Proof.
  intros Hps Hseq. unfold Storefront.checkout, checkout.
  destruct (Js.blank (Storefront.r_customer_name req)); [done|].
  destruct (Js.blank (Storefront.r_customer_phone req)); [done|].
  destruct (Js.blank (Storefront.r_customer_city req)); [done|].
  destruct (Js.blank (Storefront.r_customer_address req)); [done|].
  destruct (bool_decide (Storefront.r_items req = [])); [done|].
  destruct (Storefront.includes Storefront.VALID_PAYMENTS _); simpl; [|done].
  destruct (Storefront.includes Storefront.VALID_WRAPPING _); simpl; [|done].
  unfold Storefront.select_products, select_products.
  pose proof (build_lines_same_but_prices
                (Storefront.productIds (Storefront.r_items req)) _ _
                (Storefront.r_items req) Hps 0 0%float [] [] (List.Forall2_nil _)) as Hb.
  destruct (Storefront.build_lines _ _ _ _) as [r|[sub lis]],
           (build_lines _ _ _ _) as [r'|[sub' lis']]; try done.
  simpl. unfold Storefront.batch, batch. rewrite <- Hseq.
  match goal with
  | |- context [Storefront.batch_from _ _ _ _ _ ?d] => set (db1 := d)
  end.
  match goal with
  | |- context [batch_from _ _ _ _ _ ?d] => set (db1' := d)
  end.
  pose proof (batch_same_lines fails now (Storefront.orders_seq db + 1) lis lis' Hb
                0%nat db1 db1') as Hbatch.
  destruct (Storefront.batch_from _ _ _ _ _ db1) as [db2|],
           (batch_from _ _ _ _ _ db1') as [db2'|]; simpl.
  - done.
  - destruct Hbatch as [Hbatch _]. destruct Hbatch as [? ?]; [eauto|discriminate].
  - destruct Hbatch as [_ Hbatch]. destruct Hbatch as [? ?]; [eauto|discriminate].
  - done.
Qed.

(** *** Whole rupees: the handler's arithmetic is exact *)

Lemma find_in_doubles k ps :
  List.find (λ q, p_id q =? k) (product_in_doubles <$> ps)
  = product_in_doubles <$> List.find (λ p, Storefront.p_id p =? k) ps.
Proof.
  induction ps as [|p ps IH]; [done|]. rewrite fmap_cons. simpl.
  destruct (Storefront.p_id p =? k); [done|exact IH].
Qed.

Lemma select_products_in_doubles ids db :
  select_products ids (in_doubles db)
  = product_in_doubles <$> Storefront.select_products ids db.
Proof.
  unfold select_products, Storefront.select_products. simpl.
  induction (Storefront.products db) as [|p ps IH]; [done|].
  rewrite fmap_cons, !filter_cons. simpl.
  destruct (decide (Storefront.p_id p ∈ ids)); [rewrite fmap_cons|]; by rewrite IH.
Qed.

Lemma unitPrice_in_doubles p :
  unitPrice (product_in_doubles p) = of_Z (Storefront.unitPrice p).
Proof. unfold unitPrice, Storefront.unitPrice. simpl. by destruct (Storefront.sale_price_pkr p). Qed.

(** One turn of the loop: the line on doubles is the line on whole rupees
    when the product of price and quantity is below 2^53. *)
Lemma line_of_in_doubles ps item li :
  Storefront.line_of ps item = inr li →
  0 ≤ Storefront.unit_price_pkr li →
  Storefront.quantity li < 2 ^ 53 →
  Storefront.line_total_pkr li < 2 ^ 53 →
  line_of (product_in_doubles <$> ps) item = inr (line_in_doubles li).
Proof.
  intros H Hu Hq Hlt. apply CheckoutFacts.line_of_inr in H as (p & Hf & Ha & Hs & ->).
  simpl in *. unfold line_of. rewrite find_in_doubles, Hf. simpl.
  destruct (Z.eqb_spec (Storefront.is_active p) 0); [contradiction|].
  destruct (Z.ltb_spec (Storefront.stock p) (Storefront.qty_of item)); [lia|].
  unfold line_in_doubles. simpl. rewrite unitPrice_in_doubles.
  pose proof (CheckoutFacts.qty_of_ge_1 item).
  rewrite mul_exact; [reflexivity|nia|lia|lia].
Qed.

(** With prices at or above zero the subtotal only grows. *)
Lemma build_lines_grows ps items : ∀ sub acc sub' lis,
  (∀ item p, item ∈ items →
     List.find (λ p, Storefront.p_id p =? Storefront.ci_product_id item) ps = Some p →
     0 ≤ Storefront.unitPrice p) →
  Storefront.build_lines ps items sub acc = inr (sub', lis) → sub ≤ sub'.
Proof.
  induction items as [|item rest IH]; intros sub acc sub' lis Hp H; simpl in H.
  - inversion H. lia.
  - destruct (Storefront.line_of ps item) as [r|li] eqn:Hl; [discriminate|].
    apply IH in H; [|intros i p Hi; apply Hp; by right].
    apply CheckoutFacts.line_of_inr in Hl as (p & Hf & _ & _ & ->). simpl in H.
    pose proof (Hp item p ltac:(left) Hf). pose proof (CheckoutFacts.qty_of_ge_1 item).
    nia.
Qed.

Lemma build_lines_in_doubles ps items : ∀ sub acc sub' lis,
  (∀ item p, item ∈ items →
     List.find (λ p, Storefront.p_id p =? Storefront.ci_product_id item) ps = Some p →
     0 ≤ Storefront.unitPrice p ∧ Storefront.stock p < 2 ^ 53) →
  0 ≤ sub → sub' < 2 ^ 53 →
  Storefront.build_lines ps items sub acc = inr (sub', lis) →
  build_lines (product_in_doubles <$> ps) items (of_Z sub) (line_in_doubles <$> acc)
  = inr (of_Z sub', line_in_doubles <$> lis).
Proof.
  induction items as [|item rest IH]; intros sub acc sub' lis Hp Hsub Hsub' H; simpl in H.
  - inversion H; subst. reflexivity.
  - destruct (Storefront.line_of ps item) as [r|li] eqn:Hl; [discriminate|].
    pose proof Hl as Hl'.
    apply CheckoutFacts.line_of_inr in Hl' as (p & Hf & _ & Hs & Hli).
    destruct (Hp item p ltac:(left) Hf) as [Hu Hstock].
    pose proof (CheckoutFacts.qty_of_ge_1 item) as Hq.
    assert (Hgrow : sub + Storefront.line_total_pkr li ≤ sub').
    { eapply build_lines_grows; [|exact H].
      intros i p' Hi Hf'. apply (Hp i p'); [by right|exact Hf']. }
    assert (Hlt : 0 ≤ Storefront.line_total_pkr li) by (subst li; simpl; nia).
    simpl. rewrite (line_of_in_doubles ps item li Hl);
      [|subst li; simpl in *; lia..].
    cbn [line_total_pkr line_in_doubles]. rewrite add_exact by lia.
    replace ((line_in_doubles <$> acc) ++ [line_in_doubles li])
      with (line_in_doubles <$> (acc ++ [li])) by (by rewrite fmap_app).
    apply IH; [|lia|done|exact H].
    intros i p' Hi Hf'. apply (Hp i p'); [by right|exact Hf'].
Qed.

Lemma SHIPPING_PKR_in_doubles sub :
  0 ≤ sub < 2 ^ 53 → SHIPPING_PKR (of_Z sub) = of_Z (Storefront.SHIPPING_PKR sub).
Proof.
  intros H. unfold SHIPPING_PKR, Storefront.SHIPPING_PKR.
  change FREE_SHIPPING_THRESHOLD with (of_Z Storefront.FREE_SHIPPING_THRESHOLD).
  rewrite leb_exact by (unfold Storefront.FREE_SHIPPING_THRESHOLD; lia).
  by destruct (_ <=? sub).
Qed.

Lemma WRAPPING_FEE_in_doubles w :
  WRAPPING_FEE w = of_Z (Storefront.WRAPPING_FEE w).
Proof.
  unfold WRAPPING_FEE, Storefront.WRAPPING_FEE, WRAPPING_FEES, Storefront.WRAPPING_FEES.
  destruct (decide (w = "none")) as [->|?]; [reflexivity|].
  destruct (decide (w = "standard")) as [->|?]; [reflexivity|].
  destruct (decide (w = "premium")) as [->|?]; [reflexivity|].
  rewrite !lookup_insert_ne by done. rewrite !lookup_singleton_ne by done. reflexivity.
Qed.

Lemma totalPkr_in_doubles sub w :
  0 ≤ sub → Storefront.totalPkr sub w < 2 ^ 53 →
  totalPkr (of_Z sub) w = of_Z (Storefront.totalPkr sub w).
Proof.
  intros Hsub Htot. unfold totalPkr, Storefront.totalPkr in *.
  assert (0 ≤ Storefront.SHIPPING_PKR sub)
    by (unfold Storefront.SHIPPING_PKR; destruct (_ <=? _); lia).
  assert (0 ≤ Storefront.WRAPPING_FEE w).
  { unfold Storefront.WRAPPING_FEE, Storefront.WRAPPING_FEES.
    destruct (decide (w = "none")) as [->|?]; [done|].
    destruct (decide (w = "standard")) as [->|?]; [done|].
    destruct (decide (w = "premium")) as [->|?]; [done|].
    rewrite !lookup_insert_ne by done. by rewrite lookup_singleton_ne by done. }
  unfold Storefront.DISCOUNT_PKR in *.
  rewrite SHIPPING_PKR_in_doubles, WRAPPING_FEE_in_doubles by lia.
  rewrite !add_exact by lia. unfold DISCOUNT_PKR.
  rewrite sub_zero_exact by lia. f_equal. lia.
Qed.

Lemma batch_from_in_doubles fails now orderId lis : ∀ i db db',
  Storefront.batch_from fails now orderId i lis db = Some db' →
  batch_from fails now orderId i (line_in_doubles <$> lis) (in_doubles db)
  = Some (in_doubles db').
Proof.
  induction lis as [|li lis IH]; intros i db db' H; simpl in H.
  - inversion H. reflexivity.
  - rewrite fmap_cons. simpl. destruct (fails i); [discriminate|].
    apply IH in H. rewrite <- H. f_equal.
    unfold insert_order_item, Storefront.insert_order_item, in_doubles. simpl.
    by rewrite fmap_app.
Qed.

Lemma insert_order_in_doubles now name phone city address payment wrapping message note
    sub ship disc tot db :
  insert_order now name phone city address payment wrapping message note
    (of_Z sub) (of_Z ship) (of_Z disc) (of_Z tot) (in_doubles db)
  = ((Storefront.insert_order now name phone city address payment wrapping message note
        sub ship disc tot db).1,
     in_doubles (Storefront.insert_order now name phone city address payment wrapping
                   message note sub ship disc tot db).2).
Proof.
  unfold insert_order, Storefront.insert_order, in_doubles. simpl.
  by rewrite fmap_app.
Qed.

Lemma WRAPPING_FEE_whole_nonneg w : 0 ≤ Storefront.WRAPPING_FEE w.
Proof.
  unfold Storefront.WRAPPING_FEE, Storefront.WRAPPING_FEES.
  destruct (decide (w = "none")) as [->|?]; [done|].
  destruct (decide (w = "standard")) as [->|?]; [done|].
  destruct (decide (w = "premium")) as [->|?]; [done|].
  rewrite !lookup_insert_ne by done. by rewrite lookup_singleton_ne by done.
Qed.

Lemma SHIPPING_PKR_whole_nonneg sub : 0 ≤ Storefront.SHIPPING_PKR sub.
Proof. unfold Storefront.SHIPPING_PKR. destruct (_ <=? _); lia. Qed.

(** The run on doubles of a checkout that goes through on whole rupees. *)
Lemma whole_rupees_run fails now req db db' oid s :
  Storefront.checkout fails now req db = (db', Storefront.Json oid s) →
  (∀ item p, item ∈ Storefront.r_items req → Storefront.product_for db item = Some p →
     0 ≤ Storefront.unitPrice p ∧ Storefront.stock p < 2 ^ 53) →
  Storefront.s_total_pkr s < 2 ^ 53 →
  checkout fails now req (in_doubles db) = (in_doubles db', Json oid (summary_in_doubles s)).
Proof.
  intros H Hp Htot. unfold Storefront.checkout in H. unfold checkout.
  destruct (Js.blank (Storefront.r_customer_name req)); [discriminate|].
  destruct (Js.blank (Storefront.r_customer_phone req)); [discriminate|].
  destruct (Js.blank (Storefront.r_customer_city req)); [discriminate|].
  destruct (Js.blank (Storefront.r_customer_address req)); [discriminate|].
  destruct (bool_decide (Storefront.r_items req = [])); [discriminate|].
  destruct (Storefront.includes Storefront.VALID_PAYMENTS _); cbn [negb] in H |- *;
    [|discriminate].
  destruct (Storefront.includes Storefront.VALID_WRAPPING _); cbn [negb] in H |- *;
    [|discriminate].
  cbv zeta in H |- *.
  destruct (Storefront.build_lines _ _ _ _) as [e|[sub lis]] eqn:Hb.
  { apply CheckoutFacts.build_lines_inl in Hb as [m ->]. inversion H. }
  assert (Hfind : ∀ item p, item ∈ Storefront.r_items req →
            List.find (λ p, Storefront.p_id p =? Storefront.ci_product_id item)
              (Storefront.select_products
                 (Storefront.productIds (Storefront.r_items req)) db) = Some p →
            0 ≤ Storefront.unitPrice p ∧ Storefront.stock p < 2 ^ 53).
  { intros item p Hin Hf. rewrite CheckoutFacts.find_select_products in Hf by done.
    exact (Hp item p Hin Hf). }
  assert (Hsub : 0 ≤ sub).
  { eapply build_lines_grows; [|exact Hb]. intros item p Hin Hf.
    by destruct (Hfind item p Hin Hf). }
  destruct (Storefront.insert_order _ _ _ _ _ _ _ _ _ _ _ _ _ _) as [orderId db1] eqn:Hins.
  destruct (Storefront.batch _ _ _ _ db1) as [db2|] eqn:Hbatch; [|discriminate].
  inversion H; subst db2 oid s; clear H. cbn [Storefront.s_total_pkr] in Htot.
  pose proof (SHIPPING_PKR_whole_nonneg sub).
  pose proof (WRAPPING_FEE_whole_nonneg (default "none" (Storefront.r_gift_wrapping req))).
  assert (Hsub53 : sub < 2 ^ 53)
    by (unfold Storefront.totalPkr, Storefront.DISCOUNT_PKR in Htot; lia).
  rewrite select_products_in_doubles.
  change 0%float with (of_Z 0).
  change (@nil line_item) with (line_in_doubles <$> []).
  rewrite (build_lines_in_doubles _ _ 0 [] sub lis Hfind ltac:(lia) Hsub53 Hb).
  rewrite SHIPPING_PKR_in_doubles, totalPkr_in_doubles by (done || lia).
  change DISCOUNT_PKR with (of_Z Storefront.DISCOUNT_PKR).
  rewrite insert_order_in_doubles, Hins. cbn [fst snd].
  unfold batch. unfold Storefront.batch in Hbatch.
  rewrite (batch_from_in_doubles _ _ _ _ _ _ _ Hbatch).
  unfold summary_in_doubles. cbn [Storefront.s_items Storefront.s_subtotal_pkr
    Storefront.s_shipping_pkr Storefront.s_discount_pkr Storefront.s_wrapping_fee
    Storefront.s_total_pkr Storefront.s_free_shipping].
  rewrite WRAPPING_FEE_in_doubles.
  rewrite eqb_zero_exact by (pose proof (SHIPPING_PKR_whole_nonneg sub);
    unfold Storefront.SHIPPING_PKR in *; destruct (_ <=? _); lia).
  reflexivity.
Qed.

(** X25.  On a catalogue of whole rupees the arithmetic of the handler
    is exact.  When the products of the cart have a unit price at or
    above zero and a stock below 2^53, and the total of the order,
    computed on whole rupees, is below 2^53, the handler on doubles writes
    the same rows and gives the same answer as the handler on whole
    rupees, amount for amount: every line total is the unit price times
    the quantity, the subtotal is their sum and the total is
    subtotal + shipping fee + surcharge, and no step rounds. *)
Theorem whole_rupees_are_exact fails now req db db' oid s :
  Storefront.checkout fails now req db = (db', Storefront.Json oid s) →
  (∀ item p, item ∈ Storefront.r_items req → Storefront.product_for db item = Some p →
     0 ≤ Storefront.unitPrice p ∧ Storefront.stock p < 2 ^ 53) →
  Storefront.s_total_pkr s < 2 ^ 53 →
  checkout fails now req (in_doubles db) = (in_doubles db', Json oid (summary_in_doubles s))
  ∧ Storefront.s_total_pkr s
    = Storefront.s_subtotal_pkr s + Storefront.s_shipping_pkr s + Storefront.s_wrapping_fee s
  ∧ Storefront.s_subtotal_pkr s = Storefront.sum_line_totals (Storefront.s_items s)
  ∧ Forall (λ li, Storefront.line_total_pkr li
                  = Storefront.unit_price_pkr li * Storefront.quantity li)
      (Storefront.s_items s).
Proof.
  intros H Hp Htot. split; [by apply whole_rupees_run|].
  pose proof (CheckoutFacts.checkout_lines _ _ _ _ _ _ _ H) as Hlines.
  apply CheckoutFacts.checkout_Json in H as (sub & lis & row & _ & Hb & _ & -> & _).
  apply CheckoutFacts.build_lines_inr in Hb as (ls & _ & -> & ->). simpl in *.
  split; [unfold Storefront.totalPkr, Storefront.DISCOUNT_PKR; lia|]. split; [done|].
  eapply CheckoutFacts.Forall2_Forall_elem; [exact Hlines|].
  by intros item li _ (p & _ & _ & _ & ->).
Qed.

Lemma whole_rupees_witness :
  ∃ db' s,
    Storefront.checkout Storefront.no_fault "2025-03-01 10:00:00"
      (Storefront.order_form (Some "premium") [Storefront.line 1 "2"; Storefront.line 2 "1"])
      Storefront.shop = (db', Storefront.Json 1 s)
    ∧ Storefront.s_total_pkr s = 2500 * 2 + 4999 + 0 + 600
    ∧ checkout Storefront.no_fault "2025-03-01 10:00:00"
        (Storefront.order_form (Some "premium")
           [Storefront.line 1 "2"; Storefront.line 2 "1"])
        (in_doubles Storefront.shop)
      = (in_doubles db', Json 1 (summary_in_doubles s)).
Proof.
  eexists _, _. split; [vm_compute; reflexivity|]. split; [reflexivity|].
  apply (whole_rupees_are_exact Storefront.no_fault "2025-03-01 10:00:00"
           (Storefront.order_form (Some "premium")
              [Storefront.line 1 "2"; Storefront.line 2 "1"]) Storefront.shop _ 1).
  - vm_compute. reflexivity.
  - intros item p Hin Hp. simpl in Hin.
    repeat (apply elem_of_cons in Hin as [->|Hin]);
      [vm_compute in Hp; inversion Hp; split; [vm_compute; discriminate|simpl; lia]..
      |by apply elem_of_nil in Hin].
  - simpl. lia.
Defined.

(** *** C3: the grand total *)

(** C3, as amended.  For every cart that goes through, the grand total
    returned in the answer and stored on the order is
    subtotal + shipping fee + surcharge - discount as the handler
    evaluates it: from left to right on doubles, each step rounded to the
    nearest double, with the discount the constant 0 and the subtotal the
    line totals added one by one from 0.  The order row carries the same
    four amounts as the answer.  Nothing clamps the result: the total is
    at or above zero whenever the unit prices of the products in the cart
    are (with their stock in the range where doubles count exactly), and a
    negative sum is returned and stored as it is. *)
Theorem C3_total_is_the_handlers_sum_without_clamp fails now req db db' oid s :
  checkout fails now req db = (db', Json oid s) →
  s_total_pkr s
    = (s_subtotal_pkr s + s_shipping_pkr s + s_wrapping_fee s - s_discount_pkr s)%float
  ∧ s_discount_pkr s = 0%float
  ∧ s_subtotal_pkr s = add_line_totals 0%float (s_items s)
  ∧ (∃ row, orders db' = orders db ++ [row] ∧ o_id row = oid
            ∧ total_pkr row = s_total_pkr s ∧ subtotal_pkr row = s_subtotal_pkr s
            ∧ shipping_pkr row = s_shipping_pkr s ∧ discount_pkr row = s_discount_pkr s
            ∧ WRAPPING_FEE (gift_wrapping row) = s_wrapping_fee s)
  ∧ ((∀ item p, item ∈ Storefront.r_items req → product_for db item = Some p →
        (0 <=? unitPrice p)%float = true ∧ stock p < 2 ^ 53) →
     (0 <=? s_total_pkr s)%float = true).
Proof.
  intros H.
  apply doubles_checkout_Json in H as (sub & lis & row & Hb & -> & -> & Hrow & Ho & _).
  destruct Hrow as (Hid & Hsub & Hship & Hdisc & Htot & Hwrap). simpl.
  apply doubles_build_lines_inr in Hb as (ls & Hall & -> & ->). simpl.
  split; [reflexivity|]. split; [reflexivity|]. split; [reflexivity|].
  split; [exists row; rewrite Hwrap; done|].
  intros Hprice. unfold totalPkr, DISCOUNT_PKR.
  apply sub_zero_nonneg, add_nonneg; [|apply WRAPPING_FEE_nonneg].
  apply add_nonneg; [|apply SHIPPING_PKR_nonneg].
  apply add_line_totals_nonneg; [reflexivity|].
  eapply CheckoutFacts.Forall2_Forall_elem; [exact Hall|].
  intros item li Hin Hl. simpl in Hl.
  apply doubles_line_of_inr in Hl as (p & Hp & _ & Hstock & ->). simpl.
  rewrite doubles_find_select_products in Hp by done.
  destruct (Hprice item p Hin Hp) as [Hu Hs].
  apply mul_of_Z_nonneg; [exact Hu|].
  pose proof (CheckoutFacts.qty_of_ge_1 item). lia.
Qed.

Lemma C3_total_witness :
  ∃ db' s,
    checkout Storefront.no_fault "2025-03-01 10:00:00"
      (Storefront.order_form (Some "premium") [Storefront.line 1 "2"; Storefront.line 3 "3"])
      shop = (db', Json 1 s)
    ∧ s_subtotal_pkr s = (5000 + of_cents 99999 * 3)%float
    ∧ s_shipping_pkr s = 0%float ∧ s_wrapping_fee s = 600%float
    ∧ total_pkr <$> orders db' = [s_total_pkr s]
    ∧ s_total_pkr s
      = (s_subtotal_pkr s + s_shipping_pkr s + s_wrapping_fee s - s_discount_pkr s)%float
    ∧ (0 <=? s_total_pkr s)%float = true.
Proof.
  eexists _, _. split; [vm_compute; reflexivity|].
  do 4 (split; [vm_compute; reflexivity|]).
  edestruct (C3_total_is_the_handlers_sum_without_clamp Storefront.no_fault
               "2025-03-01 10:00:00"
               (Storefront.order_form (Some "premium")
                  [Storefront.line 1 "2"; Storefront.line 3 "3"]) shop)
    as (Hsum & _ & _ & _ & Hpos); [vm_compute; reflexivity|].
  split; [exact Hsum|]. apply Hpos.
  intros item p Hin Hp. simpl in Hin.
  repeat (apply elem_of_cons in Hin as [->|Hin]);
    [vm_compute in Hp; inversion Hp; split; [vm_compute; reflexivity|simpl; lia]..
    |by apply elem_of_nil in Hin].
Defined.

(** The claim fails in two ways.  "Never negative": one unit of Store
    Credit, a catalogue row priced -1000, gives the subtotal -1000, the
    shipping fee 200 and the total -800, returned and stored as such.
    "Equals": three Rose Mist at 499.99 in the premium box give the
    subtotal 1499.97, the shipping fee 200, the surcharge 600 and the
    total 2299.9700000000003, which is neither the sum of the three
    numbers nor the double nearest to 2299.97. *)
Lemma C3_counterexample :
  (snd (checkout Storefront.no_fault "2025-03-01 10:00:00"
          (Storefront.order_form None [Storefront.line 4 "1"]) shop)
     = Json 1 {| s_items :=
                   [{| product_id := 4; product_name := "Store Credit"; quantity := 1;
                       unit_price_pkr := -1000; line_total_pkr := -1000 |}];
                 s_subtotal_pkr := -1000; s_shipping_pkr := 200; s_discount_pkr := 0;
                 s_wrapping_fee := 0; s_total_pkr := -800; s_free_shipping := false |}
   ∧ total_pkr <$> orders (fst (checkout Storefront.no_fault "2025-03-01 10:00:00"
                                   (Storefront.order_form None [Storefront.line 4 "1"]) shop))
     = [(-800)%float])
  ∧ ∃ db' s,
      checkout Storefront.no_fault "2025-03-01 10:00:00"
        (Storefront.order_form (Some "premium") [Storefront.line 5 "3"]) shop
      = (db', Json 1 s)
      ∧ s_subtotal_pkr s = of_cents 149997 ∧ s_shipping_pkr s = 200%float
      ∧ s_wrapping_fee s = 600%float ∧ s_discount_pkr s = 0%float
      ∧ total_pkr <$> orders db' = [s_total_pkr s]
      ∧ is_exact_total (s_total_pkr s) (s_subtotal_pkr s) (s_shipping_pkr s)
          (s_wrapping_fee s) (s_discount_pkr s) = Some false
      ∧ s_total_pkr s ≠ of_cents 229997.
Proof.
  split; [split; vm_compute; reflexivity|].
  eexists _, _. split; [vm_compute; reflexivity|].
  do 6 (split; [vm_compute; reflexivity|]).
  intros E. apply (f_equal Prim2SF) in E. vm_compute in E. discriminate.
Qed.

(** *** C7: quantities and line totals *)




End CheckoutDoublesFacts.

(** ** Properties of the payment webhook *)

Module WebhookFacts.
Import StripeWorker.

Section Handler.

Variable constructEventAsync : string → string → string → string + event.

(** *** The UPDATE, row by row *)

Lemma set_paid_match charge intent now o :
  stripe_payment_intent o = Some intent →
  status (set_paid charge intent now o) = paid
  ∧ stripe_charge_id (set_paid charge intent now o) = Some charge
  ∧ updated_at (set_paid charge intent now o) = now
  ∧ id (set_paid charge intent now o) = id o
  ∧ stripe_payment_intent (set_paid charge intent now o) = Some intent
  ∧ total_cents (set_paid charge intent now o) = total_cents o.
Proof.
  intros H. unfold set_paid. rewrite bool_decide_eq_true_2 by done. simpl. done.
Qed.

Lemma set_paid_other charge intent now o :
  stripe_payment_intent o ≠ Some intent → set_paid charge intent now o = o.
Proof. intros H. unfold set_paid. by rewrite bool_decide_eq_false_2. Qed.

(** A second application only refreshes the stamp. *)
Lemma set_paid_twice charge intent t1 t2 o :
  set_paid charge intent t2 (set_paid charge intent t1 o) = set_paid charge intent t2 o.
Proof.
  unfold set_paid. destruct (bool_decide (stripe_payment_intent o = Some intent)) eqn:E.
  - simpl. rewrite E. reflexivity.
  - rewrite E. reflexivity.
Qed.

Lemma set_paid_twice_state charge intent t1 t2 o :
  forget_updated_at (set_paid charge intent t2 (set_paid charge intent t1 o))
  = forget_updated_at (set_paid charge intent t1 o).
Proof.
  unfold set_paid. destruct (bool_decide (stripe_payment_intent o = Some intent)) eqn:E.
  - simpl. rewrite E. reflexivity.
  - rewrite E. reflexivity.
Qed.

Lemma update_paid_twice charge intent t1 t2 db :
  update_paid charge intent t2 (update_paid charge intent t1 db)
  = update_paid charge intent t2 db.
Proof.
  unfold update_paid. rewrite <- list_fmap_compose.
  apply list_fmap_ext. intros ? o _. apply set_paid_twice.
Qed.

Lemma update_paid_twice_state charge intent t1 t2 db :
  forget_updated_at <$> update_paid charge intent t2 (update_paid charge intent t1 db)
  = forget_updated_at <$> update_paid charge intent t1 db.
Proof.
  unfold update_paid. rewrite <- !list_fmap_compose.
  apply list_fmap_ext. intros ? o _. apply set_paid_twice_state.
Qed.

Lemma update_paid_unmatched charge intent now db :
  (∀ o, o ∈ db → stripe_payment_intent o ≠ Some intent) →
  update_paid charge intent now db = db.
Proof.
  intros H. unfold update_paid. induction db as [|o db IH]; [done|].
  rewrite fmap_cons, set_paid_other by (apply H; left).
  f_equal. apply IH. intros o' Ho'. apply H. by right.
Qed.

(** *** The handler on a verified event *)

Lemma webhook_verified secret now body signature db ev :
  constructEventAsync body signature secret = inr ev →
  webhook constructEventAsync secret now body signature db =
    (if bool_decide (type ev = "payment_intent.succeeded") then
       update_paid (default "" (latest_charge (data_object ev)))
         (pi_id (data_object ev)) now db
     else db, JsonReceived).
Proof. intros H. unfold webhook. by rewrite H. Qed.

(** *** C5: replaying a confirmation *)

(** C5.  Delivering the same verified "payment succeeded" event a
    second time is acknowledged like the first and changes nothing in
    the payment state: the table has the same rows, every row has the
    same status, charge reference and other columns as after the first
    delivery, and a matching order is paid with the event's charge.
    Only the [updated_at] stamp of a matched row moves to the time of
    the second delivery, so that two deliveries leave exactly the
    table that a single delivery at that time leaves. *)
Theorem C5_webhook_replay_is_idempotent secret t1 t2 body signature ev db :
  constructEventAsync body signature secret = inr ev →
  type ev = "payment_intent.succeeded" →
  let once := webhook constructEventAsync secret t1 body signature db in
  let twice := webhook constructEventAsync secret t2 body signature (fst once) in
  snd once = JsonReceived ∧ snd twice = JsonReceived
  ∧ length (fst twice) = length (fst once)
  ∧ forget_updated_at <$> fst twice = forget_updated_at <$> fst once
  ∧ fst twice = fst (webhook constructEventAsync secret t2 body signature db)
  ∧ (t2 = t1 → fst twice = fst once)
  ∧ (∀ o, o ∈ fst twice →
       stripe_payment_intent o = Some (pi_id (data_object ev)) →
       status o = paid
       ∧ stripe_charge_id o = Some (default "" (latest_charge (data_object ev)))).
Proof.
  intros Hev Hty once twice. subst once twice.
  rewrite !(webhook_verified _ _ _ _ _ ev Hev).
  rewrite !bool_decide_eq_true_2 by done. simpl.
  split; [done|]. split; [done|].
  split; [unfold update_paid; by rewrite !length_fmap|].
  split; [apply update_paid_twice_state|].
  split; [apply update_paid_twice|].
  split.
  - intros ->. rewrite update_paid_twice. reflexivity.
  - intros o Hin Hint. rewrite update_paid_twice in Hin.
    unfold update_paid in Hin. apply list_elem_of_fmap in Hin as (o0 & -> & _).
    unfold set_paid in *. destruct (bool_decide _) eqn:E; [done|].
    apply bool_decide_eq_false in E. contradiction.
Qed.

(** *** C8: what the endpoint answers *)

(** C8.  When the signature check fails the endpoint answers 400 and
    the table is untouched.  In every other case it answers 200 with
    the acknowledgment; when the verified event has a type other than
    "payment_intent.succeeded", or its intent id is stored on no order,
    no row is changed. *)
Theorem C8_webhook_400_on_bad_signature_200_otherwise secret now body signature db :
  (∀ err, constructEventAsync body signature secret = inl err →
     webhook constructEventAsync secret now body signature db
       = (db, jsonError (WebhookSignatureVerificationFailed err) 400)
     ∧ status_of (snd (webhook constructEventAsync secret now body signature db)) = 400)
  ∧ (∀ ev, constructEventAsync body signature secret = inr ev →
       snd (webhook constructEventAsync secret now body signature db) = JsonReceived
       ∧ status_of (snd (webhook constructEventAsync secret now body signature db)) = 200
       ∧ (type ev ≠ "payment_intent.succeeded" →
          fst (webhook constructEventAsync secret now body signature db) = db)
       ∧ ((∀ o, o ∈ db → stripe_payment_intent o ≠ Some (pi_id (data_object ev))) →
          fst (webhook constructEventAsync secret now body signature db) = db)).
Proof.
  split.
  - intros err H. unfold webhook. rewrite H. done.
  - intros ev H. rewrite (webhook_verified _ _ _ _ _ ev H). simpl.
    split; [done|]. split; [done|]. split.
    + intros Hty. by rewrite bool_decide_eq_false_2.
    + intros Hnone. destruct (bool_decide _); [|done].
      by apply update_paid_unmatched.
Qed.

(** *** C10: the update does not look at the current status *)

(** C10.  For every verified "payment succeeded" event and every order
    that stores the event's intent id, whatever the order's status was
    (pending, paid, shipped, delivered or cancelled), after the call
    its status is paid, its charge reference is the event's latest
    charge (the empty text when the event has none) and its
    [updated_at] is the time of the call; its other columns and its
    place in the table are as before. *)
Theorem C10_paid_whatever_the_prior_status secret now body signature ev db i o :
  constructEventAsync body signature secret = inr ev →
  type ev = "payment_intent.succeeded" →
  db !! i = Some o →
  stripe_payment_intent o = Some (pi_id (data_object ev)) →
  ∃ o', fst (webhook constructEventAsync secret now body signature db) !! i = Some o'
        ∧ status o' = paid
        ∧ stripe_charge_id o' = Some (default "" (latest_charge (data_object ev)))
        ∧ updated_at o' = now
        ∧ id o' = id o
        ∧ stripe_payment_intent o' = stripe_payment_intent o
        ∧ total_cents o' = total_cents o.
Proof.
  intros Hev Hty Hi Hint.
  rewrite (webhook_verified _ _ _ _ _ ev Hev), bool_decide_eq_true_2 by done. simpl.
  eexists. split; [unfold update_paid; rewrite list_lookup_fmap, Hi; reflexivity|].
  destruct (set_paid_match (default "" (latest_charge (data_object ev)))
              (pi_id (data_object ev)) now o Hint) as (? & ? & ? & ? & ? & ?).
  rewrite Hint. done.
Qed.

End Handler.

Lemma C5_webhook_replay_witness :
  let once := webhook sample_construct "whsec_1" "2025-03-01 10:00:00"
                "succeeded pi_101" "whsec_1" sample_orders in
  let twice := webhook sample_construct "whsec_1" "2025-03-01 10:05:00"
                 "succeeded pi_101" "whsec_1" (fst once) in
  snd once = JsonReceived ∧ snd twice = JsonReceived
  ∧ length (fst twice) = 4%nat
  ∧ (status <$> fst once) = [paid; cancelled; delivered; pending]
  ∧ (status <$> fst twice) = [paid; cancelled; delivered; pending]
  ∧ (stripe_charge_id <$> fst twice) = [Some "ch_501"; None; Some "ch_old"; None]
  ∧ forget_updated_at <$> fst twice = forget_updated_at <$> fst once.
Proof.
  intros once twice.
  destruct (C5_webhook_replay_is_idempotent sample_construct "whsec_1"
              "2025-03-01 10:00:00" "2025-03-01 10:05:00" "succeeded pi_101" "whsec_1"
              (succeeded "pi_101" (Some "ch_501")) sample_orders eq_refl eq_refl)
    as (H1 & H2 & _ & Hstate & _).
  split; [exact H1|]. split; [exact H2|].
  split; [reflexivity|]. split; [reflexivity|]. split; [reflexivity|].
  split; [reflexivity|]. exact Hstate.
Defined.

Lemma C8_webhook_status_witness :
  webhook sample_construct "whsec_1" "2025-03-01 10:00:00" "succeeded pi_101" "forged"
    sample_orders
  = (sample_orders,
     jsonError (WebhookSignatureVerificationFailed
                  "No signatures found matching the expected signature for payload") 400)
  ∧ webhook sample_construct "whsec_1" "2025-03-01 10:00:00" "succeeded pi_999" "whsec_1"
      sample_orders = (sample_orders, JsonReceived)
  ∧ webhook sample_construct "whsec_1" "2025-03-01 10:00:00" "refunded ch_501" "whsec_1"
      sample_orders = (sample_orders, JsonReceived).
Proof.
  split; [|split].
  - destruct (C8_webhook_400_on_bad_signature_200_otherwise sample_construct "whsec_1"
                "2025-03-01 10:00:00" "succeeded pi_101" "forged" sample_orders)
      as [Hbad _].
    apply (Hbad _ eq_refl).
  - destruct (C8_webhook_400_on_bad_signature_200_otherwise sample_construct "whsec_1"
                "2025-03-01 10:00:00" "succeeded pi_999" "whsec_1" sample_orders)
      as [_ Hok].
    destruct (Hok _ eq_refl) as (Hr & _ & _ & Hdb).
    apply injective_projections; [apply Hdb|exact Hr].
    intros o Hin. unfold sample_orders in Hin.
    repeat (apply elem_of_cons in Hin as [->|Hin]); [discriminate..|].
    by apply elem_of_nil in Hin.
  - destruct (C8_webhook_400_on_bad_signature_200_otherwise sample_construct "whsec_1"
                "2025-03-01 10:00:00" "refunded ch_501" "whsec_1" sample_orders)
      as [_ Hok].
    destruct (Hok _ eq_refl) as (Hr & _ & Hdb & _).
    apply injective_projections; [apply Hdb; discriminate|exact Hr].
Defined.

(** A cancelled order is marked paid by a late confirmation. *)
Lemma C10_paid_witness :
  (status <$> sample_orders !! 1%nat) = Some cancelled
  ∧ ∃ o', fst (webhook sample_construct "whsec_1" "2025-03-01 10:00:00"
                 "succeeded pi_102" "whsec_1" sample_orders) !! 1%nat = Some o'
          ∧ status o' = paid
          ∧ stripe_charge_id o' = Some "ch_502"
          ∧ updated_at o' = "2025-03-01 10:00:00"
          ∧ id o' = 2
          ∧ stripe_payment_intent o' = Some "pi_102"
          ∧ total_cents o' = 12000.
Proof.
  split; [reflexivity|].
  apply (C10_paid_whatever_the_prior_status sample_construct "whsec_1"
           "2025-03-01 10:00:00" "succeeded pi_102" "whsec_1"
           (succeeded "pi_102" (Some "ch_502")) sample_orders 1%nat
           (sample_order 2 cancelled (Some "pi_102") None));
    reflexivity.
Defined.

End WebhookFacts.

(** ** Further properties of the storefront *)

Module StorefrontFacts.
Import Storefront Orders CheckoutFacts.

(** *** The checkout, step by step *)

Lemma batch_from_exact fails now orderId lineItems : ∀ i db db',
  batch_from fails now orderId i lineItems db = Some db' →
  db' = {| products := products db;
           orders := orders db;
           order_items :=
             order_items db ++ item_rows now orderId (order_items_seq db) lineItems;
           orders_seq := orders_seq db;
           order_items_seq := order_items_seq db + Z.of_nat (length lineItems) |}.
Proof.
  induction lineItems as [|li rest IH]; intros i db db' H; simpl in H.
  - inversion H; subst. destruct db'; simpl. f_equal; [by rewrite app_nil_r|lia].
  - destruct (fails i); [discriminate|].
    apply IH in H as ->. simpl. f_equal; [by rewrite <- app_assoc|lia].
Qed.

(** A request and a cart that pass lead to the header insert, and the
    answer depends on the batch alone. *)
Lemma checkout_run fails now req db sub lis :
  fields_ok req = true →
  includes VALID_WRAPPING (default "none" (r_gift_wrapping req)) = true →
  build_lines (select_products (productIds (r_items req)) db) (r_items req) 0 []
    = inr (sub, lis) →
  checkout fails now req db =
    match batch fails now (orders_seq db + 1) lis (with_header now req sub db) with
    | None => (with_header now req sub db, Uncaught)
    | Some db2 => (db2, Json (orders_seq db + 1) (summary_of req sub lis))
    end.
Proof.
  intros Hf Hw Hb. pass_request_checks Hf.
  simpl negb. cbv iota. rewrite Hb. reflexivity.
Qed.

(** A cart that does not pass is answered with the error of the loop. *)
Lemma checkout_cart_error fails now req db r :
  fields_ok req = true →
  includes VALID_WRAPPING (default "none" (r_gift_wrapping req)) = true →
  build_lines (select_products (productIds (r_items req)) db) (r_items req) 0 []
    = inl r →
  checkout fails now req db = (db, r).
Proof.
  intros Hf Hw Hb. pass_request_checks Hf.
  simpl negb. cbv iota. rewrite Hb. reflexivity.
Qed.

(** The three ways the handler ends, with the database it leaves. *)
Lemma checkout_outcomes fails now req db db' r :
  checkout fails now req db = (db', r) →
  (db' = db ∧ ∃ m st, r = jsonError m st)
  ∨ ∃ sub lis,
      fields_ok req = true
      ∧ includes VALID_WRAPPING (default "none" (r_gift_wrapping req)) = true
      ∧ build_lines (select_products (productIds (r_items req)) db) (r_items req) 0 []
          = inr (sub, lis)
      ∧ ((r = Uncaught ∧ db' = with_header now req sub db)
         ∨ (r = Json (orders_seq db + 1) (summary_of req sub lis)
            ∧ db' = with_order now req sub lis db)).
Proof.
  intros H. pose proof H as Hc.
  apply checkout_cases in Hc as [(-> & m & st & -> & _)|Hc]; [left; eauto|].
  destruct Hc as (sub & lis & row & Hf & Hw & Hb & _). right.
  exists sub, lis. split; [done|]. split; [done|]. split; [done|].
  rewrite (checkout_run fails now req db sub lis Hf Hw Hb) in H.
  unfold batch in H.
  destruct (batch_from fails now _ 0 lis (with_header now req sub db)) as [db2|] eqn:Hbatch.
  - apply batch_from_exact in Hbatch. inversion H; subst. right. done.
  - inversion H; subst. left. done.
Qed.

(** *** Rejected requests and carts *)

(** X1.  A checkout that is answered with an error has written nothing,
    and the error is a 400 (the request) or a 422 (the cart). *)
Theorem rejected_checkout_writes_nothing fails now req db db' m st :
  checkout fails now req db = (db', jsonError m st) →
  db' = db ∧ (st = 400 ∨ st = 422).
Proof.
  intros H. apply checkout_cases in H as [(-> & m' & st' & Hr & Hst)|H].
  - inversion Hr; subst. done.
  - destruct H as (? & ? & ? & _ & _ & _ & _ & _ & _ & [[? _]|[? _]]); discriminate.
Qed.

Lemma rejected_checkout_witness :
  checkout no_fault "2025-03-01 10:00:00" (order_form None [line 1 "5"]) shop
    = (shop, jsonError (OnlyLeftInStock "Floral Bloom" 3) 422)
  ∧ (shop = shop ∧ ((422 : Z) = 400 ∨ (422 : Z) = 422)).
Proof.
  split; [vm_compute; reflexivity|].
  apply (rejected_checkout_writes_nothing no_fault "2025-03-01 10:00:00"
           (order_form None [line 1 "5"]) shop shop (OnlyLeftInStock "Floral Bloom" 3) 422).
  vm_compute. reflexivity.
Defined.

(** The first byte of a white-space character of two or three bytes is
    not a white-space character itself, and that of one of three bytes
    does not start one of two. *)
Lemma lead_byte_not_white_space a b c :
  Js.is_white_space2 a b = true ∨ Js.is_white_space3 a b c = true →
  Js.is_white_space a = false.
Proof.
  destruct a as [[] [] [] [] [] [] [] []]; try reflexivity;
    intros [H|H]; cbv in H; discriminate.
Qed.

Lemma lead_byte_of_three a b c :
  Js.is_white_space3 a b c = true → Js.is_white_space2 a b = false.
Proof.
  destruct a as [[] [] [] [] [] [] [] []]; try reflexivity;
    intros H; cbv in H; discriminate.
Qed.

(** [trim] leaves nothing of a text of white space. *)
Lemma trim_only_white_space s : Js.only_white_space s → Js.trim s = "".
Proof.
  intros H. unfold Js.trim.
  assert (Hs : Js.trimStart s = ""); [|by rewrite Hs].
  unfold Js.trimStart.
  induction H as [|a s Ha _ IH|a b s Hab _ IH|a b c s Habc _ IH]; cbn [Js.strip].
  - reflexivity.
  - by rewrite Ha.
  - rewrite (lead_byte_not_white_space a b b) by (by left). by rewrite Hab.
  - rewrite (lead_byte_not_white_space a b c) by (by right).
    rewrite (lead_byte_of_three a b c) by done. by rewrite Habc.
Qed.

Lemma blank_missing_or_blank x : Js.missing_or_blank x → Js.blank x = true.
Proof.
  destruct x as [s|]; [|done]. intros H. simpl.
  apply bool_decide_eq_true. by apply trim_only_white_space.
Qed.

(** X2.  The checks of the request come before any query: when a
    customer field is missing or has no character other than white space,
    the cart is empty, or the payment method or the wrapping is not a
    listed one, the answer is one and the same 400 for every catalogue,
    every stock and every state of the store, which stays as it was; the
    name is checked first. *)
Theorem request_checks_do_not_depend_on_the_store req :
  Js.missing_or_blank (r_customer_name req) ∨ Js.missing_or_blank (r_customer_phone req)
  ∨ Js.missing_or_blank (r_customer_city req)
  ∨ Js.missing_or_blank (r_customer_address req)
  ∨ r_items req = []
  ∨ default "cod" (r_payment_method req) ∉ VALID_PAYMENTS
  ∨ default "none" (r_gift_wrapping req) ∉ VALID_WRAPPING →
  ∃ m, (Js.missing_or_blank (r_customer_name req) → m = ApnaNaamDarain)
       ∧ ∀ fails now db, checkout fails now req db = (db, jsonError m 400).
Proof.
  intros H.
  destruct (Js.blank (r_customer_name req)) eqn:E1;
    [exists ApnaNaamDarain; split; [done|]; intros; unfold checkout; by rewrite E1|].
  assert (Hname : ¬ Js.missing_or_blank (r_customer_name req))
    by (intros Hb; apply blank_missing_or_blank in Hb; congruence).
  destruct (Js.blank (r_customer_phone req)) eqn:E2;
    [exists PhoneNumberDarain; split; [done|]; intros; unfold checkout;
     by rewrite E1, E2|].
  destruct (Js.blank (r_customer_city req)) eqn:E3;
    [exists SheherKaNaamDarain; split; [done|]; intros; unfold checkout;
     by rewrite E1, E2, E3|].
  destruct (Js.blank (r_customer_address req)) eqn:E4;
    [exists AddressDarain; split; [done|]; intros; unfold checkout;
     by rewrite E1, E2, E3, E4|].
  destruct (bool_decide (r_items req = [])) eqn:E5;
    [exists CartIsEmpty; split; [done|]; intros; unfold checkout;
     by rewrite E1, E2, E3, E4, E5|].
  destruct (includes VALID_PAYMENTS (default "cod" (r_payment_method req))) eqn:E6;
    [|exists InvalidPaymentMethod; split; [done|]; intros; unfold checkout;
      by rewrite E1, E2, E3, E4, E5, E6].
  destruct (includes VALID_WRAPPING (default "none" (r_gift_wrapping req))) eqn:E7;
    [|exists InvalidGiftWrappingOption; split; [done|]; intros; unfold checkout;
      by rewrite E1, E2, E3, E4, E5, E6, E7].
  exfalso.
  destruct H as [H|[H|[H|[H|[H|[H|H]]]]]].
  - contradiction.
  - apply blank_missing_or_blank in H. congruence.
  - apply blank_missing_or_blank in H. congruence.
  - apply blank_missing_or_blank in H. congruence.
  - apply bool_decide_eq_false in E5. contradiction.
  - apply bool_decide_eq_true in E6. contradiction.
  - apply bool_decide_eq_true in E7. contradiction.
Qed.

Lemma request_checks_witness :
  ∃ m, m = ApnaNaamDarain
       ∧ ∀ fails now db,
           checkout fails now (nameless_form [line 1 "1"]) db = (db, jsonError m 400).
Proof.
  assert (Hblank : Js.missing_or_blank (r_customer_name (nameless_form [line 1 "1"]))).
  { simpl. apply Js.ows_1; [reflexivity|]. apply Js.ows_2; [reflexivity|].
    apply Js.ows_1; [reflexivity|]. apply Js.ows_empty. }
  destruct (request_checks_do_not_depend_on_the_store (nameless_form [line 1 "1"]))
    as (m & Hm & Hrun); [by left|].
  exists m. split; [by apply Hm|exact Hrun].
Defined.

(** How the loop treats one line, read on the table. *)
Lemma line_of_selected db items item :
  item ∈ items →
  line_of (select_products (productIds items) db) item =
    match product_for db item with
    | None => inl (jsonError (ProductNotFound (ci_product_id item)) 422)
    | Some p =>
        if is_active p =? 0 then inl (jsonError (CurrentlyUnavailable (p_name p)) 422)
        else if stock p <? qty_of item
          then inl (jsonError (OnlyLeftInStock (p_name p) (stock p)) 422)
        else inr {| product_id := p_id p; product_name := p_name p;
                    quantity := qty_of item; unit_price_pkr := unitPrice p;
                    line_total_pkr := unitPrice p * qty_of item |}
    end.
Proof. intros Hin. unfold line_of. by rewrite find_select_products. Qed.

Lemma line_ok_passes db items item :
  item ∈ items → line_ok db item →
  ∃ li, line_of (select_products (productIds items) db) item = inr li.
Proof.
  intros Hin (p & Hp & Ha & Hs). rewrite line_of_selected, Hp by done.
  destruct (Z.eqb_spec (is_active p) 0); [contradiction|].
  destruct (Z.ltb_spec (stock p) (qty_of item)); [lia|]. eauto.
Qed.

Lemma build_lines_first_error dbProducts item post r : ∀ pre sub acc,
  Forall (λ i, ∃ li, line_of dbProducts i = inr li) pre →
  line_of dbProducts item = inl r →
  build_lines dbProducts (pre ++ item :: post) sub acc = inl r.
Proof.
  induction pre as [|i pre IH]; intros sub acc Hpre Hbad; simpl.
  - by rewrite Hbad.
  - inversion Hpre as [|? ? [li Hli] Hrest]; subst. rewrite Hli. by apply IH.
Qed.

(** X3.  The cart is checked in order and the first line that fails
    decides the answer: when the lines before it pass, a line whose product
    id is not in the table is answered 422 "Product ... not found" with the
    id, a line of an inactive product 422 "... is currently unavailable"
    with its name, and a line that asks for more than the stock 422
    "... only N left in stock" with the name and the stock.  Nothing is
    written. *)
Theorem first_bad_line_is_reported fails now req db pre item post :
  fields_ok req = true →
  includes VALID_WRAPPING (default "none" (r_gift_wrapping req)) = true →
  r_items req = pre ++ item :: post →
  (∀ i, i ∈ pre → line_ok db i) →
  ¬ line_ok db item →
  checkout fails now req db =
    (db, jsonError
           match product_for db item with
           | None => ProductNotFound (ci_product_id item)
           | Some p => if is_active p =? 0 then CurrentlyUnavailable (p_name p)
                       else OnlyLeftInStock (p_name p) (stock p)
           end 422).
Proof.
  intros Hf Hw Hitems Hpre Hbad.
  apply checkout_cart_error; [done..|]. rewrite Hitems at 2.
  apply build_lines_first_error.
  - apply Forall_forall. intros i Hi. apply line_ok_passes; [|by apply Hpre].
    rewrite Hitems. apply elem_of_app. by left.
  - rewrite line_of_selected by (rewrite Hitems; apply elem_of_app; right; left).
    destruct (product_for db item) as [p|] eqn:Hp; [|done].
    destruct (Z.eqb_spec (is_active p) 0); [done|].
    destruct (Z.ltb_spec (stock p) (qty_of item)); [done|].
    exfalso. apply Hbad. exists p. done.
Qed.

Lemma first_bad_line_witness :
  checkout no_fault "2025-03-01 10:00:00"
    (order_form None [line 2 "1"; line 1 "4"; line 9 "1"]) shop
  = (shop, jsonError (OnlyLeftInStock "Floral Bloom" 3) 422).
Proof.
  apply (first_bad_line_is_reported no_fault "2025-03-01 10:00:00"
           (order_form None [line 2 "1"; line 1 "4"; line 9 "1"]) shop
           [line 2 "1"] (line 1 "4") [line 9 "1"]);
    [vm_compute; reflexivity..| |].
  - intros i Hi. apply list_elem_of_singleton in Hi as ->.
    exists velvet_rose. repeat split; [discriminate|vm_compute; discriminate].
  - intros (p & Hp & _ & Hs). vm_compute in Hp. inversion Hp; subst.
    vm_compute in Hs. by apply Hs.
Defined.

(** *** What an order leaves behind *)

(** X4.  The checkout never touches the catalogue: after an order has
    gone through, the [products] table, stock included, is as before, and
    the same request goes through again on the new database with the same
    summary and the next order id. *)
Theorem checkout_can_be_repeated fails now req db db1 oid s fails' now' :
  checkout fails now req db = (db1, Json oid s) →
  (∀ j, fails' j = false) →
  products db1 = products db
  ∧ ∃ db2, checkout fails' now' req db1 = (db2, Json (oid + 1) s)
           ∧ products db2 = products db.
Proof.
  intros H Hok.
  apply checkout_outcomes in H as [(_ & ? & ? & ?)|H]; [discriminate|].
  destruct H as (sub & lis & Hf & Hw & Hb & [[? _]|[Hr ->]]); [discriminate|].
  inversion Hr; subst. split; [reflexivity|].
  assert (Hb' : build_lines
                  (select_products (productIds (r_items req)) (with_order now req sub lis db))
                  (r_items req) 0 [] = inr (sub, lis)) by exact Hb.
  rewrite (checkout_run fails' now' req _ sub lis Hf Hw Hb').
  destruct (batch_from_no_fault fails' now' (orders_seq db + 1 + 1) lis 0%nat
              (with_header now' req sub (with_order now req sub lis db)) Hok)
    as [db2 Hbatch].
  unfold batch. simpl orders_seq. rewrite Hbatch.
  exists db2. split; [reflexivity|].
  apply batch_from_Some in Hbatch as (Hp & _). rewrite Hp. reflexivity.
Qed.

Lemma checkout_can_be_repeated_witness :
  stock floral_bloom = 3
  ∧ ∃ db1 s,
      checkout no_fault "2025-03-01 10:00:00" (order_form None [line 1 "3"]) shop
        = (db1, Json 1 s)
      ∧ products db1 = products shop
      ∧ ∃ db2, checkout no_fault "2025-03-01 10:01:00" (order_form None [line 1 "3"]) db1
                 = (db2, Json 2 s)
               ∧ products db2 = products shop.
Proof.
  split; [reflexivity|]. eexists _, _. split; [vm_compute; reflexivity|].
  eapply (checkout_can_be_repeated no_fault "2025-03-01 10:00:00"
            (order_form None [line 1 "3"]) shop _ 1 _ no_fault "2025-03-01 10:01:00");
    [vm_compute; reflexivity|reflexivity].
Defined.

Lemma item_rows_columns now orderId ls : ∀ seq,
  oi_product_id <$> item_rows now orderId seq ls = product_id <$> ls
  ∧ oi_quantity <$> item_rows now orderId seq ls = quantity <$> ls
  ∧ oi_unit_price_pkr <$> item_rows now orderId seq ls = unit_price_pkr <$> ls
  ∧ oi_product_name <$> item_rows now orderId seq ls = product_name <$> ls
  ∧ Forall (λ row, oi_order_id row = orderId) (item_rows now orderId seq ls).
Proof.
  induction ls as [|li rest IH]; intros seq; [by repeat split|].
  cbn [item_rows]. rewrite !fmap_cons.
  destruct (IH (seq + 1)) as (-> & -> & -> & -> & ?).
  simpl. repeat split. by constructor.
Qed.

(** X5.  An order has one line per cart entry, in the order of the cart:
    two entries for the same product stay two lines.  The answer and the
    rows written to [order_items] carry, entry by entry, the product id
    of the entry and its coerced quantity, and every new row points to
    the new order. *)
Theorem lines_follow_the_cart fails now req db db' oid s :
  checkout fails now req db = (db', Json oid s) →
  product_id <$> s_items s = ci_product_id <$> r_items req
  ∧ quantity <$> s_items s = qty_of <$> r_items req
  ∧ ∃ rows, order_items db' = order_items db ++ rows
      ∧ oi_product_id <$> rows = ci_product_id <$> r_items req
      ∧ oi_quantity <$> rows = qty_of <$> r_items req
      ∧ Forall (λ row, oi_order_id row = oid) rows.
Proof.
  intros H. pose proof (checkout_lines _ _ _ _ _ _ _ H) as Hlines.
  apply checkout_outcomes in H as [(_ & ? & ? & ?)|H]; [discriminate|].
  destruct H as (sub & lis & _ & _ & _ & [[? _]|[Hr ->]]); [discriminate|].
  inversion Hr; subst. simpl in *.
  assert (Hcols : product_id <$> lis = ci_product_id <$> r_items req
                  ∧ quantity <$> lis = qty_of <$> r_items req).
  { clear -Hlines. induction Hlines as [|item li items ls Hl _ [IH1 IH2]]; [done|].
    destruct Hl as (p & Hp & _ & _ & ->). rewrite !fmap_cons. simpl.
    apply find_some in Hp as [_ Hid%Z.eqb_eq]. by rewrite IH1, IH2, Hid. }
  destruct Hcols as [Hids Hqty]. split; [done|]. split; [done|].
  eexists. split; [reflexivity|].
  destruct (item_rows_columns now (orders_seq db + 1) lis (order_items_seq db))
    as (-> & -> & _ & _ & ?). done.
Qed.

Lemma lines_follow_the_cart_witness :
  ∃ db' s,
    checkout no_fault "2025-03-01 10:00:00"
      (order_form None [line 2 "1"; line 1 "1"; line 2 "3"]) shop = (db', Json 1 s)
    ∧ product_id <$> s_items s = [2; 1; 2]
    ∧ quantity <$> s_items s = [1; 1; 3]
    ∧ oi_product_id <$> order_items db' = [2; 1; 2].
Proof.
  eexists _, _. split; [vm_compute; reflexivity|].
  edestruct (lines_follow_the_cart no_fault "2025-03-01 10:00:00"
               (order_form None [line 2 "1"; line 1 "1"; line 2 "3"]) shop)
    as (Hids & Hqty & _); [vm_compute; reflexivity|].
  split; [exact Hids|]. split; [exact Hqty|]. reflexivity.
Defined.

(** X6.  The surcharge of an order that goes through is read off the
    wrapping alone: 300 for 'standard', 600 for 'premium', 0 for 'none'
    and for a request without the key; the wrapping is stored on the
    order. *)
Theorem wrapping_fee_by_selection fails now req db db' oid s :
  checkout fails now req db = (db', Json oid s) →
  let wrapping := default "none" (r_gift_wrapping req) in
  wrapping ∈ VALID_WRAPPING
  ∧ s_wrapping_fee s =
      (if bool_decide (wrapping = "standard") then 300
       else if bool_decide (wrapping = "premium") then 600 else 0)
  ∧ ∃ row, last (orders db') = Some row ∧ o_id row = oid
           ∧ gift_wrapping row = wrapping.
Proof.
  intros H wrapping.
  apply checkout_outcomes in H as [(_ & ? & ? & ?)|H]; [discriminate|].
  destruct H as (sub & lis & _ & Hw & _ & [[? _]|[Hr ->]]); [discriminate|].
  inversion Hr; subst. simpl. fold wrapping in Hw |- *.
  split; [|split].
  - unfold includes in Hw. by apply bool_decide_eq_true in Hw.
  - destruct (WRAPPING_FEE_valid _ Hw) as [[-> ->]|[[-> ->]|[-> ->]]]; reflexivity.
  - eexists. rewrite last_snoc. done.
Qed.

Lemma wrapping_fee_witness :
  ∃ db' s,
    checkout no_fault "2025-03-01 10:00:00"
      (order_form (Some "standard") [line 1 "1"]) shop = (db', Json 1 s)
    ∧ s_wrapping_fee s = 300
    ∧ gift_wrapping <$> orders db' = ["standard"].
Proof.
  eexists _, _. split; [vm_compute; reflexivity|].
  edestruct (wrapping_fee_by_selection no_fault "2025-03-01 10:00:00"
               (order_form (Some "standard") [line 1 "1"]) shop)
    as (_ & Hfee & _); [vm_compute; reflexivity|].
  split; [exact Hfee|reflexivity].
Defined.

(** *** Invariants of the order tables *)

Lemma item_rows_ids now orderId ls : ∀ seq,
  Forall (λ row, seq < oi_id row ≤ seq + Z.of_nat (length ls)) (item_rows now orderId seq ls)
  ∧ NoDup (oi_id <$> item_rows now orderId seq ls).
Proof.
  induction ls as [|li rest IH]; intros seq; [split; constructor|].
  cbn [item_rows]. rewrite fmap_cons. destruct (IH (seq + 1)) as [Hran Hnd].
  split.
  - constructor; [simpl; lia|].
    eapply Forall_impl; [exact Hran|]. intros row ?. simpl in *. lia.
  - constructor; [|exact Hnd]. simpl. intros Hin.
    apply list_elem_of_fmap in Hin as (row & Hid & Hrow).
    rewrite Forall_forall in Hran. specialize (Hran row Hrow). lia.
Qed.

Lemma put_admin_order_state now id new_status new_payment db db' r :
  put_admin_order now id new_status new_payment db = (db', r) →
  (db' = db ∧ ∃ m, r = Http.jsonError m 400)
  ∨ (invalid VALID_STATUS new_status = false
     ∧ invalid VALID_PAYMENT new_payment = false
     ∧ r = Http.json id 200
     ∧ db' = with_orders
               ((λ o, if o_id o =? id
                      then update_order_row now new_status new_payment o else o)
                  <$> orders db) db).
Proof.
  unfold put_admin_order. intros H.
  destruct (invalid VALID_STATUS new_status); [left; simplify_eq; eauto|].
  destruct (invalid VALID_PAYMENT new_payment); [left; simplify_eq; eauto|].
  right. simplify_eq. done.
Qed.

Lemma put_admin_order_ids now id new_status new_payment (rows : list order) :
  o_id <$> ((λ o, if o_id o =? id
                  then update_order_row now new_status new_payment o else o) <$> rows)
  = o_id <$> rows.
Proof.
  rewrite <- list_fmap_compose. apply list_fmap_ext. intros ? o _. simpl.
  by destruct (o_id o =? id).
Qed.

Lemma checkout_keeps_consistent fails now req db db' r :
  consistent db → checkout fails now req db = (db', r) → consistent db'.
Proof.
  intros [Hoi Hou Hii Hiu Hio Hip] H.
  pose proof H as Hc.
  apply checkout_outcomes in Hc as [(-> & _)|Hc]; [by constructor|].
  destruct Hc as (sub & lis & _ & _ & Hb & Hcase).
  assert (Hfresh : orders_seq db + 1 ∉ o_id <$> orders db).
  { intros Hin. apply list_elem_of_fmap in Hin as (o & Hid & Ho).
    rewrite Forall_forall in Hoi. specialize (Hoi o Ho). lia. }
  assert (Hoi' : Forall (λ o, o_id o ≤ orders_seq db + 1)
                   (orders db ++ [header_row now req (orders_seq db + 1) sub])).
  { apply Forall_app. split; [|by repeat constructor].
    eapply Forall_impl; [exact Hoi|]. intros; simpl in *; lia. }
  assert (Hou' : NoDup (o_id <$> orders db ++ [header_row now req (orders_seq db + 1) sub])).
  { rewrite fmap_app. apply NoDup_app. split; [done|]. split; [|by apply NoDup_singleton].
    intros x Hx Hx'. apply list_elem_of_singleton in Hx'. simpl in Hx'. by subst. }
  assert (Hio' : Forall (λ it, oi_order_id it
                          ∈ (o_id <$> orders db ++ [header_row now req (orders_seq db + 1) sub]))
                   (order_items db)).
  { eapply Forall_impl; [exact Hio|]. intros it ?. simpl in *.
    rewrite fmap_app. apply elem_of_app. by left. }
  destruct Hcase as [[-> ->]|[-> ->]]; [by constructor|].
  destruct (item_rows_ids now (orders_seq db + 1) lis (order_items_seq db)) as [Hran Hnd].
  destruct (item_rows_columns now (orders_seq db + 1) lis (order_items_seq db))
    as (Hpid & _ & _ & _ & Hoid).
  constructor; simpl; [done|done| | | |].
  - apply Forall_app. split.
    + eapply Forall_impl; [exact Hii|]. intros; simpl in *; lia.
    + eapply Forall_impl; [exact Hran|]. intros; simpl in *; lia.
  - rewrite fmap_app. apply NoDup_app. split; [done|]. split; [|done].
    intros x Hx Hx'.
    apply list_elem_of_fmap in Hx as (it & -> & Hit).
    apply list_elem_of_fmap in Hx' as (row & Heq & Hrow).
    rewrite Forall_forall in Hii, Hran.
    specialize (Hii it Hit). specialize (Hran row Hrow). simpl in *. lia.
  - apply Forall_app. split; [done|].
    eapply Forall_impl; [exact Hoid|]. intros row ->.
    rewrite fmap_app. apply elem_of_app. right. simpl. by left.
  - apply Forall_app. split; [done|].
    apply Forall_forall. intros row Hrow.
    assert (Hin : oi_product_id row ∈ product_id <$> lis)
      by (rewrite <- Hpid; by apply list_elem_of_fmap_2).
    apply list_elem_of_fmap in Hin as (li & -> & Hli).
    pose proof (checkout_lines _ _ _ _ _ _ _ H) as Hlines. simpl in Hlines.
    eapply (Forall2_Forall_elem _ (λ li, product_id li ∈ p_id <$> products db)) in Hlines.
    + rewrite Forall_forall in Hlines. by apply Hlines.
    + intros item li' _ (p & Hp & _ & _ & ->). simpl.
      apply find_some in Hp as [Hp%list_elem_of_In _]. by apply list_elem_of_fmap_2.
Qed.

Lemma put_admin_order_keeps_consistent now id new_status new_payment db db' r :
  consistent db → put_admin_order now id new_status new_payment db = (db', r) →
  consistent db'.
Proof.
  intros [Hoi Hou Hii Hiu Hio Hip] H.
  apply put_admin_order_state in H as [(-> & _)|(_ & _ & _ & ->)]; [by constructor|].
  constructor; simpl; rewrite ?put_admin_order_ids; try done.
  apply Forall_fmap. eapply Forall_impl; [exact Hoi|].
  intros o ?. simpl. by destruct (o_id o =? id).
Qed.

(** X7.  Keys and references of the order tables.  Starting from a
    database where order ids and item ids are not repeated and lie within
    their counters, and every order item points to an existing order and
    product, every sequence of checkouts (whatever their outcome, a
    refused batch included) and of order updates leads to a database with
    the same properties. *)
Theorem reachable_keeps_keys_and_references db0 db :
  consistent db0 → reachable db0 db → consistent db.
Proof.
  intros H0. induction 1 as [|db fails now req _ IH|db now id st pay _ IH]; [done| |].
  - destruct (checkout fails now req db) as [db' r] eqn:E.
    eapply checkout_keeps_consistent; eauto.
  - destruct (put_admin_order now id st pay db) as [db' r] eqn:E.
    eapply put_admin_order_keeps_consistent; eauto.
Qed.

Lemma shop_consistent : consistent shop.
Proof. constructor; simpl; constructor. Qed.

Lemma reachable_keys_witness :
  consistent
    (fst (put_admin_order "2025-03-02 09:00:00" 2 (Some "confirmed") None
       (fst (checkout (fault_at 0) "2025-03-01 10:05:00" (order_form None [line 2 "1"])
          (fst (checkout no_fault "2025-03-01 10:00:00"
                  (order_form None [line 1 "2"; line 1 "1"]) shop)))))).
Proof.
  apply (reachable_keeps_keys_and_references shop); [exact shop_consistent|].
  apply reach_put_admin_order, reach_checkout, reach_checkout, reach_start.
Defined.

Lemma checkout_keeps_checks fails now req db db' r :
  Forall checks_hold (orders db) → checkout fails now req db = (db', r) →
  Forall checks_hold (orders db').
Proof.
  intros Hall H.
  apply checkout_outcomes in H as [(-> & _)|H]; [done|].
  destruct H as (sub & lis & Hf & Hw & _ & Hcase).
  assert (Hrow : checks_hold (header_row now req (orders_seq db + 1) sub)).
  { unfold checks_hold, fields_ok in *. simpl.
    apply andb_prop in Hf as [_ Hpay].
    apply bool_decide_eq_true in Hpay, Hw.
    split; [|split; [done|split; [|done]]].
    - unfold VALID_STATUS. left.
    - unfold VALID_PAYMENT. left. }
  destruct Hcase as [[_ ->]|[_ ->]]; simpl; apply Forall_app;
    (split; [done|constructor; [exact Hrow|constructor]]).
Qed.

Lemma invalid_false_elem valid x s :
  invalid valid x = false → truthy x = Some s → s ∈ valid.
Proof.
  unfold invalid. intros H E. rewrite E in H. apply negb_false_iff in H.
  by apply bool_decide_eq_true in H.
Qed.

Lemma put_admin_order_keeps_checks now id new_status new_payment db db' r :
  Forall checks_hold (orders db) →
  put_admin_order now id new_status new_payment db = (db', r) →
  Forall checks_hold (orders db').
Proof.
  intros Hall H.
  apply put_admin_order_state in H as [(-> & _)|(Hst & Hpay & _ & ->)]; [done|].
  simpl. apply Forall_fmap. eapply Forall_impl; [exact Hall|].
  intros o (H1 & H2 & H3 & H4). simpl. destruct (o_id o =? id); [|done].
  unfold checks_hold. simpl. split; [|split; [done|split; [|done]]].
  - destruct (truthy new_status) as [s|] eqn:E; [|done]. simpl.
    by eapply invalid_false_elem.
  - destruct (truthy new_payment) as [s|] eqn:E; [|done]. simpl.
    by eapply invalid_false_elem.
Qed.

(** X8.  The handlers only store values that the CHECK constraints of
    [orders] allow.  From a table whose rows have a listed status,
    payment method, payment status and wrapping, every sequence of
    checkouts and order updates leads to a table whose rows do. *)
Theorem reachable_orders_satisfy_the_checks db0 db :
  Forall checks_hold (orders db0) → reachable db0 db → Forall checks_hold (orders db).
Proof.
  intros H0. induction 1 as [|db fails now req _ IH|db now id st pay _ IH]; [done| |].
  - destruct (checkout fails now req db) as [db' r] eqn:E.
    eapply checkout_keeps_checks; eauto.
  - destruct (put_admin_order now id st pay db) as [db' r] eqn:E.
    eapply put_admin_order_keeps_checks; eauto.
Qed.

Lemma reachable_checks_witness :
  Forall checks_hold
    (orders
       (fst (put_admin_order "2025-03-02 09:00:00" 1 (Some "delivered") (Some "paid")
          (fst (checkout no_fault "2025-03-01 10:00:00"
                  (order_form (Some "premium") [line 1 "2"]) shop))))).
Proof.
  apply (reachable_orders_satisfy_the_checks shop); [constructor|].
  apply reach_put_admin_order, reach_checkout, reach_start.
Defined.

(** *** Order updates by an administrator *)

Lemma with_orders_same db : with_orders (orders db) db = db.
Proof. by destruct db. Qed.

Lemma update_absent_id now id new_status new_payment (rows : list order) :
  id ∉ o_id <$> rows →
  (λ o, if o_id o =? id then update_order_row now new_status new_payment o else o) <$> rows
  = rows.
Proof.
  intros Hid. induction rows as [|o rows IH]; [done|].
  rewrite fmap_cons. rewrite fmap_cons in Hid. apply not_elem_of_cons in Hid as [Hne Hid].
  destruct (Z.eqb_spec (o_id o) id); [congruence|]. by rewrite IH.
Qed.

(** X9.  An order update that is accepted rewrites the rows with the
    given id and nothing else: the catalogue, the order items, the number
    and the order of the rows, and every row with another id stay as they
    were.  A row with the id gets the time of the call as [updated_at],
    takes the status and the payment status of the body where the body
    has one (a missing key and the empty text leave the column as it
    was), and keeps every other column: id, customer fields, account,
    payment method, the four amounts, wrapping, message, notes and the
    two other dates.  When no row has the id the table is unchanged, and
    the answer is the same 200: the handler has no 404. *)
Theorem admin_update_changes_the_addressed_order_only now id new_status new_payment db db' r :
  put_admin_order now id new_status new_payment db = (db', r) →
  products db' = products db ∧ order_items db' = order_items db
  ∧ orders_seq db' = orders_seq db
  ∧ o_id <$> orders db' = o_id <$> orders db
  ∧ (∀ i o, orders db !! i = Some o → o_id o ≠ id → orders db' !! i = Some o)
  ∧ (∀ i o, orders db !! i = Some o → o_id o = id → r = Http.json id 200 →
       ∃ o', orders db' !! i = Some o'
             ∧ o_updated_at o' = now
             ∧ (∀ s, new_status = Some s → s ≠ "" → status o' = s)
             ∧ (new_status = None ∨ new_status = Some "" → status o' = status o)
             ∧ (∀ s, new_payment = Some s → s ≠ "" → payment_status o' = s)
             ∧ (new_payment = None ∨ new_payment = Some "" →
                payment_status o' = payment_status o)
             ∧ o_id o' = o_id o
             ∧ customer_name o' = customer_name o
             ∧ customer_phone o' = customer_phone o
             ∧ customer_city o' = customer_city o
             ∧ customer_address o' = customer_address o
             ∧ user_id o' = user_id o
             ∧ payment_method o' = payment_method o
             ∧ subtotal_pkr o' = subtotal_pkr o
             ∧ shipping_pkr o' = shipping_pkr o
             ∧ discount_pkr o' = discount_pkr o
             ∧ total_pkr o' = total_pkr o
             ∧ gift_wrapping o' = gift_wrapping o
             ∧ gift_message o' = gift_message o
             ∧ notes o' = notes o
             ∧ whatsapp_sent_at o' = whatsapp_sent_at o
             ∧ o_created_at o' = o_created_at o)
  ∧ (id ∉ o_id <$> orders db → db' = db)
  ∧ (r = Http.json id 200 ∨ ∃ m, r = Http.jsonError m 400).
Proof.
  intros H.
  apply put_admin_order_state in H as [(-> & m & ->)|(_ & _ & -> & ->)].
  - do 4 (split; [done|]). split; [done|].
    split; [intros i o _ _ ?; discriminate|]. split; [done|]. right. eauto.
  - simpl. rewrite put_admin_order_ids. do 4 (split; [done|]).
    split; [|split; [|split; [|by left]]].
    + intros i o Hi Hne. rewrite list_lookup_fmap, Hi. simpl.
      destruct (Z.eqb_spec (o_id o) id); [contradiction|done].
    + intros i o Hi Heq _. rewrite list_lookup_fmap, Hi. simpl.
      destruct (Z.eqb_spec (o_id o) id); [|contradiction].
      eexists. split; [reflexivity|]. cbn [update_order_row o_updated_at status
        payment_status o_id customer_name customer_phone customer_city customer_address
        user_id payment_method subtotal_pkr shipping_pkr discount_pkr total_pkr
        gift_wrapping gift_message notes whatsapp_sent_at o_created_at].
      split; [reflexivity|].
      split; [intros s -> Hs; by destruct s|].
      split; [by intros [->| ->]|].
      split; [intros s -> Hs; by destruct s|].
      split; [by intros [->| ->]|].
      repeat split.
    + intros Hid. rewrite update_absent_id by done. apply with_orders_same.
Qed.

Lemma admin_update_witness :
  ∃ db' o',
    put_admin_order "2025-03-02 09:00:00" 1 (Some "confirmed") (Some "") shop_after_order
      = (db', Http.json 1 200)
    ∧ orders db' = [o']
    ∧ status <$> orders shop_after_order = ["pending_whatsapp"]
    ∧ status o' = "confirmed" ∧ payment_status o' = "pending"
    ∧ o_updated_at o' = "2025-03-02 09:00:00"
    ∧ total_pkr o' = 5000 ∧ customer_phone o' = "03001234567".
Proof.
  eexists _, _. split; [vm_compute; reflexivity|]. split; [reflexivity|].
  split; [reflexivity|].
  edestruct (admin_update_changes_the_addressed_order_only "2025-03-02 09:00:00" 1
               (Some "confirmed") (Some "") shop_after_order)
    as (_ & _ & _ & _ & _ & Hrow & _); [vm_compute; reflexivity|].
  edestruct (Hrow 0%nat) as (o' & Ho' & Hat & Hst & _ & _ & Hpay & _);
    [vm_compute; reflexivity|reflexivity|reflexivity|].
  vm_compute in Ho'. injection Ho' as <-.
  split; [by apply Hst|]. split; [by apply Hpay; right|].
  split; [exact Hat|]. split; reflexivity.
Defined.

(** X10.  The update does not look at the order's current status: for
    every listed status, an order with the given id gets that status
    whatever it had before (a delivered or cancelled order can go back to
    'pending_whatsapp'), and its payment status stays when the body has
    none. *)
Theorem admin_update_allows_any_transition now id s db i o :
  s ∈ VALID_STATUS →
  orders db !! i = Some o → o_id o = id →
  ∃ db' o',
    put_admin_order now id (Some s) None db = (db', Http.json id 200)
    ∧ orders db' !! i = Some o'
    ∧ status o' = s ∧ payment_status o' = payment_status o ∧ o_id o' = id.
Proof.
  intros Hs Hi Hid.
  assert (Hne : truthy (Some s) = Some s).
  { unfold VALID_STATUS in Hs.
    repeat (apply elem_of_cons in Hs as [->|Hs]); try reflexivity.
    by apply elem_of_nil in Hs. }
  assert (Hput : put_admin_order now id (Some s) None db
                 = (with_orders
                      ((λ o, if o_id o =? id
                             then update_order_row now (Some s) None o else o)
                         <$> orders db) db, Http.json id 200)).
  { unfold put_admin_order, invalid. rewrite Hne. simpl truthy.
    unfold includes. by rewrite bool_decide_eq_true_2. }
  rewrite Hput. eexists _, _. split; [reflexivity|]. simpl.
  rewrite list_lookup_fmap, Hi. simpl.
  destruct (Z.eqb_spec (o_id o) id); [|contradiction].
  split; [reflexivity|]. unfold update_order_row.
  cbn [status payment_status o_id]. rewrite Hne. done.
Qed.

Lemma admin_update_transition_witness :
  ∃ db1 db2 o1 o2,
    put_admin_order "2025-03-02 09:00:00" 1 (Some "delivered") None shop_after_order
      = (db1, Http.json 1 200)
    ∧ orders db1 !! 0%nat = Some o1 ∧ status o1 = "delivered"
    ∧ put_admin_order "2025-03-03 09:00:00" 1 (Some "pending_whatsapp") None db1
      = (db2, Http.json 1 200)
    ∧ orders db2 !! 0%nat = Some o2 ∧ status o2 = "pending_whatsapp".
Proof.
  eexists _, _, _, _. split; [vm_compute; reflexivity|].
  split; [reflexivity|]. split; [reflexivity|].
  edestruct (admin_update_allows_any_transition "2025-03-03 09:00:00" 1 "pending_whatsapp"
               (fst (put_admin_order "2025-03-02 09:00:00" 1 (Some "delivered") None
                       shop_after_order)) 0%nat)
    as (db2 & o2 & Hput & Hrow & Hst & _);
    [by left|vm_compute; reflexivity|reflexivity|].
  vm_compute in Hput. inversion Hput; subst.
  split; [reflexivity|]. split; [reflexivity|]. reflexivity.
Defined.

(** X11.  A status or a payment status that is not a listed one is
    refused with 400 and nothing is changed, the status being looked at
    first; an empty text counts as a missing key and is not refused. *)
Theorem admin_update_rejects_unlisted_values now id new_status new_payment db :
  (∀ s, new_status = Some s → s ≠ "" → s ∉ VALID_STATUS →
     put_admin_order now id new_status new_payment db
       = (db, Http.jsonError "Invalid status value" 400))
  ∧ (∀ p, invalid VALID_STATUS new_status = false →
       new_payment = Some p → p ≠ "" → p ∉ VALID_PAYMENT →
       put_admin_order now id new_status new_payment db
         = (db, Http.jsonError "Invalid payment_status value" 400))
  ∧ (new_status = Some "" →
       put_admin_order now id new_status new_payment db
         = put_admin_order now id None new_payment db).
Proof.
  assert (Hinv : ∀ valid x s, x = Some s → s ≠ "" → s ∉ valid → invalid valid x = true).
  { intros valid x s -> Hne Hs. unfold invalid, includes.
    destruct s; [done|]. simpl. by rewrite bool_decide_eq_false_2. }
  repeat split.
  - intros s Hs Hne Hbad. unfold put_admin_order. by rewrite (Hinv _ _ s).
  - intros p Hst Hp Hne Hbad. unfold put_admin_order. by rewrite Hst, (Hinv _ _ p).
  - intros ->. reflexivity.
Qed.

Lemma admin_update_rejects_witness :
  put_admin_order "2025-03-02 09:00:00" 1 (Some "paid") None shop_after_order
    = (shop_after_order, Http.jsonError "Invalid status value" 400)
  ∧ put_admin_order "2025-03-02 09:00:00" 1 (Some "confirmed") (Some "settled")
      shop_after_order
    = (shop_after_order, Http.jsonError "Invalid payment_status value" 400).
Proof.
  split.
  - destruct (admin_update_rejects_unlisted_values "2025-03-02 09:00:00" 1
                (Some "paid") None shop_after_order) as (Hst & _).
    apply (Hst "paid" eq_refl); [discriminate|].
    unfold VALID_STATUS. intros Hin.
    repeat (apply elem_of_cons in Hin as [Hin|Hin]; [discriminate|]).
    by apply elem_of_nil in Hin.
  - destruct (admin_update_rejects_unlisted_values "2025-03-02 09:00:00" 1
                (Some "confirmed") (Some "settled") shop_after_order) as (_ & Hpay & _).
    apply (Hpay "settled" eq_refl eq_refl); [discriminate|].
    unfold VALID_PAYMENT. intros Hin.
    repeat (apply elem_of_cons in Hin as [Hin|Hin]; [discriminate|]).
    by apply elem_of_nil in Hin.
Defined.

(** *** Order history of a customer *)

Lemma reachable_orders_without_account db0 db :
  Forall (λ o, user_id o = None) (orders db0) → reachable db0 db →
  Forall (λ o, user_id o = None) (orders db).
Proof.
  intros H0. induction 1 as [|db fails now req _ IH|db now id st pay _ IH]; [done| |].
  - destruct (checkout fails now req db) as [db' r] eqn:E. simpl.
    apply checkout_outcomes in E as [(-> & _)|E]; [done|].
    destruct E as (sub & lis & _ & _ & _ & [[_ ->]|[_ ->]]); simpl;
      apply Forall_app; (split; [done|by repeat constructor]).
  - destruct (put_admin_order now id st pay db) as [db' r] eqn:E. simpl.
    apply put_admin_order_state in E as [(-> & _)|(_ & _ & _ & ->)]; [done|].
    simpl. apply Forall_fmap. eapply Forall_impl; [exact IH|].
    intros o Ho. simpl. by destruct (o_id o =? id).
Qed.

(** X12.  The checkout never links an order to an account: it stores
    NULL in [user_id], and no order update sets it.  So, from a table
    whose orders have no account, after any sequence of checkouts and
    order updates, the order history of every signed-in user is empty,
    and the detail of an order is only ever given to an administrator: any
    other user gets 404 when the id is unknown and 403 when it exists. *)
Theorem customers_never_see_storefront_orders
    (newest_first : list order → list order) db0 db user id :
  (∀ rows, newest_first rows ≡ₚ rows) →
  Forall (λ o, user_id o = None) (orders db0) →
  reachable db0 db →
  get_orders newest_first user db = Http.json [] 200
  ∧ (Auth.role user ≠ "admin" →
     get_order user id db =
       if bool_decide (id ∈ o_id <$> orders db)
       then Http.jsonError "Forbidden" 403
       else Http.jsonError "Order not found" 404).
Proof.
  intros Hperm H0 Hreach.
  pose proof (reachable_orders_without_account db0 db H0 Hreach) as Hnone.
  split.
  - unfold get_orders, orders_of.
    assert (Hempty : filter (λ o, user_id o = Some (Auth.id user)) (orders db) = []).
    { induction Hnone as [|o rows Ho _ IH]; [done|].
      rewrite filter_cons, decide_False by (rewrite Ho; discriminate). exact IH. }
    rewrite Hempty. specialize (Hperm []). apply Permutation_nil_r in Hperm.
    by rewrite Hperm.
  - intros Hrole. unfold get_order.
    destruct (List.find (λ o, o_id o =? id) (orders db)) as [o|] eqn:Hfind.
    + apply find_some in Hfind as [Hin%list_elem_of_In Hid%Z.eqb_eq].
      assert (Hmem : id ∈ o_id <$> orders db)
        by (rewrite <- Hid; by apply list_elem_of_fmap_2).
      rewrite (bool_decide_eq_true_2 _ Hmem).
      rewrite Forall_forall in Hnone. rewrite (Hnone o Hin).
      rewrite !bool_decide_eq_true_2 by done. reflexivity.
    + rewrite (bool_decide_eq_false_2 (id ∈ o_id <$> orders db)); [done|].
      intros Hin. apply list_elem_of_fmap in Hin as (o & Heq & Ho).
      apply list_elem_of_In in Ho.
      pose proof (find_none _ _ Hfind o Ho) as Hne. simpl in Hne. lia.
Qed.

Lemma customers_never_see_witness :
  get_orders reverse customer_user shop_after_order = Http.json [] 200
  ∧ get_order customer_user 1 shop_after_order = Http.jsonError "Forbidden" 403
  ∧ get_order customer_user 2 shop_after_order = Http.jsonError "Order not found" 404.
Proof.
  assert (Hreach : reachable shop shop_after_order)
    by (apply reach_checkout, reach_start).
  assert (Hperm : ∀ rows : list order, reverse rows ≡ₚ rows)
    by (intros; apply reverse_Permutation).
  split; [|split].
  - apply (customers_never_see_storefront_orders reverse shop shop_after_order
             customer_user 1 Hperm); [constructor|exact Hreach].
  - destruct (customers_never_see_storefront_orders reverse shop shop_after_order
                customer_user 1 Hperm) as [_ H]; [constructor|exact Hreach|].
    rewrite H by discriminate. reflexivity.
  - destruct (customers_never_see_storefront_orders reverse shop shop_after_order
                customer_user 2 Hperm) as [_ H]; [constructor|exact Hreach|].
    rewrite H by discriminate. reflexivity.
Defined.

(** *** The dashboard *)

(** X13.  Every order whose header row is written counts on the
    dashboard at once: the number of orders and of pending orders go up
    by one, the order's total joins, as the last one, the totals that the
    revenue is the sum of, and the number of active products stays.  This
    also holds when the batch of items was refused and the customer got
    an error. *)
Theorem dashboard_counts_every_written_header SUM fails now req db db' r :
  checkout fails now req db = (db', r) →
  (∀ m st, r ≠ jsonError m st) →
  ∃ row, orders db' = orders db ++ [row]
    ∧ (∀ oid s, r = Json oid s → total_pkr row = s_total_pkr s)
    ∧ total_orders (get_admin_stats SUM db') = total_orders (get_admin_stats SUM db) + 1
    ∧ pending_orders (get_admin_stats SUM db')
      = pending_orders (get_admin_stats SUM db) + 1
    ∧ total_revenue (get_admin_stats SUM db')
      = SUM ((total_pkr <$> filter (λ o, status o ≠ "cancelled") (orders db))
             ++ [total_pkr row])
    ∧ active_products (get_admin_stats SUM db') = active_products (get_admin_stats SUM db).
Proof.
  intros H Hr.
  apply checkout_outcomes in H as [(_ & m & st & ->)|H]; [by destruct (Hr m st)|].
  destruct H as (sub & lis & _ & _ & _ & Hcase).
  exists (header_row now req (orders_seq db + 1) sub).
  assert (Horders : orders db' = orders db ++ [header_row now req (orders_seq db + 1) sub])
    by (destruct Hcase as [[_ ->]|[_ ->]]; reflexivity).
  assert (Hproducts : products db' = products db)
    by (destruct Hcase as [[_ ->]|[_ ->]]; reflexivity).
  split; [exact Horders|]. split.
  - intros oid s ->. destruct Hcase as [[? _]|[Heq _]]; [discriminate|].
    inversion Heq; subst. reflexivity.
  - unfold get_admin_stats. simpl. rewrite Horders, Hproducts.
    rewrite !filter_app, !length_app, fmap_app. simpl.
    split; [lia|]. split; [lia|]. split; reflexivity.
Qed.

Lemma dashboard_counts_witness :
  ∃ db',
    checkout (fault_at 0) "2025-03-01 10:00:00" (order_form None [line 2 "1"]) shop
      = (db', Uncaught)
    ∧ order_items db' = []
    ∧ total_orders (get_admin_stats sum_of_whole_rupees db') = 1
    ∧ pending_orders (get_admin_stats sum_of_whole_rupees db') = 1
    ∧ total_pkr <$> orders db' = [5199].
Proof.
  eexists. split; [vm_compute; reflexivity|]. split; [reflexivity|].
  edestruct (dashboard_counts_every_written_header sum_of_whole_rupees (fault_at 0)
               "2025-03-01 10:00:00" (order_form None [line 2 "1"]) shop)
    as (row & _ & _ & Hn & Hp & _); [vm_compute; reflexivity|discriminate|].
  split; [exact Hn|]. split; [exact Hp|reflexivity].
Defined.

(** The rows that count for the revenue, before and after one of them is
    cancelled. *)
Lemma rows_after_cancel now id (rows : list order) o :
  NoDup (o_id <$> rows) → o ∈ rows → o_id o = id → status o ≠ "cancelled" →
  ∃ before after,
    filter (λ o, status o ≠ "cancelled") rows = before ++ o :: after
    ∧ filter (λ o, status o ≠ "cancelled")
        ((λ o, if o_id o =? id
               then update_order_row now (Some "cancelled") None o else o) <$> rows)
      = before ++ after.
Proof.
  intros Hnd Hin Hid Hst. induction rows as [|o' rows IH]; [by apply elem_of_nil in Hin|].
  rewrite fmap_cons in Hnd. apply NoDup_cons in Hnd as [Hfresh Hnd].
  rewrite fmap_cons. apply elem_of_cons in Hin as [->|Hin].
  - rewrite <- Hid in *. rewrite Z.eqb_refl.
    rewrite update_absent_id by done.
    rewrite !filter_cons. rewrite decide_True by done.
    rewrite decide_False by (simpl; intros H; by apply H).
    by exists [], (filter (λ o, status o ≠ "cancelled") rows).
  - destruct (Z.eqb_spec (o_id o') id) as [Heq|Hne].
    + exfalso. apply Hfresh. rewrite Heq, <- Hid. by apply list_elem_of_fmap_2.
    + destruct (IH Hnd Hin) as (before & after & Hb & Ha).
      rewrite !filter_cons. destruct (decide (status o' ≠ "cancelled")).
      * exists (o' :: before), after. rewrite Hb, Ha. done.
      * exists before, after. done.
Qed.

(** X14.  Cancelling takes an order out of the revenue.  When order ids
    are not repeated and the order with the given id is not cancelled yet,
    setting its status to 'cancelled' removes that order's total, and no
    other, from the totals the dashboard's revenue is the sum of; the
    other totals keep their order, and the number of orders stays. *)
Theorem cancelling_takes_the_order_out_of_the_revenue SUM now id db o :
  NoDup (o_id <$> orders db) → o ∈ orders db → o_id o = id → status o ≠ "cancelled" →
  ∃ db' before after,
    put_admin_order now id (Some "cancelled") None db = (db', Http.json id 200)
    ∧ filter (λ o, status o ≠ "cancelled") (orders db) = before ++ o :: after
    ∧ filter (λ o, status o ≠ "cancelled") (orders db') = before ++ after
    ∧ total_revenue (get_admin_stats SUM db)
      = SUM (total_pkr <$> before ++ o :: after)
    ∧ total_revenue (get_admin_stats SUM db') = SUM (total_pkr <$> before ++ after)
    ∧ total_orders (get_admin_stats SUM db') = total_orders (get_admin_stats SUM db).
Proof.
  intros Hnd Hin Hid Hst.
  destruct (rows_after_cancel now id (orders db) o Hnd Hin Hid Hst)
    as (before & after & Hb & Ha).
  eexists _, before, after. split; [reflexivity|].
  unfold get_admin_stats. simpl. rewrite Hb, Ha.
  do 4 (split; [reflexivity|]). by rewrite length_fmap.
Qed.

Lemma cancelling_witness :
  total_revenue (get_admin_stats sum_of_whole_rupees shop_after_order) = 5000
  ∧ ∃ db', put_admin_order "2025-03-02 09:00:00" 1 (Some "cancelled") None shop_after_order
             = (db', Http.json 1 200)
    ∧ total_revenue (get_admin_stats sum_of_whole_rupees db') = 0.
Proof.
  split; [reflexivity|].
  destruct (cancelling_takes_the_order_out_of_the_revenue sum_of_whole_rupees
              "2025-03-02 09:00:00" 1 shop_after_order
              (header_row "2025-03-01 10:00:00" (order_form None [line 1 "2"]) 1 5000))
    as (db' & before & after & Hput & Hb & _ & _ & Hrev & _).
  - vm_compute. apply NoDup_singleton.
  - vm_compute. left.
  - reflexivity.
  - vm_compute. discriminate.
  - exists db'. split; [exact Hput|]. rewrite Hrev.
    vm_compute in Hb. destruct before as [|? [|? ?]]; simplify_eq. reflexivity.
Defined.

(** *** The price on the product page and the price charged *)

(** X15.  What the catalogue shows is what the checkout charges: the
    unit price of every line of an order is the [effective_price_pkr] that
    the product endpoints give for the product.  A product that they flag
    [on_sale] is charged less than its list price; a product that they do
    not flag is charged at least its list price, unless its sale price
    is 0, which is charged although the flag is off. *)
Theorem listed_price_is_the_price_charged fails now req db db' oid s :
  checkout fails now req db = (db', Json oid s) →
  Forall2 (λ item li, ∃ p, product_for db item = Some p
             ∧ unit_price_pkr li = effective_price_pkr p
             ∧ (on_sale p = true → unit_price_pkr li < price_pkr p)
             ∧ (on_sale p = false → sale_price_pkr p ≠ Some 0 →
                price_pkr p ≤ unit_price_pkr li)
             ∧ (sale_price_pkr p = Some 0 → on_sale p = false ∧ unit_price_pkr li = 0))
    (r_items req) (s_items s).
Proof.
  intros H. apply checkout_lines in H.
  eapply Forall2_impl; [exact H|]. intros item li (p & Hp & _ & _ & ->); simpl.
  exists p. split; [done|]. unfold effective_price_pkr, unitPrice, on_sale.
  destruct (sale_price_pkr p) as [sale|]; simpl.
  - split; [done|]. split; [|split].
    + intros [_ Hlt%Z.ltb_lt]%andb_prop. done.
    + intros Hoff Hzero. apply andb_false_iff in Hoff as [Hz|Hlt].
      * apply negb_false_iff, Z.eqb_eq in Hz. congruence.
      * apply Z.ltb_ge in Hlt. done.
    + intros [= ->]. split; reflexivity.
  - split; [done|]. split; [done|]. split; [intros _ _; lia|done].
Qed.

Lemma listed_price_witness :
  on_sale velvet_rose = true ∧ on_sale midnight_oud = false
  ∧ ∃ db' s,
      checkout no_fault "2025-03-01 10:00:00" (order_form None [line 2 "1"; line 3 "1"]) shop
        = (db', Json 1 s)
      ∧ unit_price_pkr <$> s_items s = [effective_price_pkr velvet_rose;
                                        effective_price_pkr midnight_oud]
      ∧ Forall2 (λ item li, ∃ p, product_for shop item = Some p
                   ∧ unit_price_pkr li = effective_price_pkr p
                   ∧ (on_sale p = true → unit_price_pkr li < price_pkr p)
                   ∧ (on_sale p = false → sale_price_pkr p ≠ Some 0 →
                      price_pkr p ≤ unit_price_pkr li)
                   ∧ (sale_price_pkr p = Some 0 → on_sale p = false ∧ unit_price_pkr li = 0))
          [line 2 "1"; line 3 "1"] (s_items s).
Proof.
  split; [reflexivity|]. split; [reflexivity|].
  eexists _, _. split; [vm_compute; reflexivity|]. split; [reflexivity|].
  eapply (listed_price_is_the_price_charged no_fault "2025-03-01 10:00:00"
            (order_form None [line 2 "1"; line 3 "1"]) shop).
  vm_compute. reflexivity.
Defined.

(** *** The order detail shows what the checkout wrote *)

Lemma filter_none {A} (P : A → Prop) `{∀ x, Decision (P x)} (l : list A) :
  Forall (λ x, ¬ P x) l → filter P l = [].
Proof. induction 1; [done|]. by rewrite filter_cons_False. Qed.

Lemma filter_all {A} (P : A → Prop) `{∀ x, Decision (P x)} (l : list A) :
  Forall P l → filter P l = l.
Proof. induction 1 as [|x l Hx _ IH]; [done|]. by rewrite filter_cons_True, IH. Qed.

Lemma filter_unique_id (ps : list product) x :
  NoDup (p_id <$> ps) → x ∈ p_id <$> ps →
  ∃ p, p ∈ ps ∧ p_id p = x ∧ filter (λ p, p_id p = x) ps = [p].
Proof.
  induction ps as [|q ps IH]; intros Hnd Hx; [by apply elem_of_nil in Hx|].
  rewrite fmap_cons in Hnd, Hx. apply NoDup_cons in Hnd as [Hfresh Hnd].
  rewrite filter_cons. destruct (decide (p_id q = x)) as [Heq|Hne].
  - exists q. split; [left|]. split; [done|]. f_equal.
    apply filter_none, Forall_forall. intros p Hp Hpx.
    apply Hfresh. rewrite Heq, <- Hpx. by apply list_elem_of_fmap_2.
  - apply elem_of_cons in Hx as [Hx|Hx]; [congruence|].
    destruct (IH Hnd Hx) as (p & Hp & Hid & Hf). exists p. split; [by right|done].
Qed.

Lemma join_with_unique_products (ps : list product) (rows : list order_item) :
  NoDup (p_id <$> ps) →
  Forall (λ oi, oi_product_id oi ∈ p_id <$> ps) rows →
  let joined := oi ← rows; (λ p, (oi, p)) <$> filter (λ p, p_id p = oi_product_id oi) ps in
  fst <$> joined = rows
  ∧ Forall (λ j, p_id j.2 = oi_product_id j.1 ∧ j.2 ∈ ps) joined.
Proof.
  intros Hnd Hall. induction Hall as [|oi rows Hoi _ [IH1 IH2]]; [by split|].
  destruct (filter_unique_id ps (oi_product_id oi) Hnd Hoi) as (p & Hp & Hid & Hf).
  cbn zeta in *. rewrite bind_cons, Hf.
  change ((λ p0, (oi, p0)) <$> [p]) with [(oi, p)].
  rewrite fmap_app, IH1. split; [done|].
  apply Forall_app. split; [|exact IH2]. by repeat constructor.
Qed.

Lemma find_new_order (rows : list order) o oid :
  Forall (λ o, o_id o < oid) rows → o_id o = oid →
  List.find (λ o, o_id o =? oid) (rows ++ [o]) = Some o.
Proof.
  intros Hall Hid. induction Hall as [|o' rows Ho' _ IH]; simpl.
  - by rewrite Hid, Z.eqb_refl.
  - destruct (Z.eqb_spec (o_id o') oid); [lia|done].
Qed.

(** X16.  The order detail gives back what the checkout wrote.  When
    ids are keys (orders, items and products) and every item points to an
    existing order, then after an order has gone through, the detail of
    its id answers an administrator with the stored order, whose total is
    the total of the checkout answer, and with exactly one joined row per
    cart entry, in the order of the cart, each with the quantity, the unit
    price and the line total of the answer and with the product row of
    its id. *)
Theorem order_detail_shows_what_the_checkout_wrote fails now req db db' oid s administrator :
  consistent db → NoDup (p_id <$> products db) →
  checkout fails now req db = (db', Json oid s) →
  Auth.role administrator = "admin" →
  ∃ row joined,
    get_order administrator oid db' = Http.json (row, joined) 200
    ∧ o_id row = oid ∧ total_pkr row = s_total_pkr s
    ∧ (λ j, oi_product_id j.1) <$> joined = product_id <$> s_items s
    ∧ (λ j, oi_quantity j.1) <$> joined = quantity <$> s_items s
    ∧ (λ j, oi_unit_price_pkr j.1) <$> joined = unit_price_pkr <$> s_items s
    ∧ Forall (λ j, oi_order_id j.1 = oid ∧ p_id j.2 = oi_product_id j.1
                   ∧ j.2 ∈ products db) joined.
Proof.
  intros Hcons Hkey H Hadmin.
  pose proof (checkout_keeps_consistent _ _ _ _ _ _ Hcons H) as Hcons'.
  pose proof H as Hout.
  apply checkout_outcomes in Hout as [(_ & ? & ? & ?)|Hout]; [discriminate|].
  destruct Hout as (sub & lis & _ & _ & _ & [[? _]|[Hr Hdb]]); [discriminate|].
  inversion Hr; subst oid s; clear Hr.
  set (oid := orders_seq db + 1) in *.
  set (row := header_row now req oid sub).
  destruct Hcons as [Hoi _ _ _ Hio _].
  assert (Hfind : List.find (λ o, o_id o =? oid) (orders db') = Some row).
  { rewrite Hdb. simpl. apply find_new_order; [|done].
    eapply Forall_impl; [exact Hoi|]. intros o ?. subst oid. simpl in *. lia. }
  assert (Hrows : filter (λ oi, oi_order_id oi = oid) (order_items db')
                  = item_rows now oid (order_items_seq db) lis).
  { rewrite Hdb. simpl. rewrite filter_app.
    destruct (item_rows_columns now oid lis (order_items_seq db)) as (_ & _ & _ & _ & Hall).
    rewrite (filter_none _ (order_items db)).
    - simpl. apply filter_all. exact Hall.
    - apply Forall_forall. intros oi Hin Heq.
      rewrite Forall_forall in Hio. rewrite Forall_forall in Hoi.
      specialize (Hio oi Hin).
      apply list_elem_of_fmap in Hio as (o & Ho & Hino).
      specialize (Hoi o Hino). subst oid. simpl in *. lia. }
  assert (Hprod : Forall (λ oi, oi_product_id oi ∈ p_id <$> products db)
                    (item_rows now oid (order_items_seq db) lis)).
  { destruct Hcons' as [_ _ _ _ _ Hip]. rewrite Hdb in Hip. simpl in Hip.
    apply Forall_app in Hip as [_ Hip]. exact Hip. }
  destruct (join_with_unique_products (products db) _ Hkey Hprod) as [Hfst Hjoin].
  cbn zeta in Hfst, Hjoin.
  remember (oi ← item_rows now oid (order_items_seq db) lis;
            (λ p, (oi, p)) <$> filter (λ p, p_id p = oi_product_id oi) (products db))
    as joined eqn:Hjoined.
  exists row, joined. split.
  - subst joined. unfold get_order. rewrite Hfind.
    rewrite (bool_decide_eq_false_2 (Auth.role administrator ≠ _))
      by (intros Hne; by apply Hne).
    rewrite andb_false_r. unfold order_items_joined.
    change (o_id row) with oid. rewrite Hrows.
    replace (products db') with (products db) by (by rewrite Hdb). reflexivity.
  - destruct (item_rows_columns now oid lis (order_items_seq db))
      as (Hp & Hq & Hu & _ & Hall).
    split; [done|]. split; [done|]. simpl.
    rewrite <- Hp, <- Hq, <- Hu, <- Hfst.
    rewrite <- !list_fmap_compose.
    split; [done|]. split; [done|]. split; [done|].
    apply Forall_forall. intros j Hj.
    rewrite Forall_forall in Hjoin. destruct (Hjoin j Hj) as [Hid Hin].
    split; [|done].
    assert (Hj1 : j.1 ∈ item_rows now oid (order_items_seq db) lis)
      by (rewrite <- Hfst; by apply list_elem_of_fmap_2).
    rewrite Forall_forall in Hall. by apply Hall.
Qed.

Lemma order_detail_witness :
  ∃ row joined,
    get_order admin_user 1 shop_after_order = Http.json (row, joined) 200
    ∧ total_pkr row = 5000
    ∧ (λ j, oi_quantity j.1) <$> joined = [2]
    ∧ (λ j, p_name j.2) <$> joined = ["Floral Bloom"].
Proof.
  edestruct (order_detail_shows_what_the_checkout_wrote no_fault "2025-03-01 10:00:00"
               (order_form None [line 1 "2"]) shop shop_after_order 1
               (summary_of (order_form None [line 1 "2"]) 5000
                  [{| product_id := 1; product_name := "Floral Bloom"; quantity := 2;
                      unit_price_pkr := 2500; line_total_pkr := 5000 |}]) admin_user)
    as (row & joined & Hget & _ & Htot & _ & Hq & _).
  - exact shop_consistent.
  - vm_compute. repeat (apply NoDup_cons; split;
      [intros Hin; repeat (apply elem_of_cons in Hin as [Hin|Hin]; [discriminate|]);
       by apply elem_of_nil in Hin|]). apply NoDup_nil. done.
  - vm_compute. reflexivity.
  - reflexivity.
  - exists row, joined. split; [exact Hget|]. split; [exact Htot|]. split; [exact Hq|].
    vm_compute in Hget. inversion Hget. reflexivity.
Defined.

End StorefrontFacts.

(** ** Properties of the token check *)

Module AuthFacts.
Import Auth.

Lemma prefix_slice p : ∀ h,
  String.prefix p h = true → h = p +:+ slice (String.length p) h.
Proof.
  induction p as [|a p IH]; intros h H; [done|].
  destruct h as [|b h]; [discriminate|]. simpl in H.
  destruct (ascii_dec a b) as [->|]; [|discriminate].
  change (String b h = String b (p +:+ slice (String.length p) h)).
  f_equal. by apply IH.
Qed.

Lemma bearer_token_Some header token :
  bearer_token header = Some token → header = "Bearer " +:+ token.
Proof.
  unfold bearer_token. destruct (String.prefix "Bearer " header) eqn:E; [|discriminate].
  intros [= <-]. by apply (prefix_slice "Bearer ").
Qed.

Section Routes.

Context {S A : Type}.
Variable verify : string → string → option payload.

(** X17.  A route behind [authMiddleware] and [adminOnly] runs its
    handler only for a request whose Authorization header is "Bearer "
    followed by a non-empty token that verifies to a payload with the role
    'admin'.  Every other request leaves the state as it was and is
    answered 401 'Unauthorised' (no header, another scheme, empty token),
    401 'Invalid or expired token', or 403 'Forbidden' (another role). *)
Theorem admin_routes_run_only_for_an_admin_token secret authorization
    (handler : S → S * Http.reply A) s s' r :
  authMiddleware verify secret authorization (λ user, adminOnly user handler) s = (s', r) →
  (∃ token user,
     authorization = Some ("Bearer " +:+ token) ∧ token ≠ ""
     ∧ verify token secret = Some user ∧ role user = "admin"
     ∧ handler s = (s', r))
  ∨ (s' = s
     ∧ (r = Http.jsonError "Unauthorised" 401
        ∨ r = Http.jsonError "Invalid or expired token" 401
        ∨ r = Http.jsonError "Forbidden" 403)).
Proof.
  unfold authMiddleware, adminOnly. intros H.
  destruct (bearer_token (default "" authorization)) as [token|] eqn:Hb;
    [|right; simplify_eq; eauto].
  destruct token as [|a token]; [right; simplify_eq; eauto|].
  destruct (verify (String a token) secret) as [user|] eqn:Hv;
    [|right; simplify_eq; eauto].
  destruct (bool_decide (role user = "admin")) eqn:Hr;
    [|right; simplify_eq; eauto 6].
  left. exists (String a token), user.
  apply bearer_token_Some in Hb. apply bool_decide_eq_true in Hr.
  destruct authorization as [header|]; simpl in Hb; [|discriminate].
  subst header. done.
Qed.

(** X18.  The same for a route behind [authMiddleware] alone: its
    handler runs only with the payload that the token verifies to, and a
    request without a verifiable bearer token is answered 401 with the
    state untouched. *)
Theorem signed_in_routes_run_only_for_a_verified_token secret authorization
    (handler : payload → S → S * Http.reply A) s s' r :
  authMiddleware verify secret authorization handler s = (s', r) →
  (∃ token user,
     authorization = Some ("Bearer " +:+ token) ∧ token ≠ ""
     ∧ verify token secret = Some user ∧ handler user s = (s', r))
  ∨ (s' = s
     ∧ (r = Http.jsonError "Unauthorised" 401
        ∨ r = Http.jsonError "Invalid or expired token" 401)).
Proof.
  unfold authMiddleware. intros H.
  destruct (bearer_token (default "" authorization)) as [token|] eqn:Hb;
    [|right; simplify_eq; eauto].
  destruct token as [|a token]; [right; simplify_eq; eauto|].
  destruct (verify (String a token) secret) as [user|] eqn:Hv;
    [|right; simplify_eq; eauto].
  left. exists (String a token), user.
  apply bearer_token_Some in Hb.
  destruct authorization as [header|]; simpl in Hb; [|discriminate].
  subst header. done.
Qed.

End Routes.

Lemma admin_routes_witness :
  authMiddleware Orders.sample_verify "jwt_secret" (Some "Bearer customer.token")
    (λ user, adminOnly user
       (Orders.put_admin_order "2025-03-02 09:00:00" 1 (Some "cancelled") None))
    Orders.shop_after_order
  = (Orders.shop_after_order, Http.jsonError "Forbidden" 403)
  ∧ ∃ db', authMiddleware Orders.sample_verify "jwt_secret" (Some "Bearer admin.token")
             (λ user, adminOnly user
                (Orders.put_admin_order "2025-03-02 09:00:00" 1 (Some "cancelled") None))
             Orders.shop_after_order
           = (db', Http.json 1 200)
    ∧ Orders.put_admin_order "2025-03-02 09:00:00" 1 (Some "cancelled") None
        Orders.shop_after_order = (db', Http.json 1 200).
Proof.
  split; [vm_compute; reflexivity|].
  eexists. split; [vm_compute; reflexivity|].
  edestruct (admin_routes_run_only_for_an_admin_token Orders.sample_verify "jwt_secret"
               (Some "Bearer admin.token")
               (Orders.put_admin_order "2025-03-02 09:00:00" 1 (Some "cancelled") None)
               Orders.shop_after_order)
    as [(token & user & _ & _ & _ & _ & Hrun)|(_ & [H|[H|H]])];
    [vm_compute; reflexivity|exact Hrun|discriminate..].
Defined.

Lemma signed_in_routes_witness :
  authMiddleware Orders.sample_verify "jwt_secret" (Some "Basic customer.token")
    (λ user db, (db, Orders.get_order user 1 db)) Orders.shop_after_order
  = (Orders.shop_after_order, Http.jsonError "Unauthorised" 401)
  ∧ Orders.get_order Orders.admin_user 1 Orders.shop_after_order
    = snd (authMiddleware Orders.sample_verify "jwt_secret" (Some "Bearer admin.token")
             (λ user db, (db, Orders.get_order user 1 db)) Orders.shop_after_order).
Proof.
  split; [vm_compute; reflexivity|].
  edestruct (signed_in_routes_run_only_for_a_verified_token Orders.sample_verify
               "jwt_secret" (Some "Bearer admin.token")
               (λ user db, (db, Orders.get_order user 1 db)) Orders.shop_after_order)
    as [(token & user & Hh & _ & Hv & Hrun)|(_ & [H|H])];
    [reflexivity| |vm_compute in H; discriminate..].
  vm_compute. reflexivity.
Defined.

End AuthFacts.

(** ** Properties of the Stripe checkout *)

Module StripeFacts.
Import StripeCheckout.

(** *** The rows selected for a cart *)

Lemma selected_ids_NoDup ids db :
  NoDup (p_id <$> products db) → NoDup (p_id <$> select_products ids db).
Proof.
  intros Hnd. eapply sublist_NoDup; [exact Hnd|].
  unfold select_products. apply fmap_sublist, sublist_filter.
Qed.

(** When as many rows come back as the cart has entries, the entries name
    distinct products, each of them in the selection. *)
Lemma full_selection ids db :
  NoDup (p_id <$> products db) →
  length (select_products ids db) = length ids →
  NoDup ids ∧ ∀ x, x ∈ ids → x ∈ p_id <$> select_products ids db.
Proof.
  intros Hnd Hlen.
  assert (Hsub : p_id <$> select_products ids db ⊆+ ids).
  { apply NoDup_submseteq; [by apply selected_ids_NoDup|].
    intros x Hx. apply list_elem_of_fmap in Hx as (p & -> & Hp).
    unfold select_products in Hp. apply list_elem_of_filter in Hp as [[Hin _] _]. done. }
  apply submseteq_length_Permutation in Hsub; [|rewrite length_fmap; lia].
  split.
  - rewrite <- Hsub. by apply selected_ids_NoDup.
  - intros x Hx. by rewrite Hsub.
Qed.

(** *** The ways the handler ends *)

Section Handler.

Variable paymentIntents_create : Z → Z → Z → option (string * string).

Lemma stripe_build_lines_inr selected cart : ∀ sub acc sub' lis,
  build_lines selected cart sub acc = inr (sub', lis) →
  ∃ ls, Forall2 (λ item li, ∃ p, List.find (λ p, p_id p =? product_id item) selected = Some p
                   ∧ quantity item ≤ stock p ∧ li = line_for item p) cart ls
        ∧ lis = acc ++ ls ∧ sub' = sub + sum_cents ls.
Proof.
  induction cart as [|item rest IH]; intros sub acc sub' lis H; simpl in H.
  - inversion H; subst. exists []. rewrite app_nil_r. simpl.
    split; [constructor|split; [done|lia]].
  - unfold line_of in H.
    destruct (List.find _ selected) as [p|] eqn:Hf; [|discriminate].
    destruct (Z.ltb_spec (stock p) (quantity item)); [discriminate|].
    apply IH in H as (ls & Hall & -> & ->).
    exists (line_for item p :: ls). split; [constructor; eauto|].
    rewrite <- app_assoc. simpl. split; [done|lia].
Qed.

Lemma stripe_build_lines_inl selected cart : ∀ sub acc r,
  build_lines selected cart sub acc = inl r → ∃ m, r = jsonError m 422.
Proof.
  induction cart as [|item rest IH]; intros sub acc r H; simpl in H; [discriminate|].
  destruct (line_of selected item) as [r'|li] eqn:Hl; [|eauto].
  inversion H; subst. unfold line_of in Hl. repeat case_match; simplify_eq; eauto.
Qed.

(** Every run ends in one of: an error answer or a refused order row,
    with nothing written; the order and its items written and the call to
    Stripe or the storing of the intent failed; all of it done. *)
Lemma stripe_checkout_outcomes now user req db db' r :
  checkout paymentIntents_create now user req db = (db', r) →
  (db' = db
   ∧ ((∃ m st, r = jsonError m st ∧ (st = 400 ∨ st = 422))
      ∨ (r = Uncaught ∧ default "none" (gift_wrapping req) ∉ GIFT_WRAPPING_CHECK)))
  ∨ ∃ sub lis,
      length (select_products (product_id <$> items req) db) = length (items req)
      ∧ build_lines (select_products (product_id <$> items req) db) (items req) 0 []
          = inr (sub, lis)
      ∧ let oid := orders_seq db + 1 in
        let db2 := with_order now user req sub lis db in
        (r = Uncaught ∧ db' = db2
         ∧ (paymentIntents_create sub oid (Auth.id user) = None
            ∨ ∃ intent secret,
                paymentIntents_create sub oid (Auth.id user) = Some (intent, secret)
                ∧ store_intent intent oid db2 = None))
        ∨ ∃ intent secret,
            paymentIntents_create sub oid (Auth.id user) = Some (intent, secret)
            ∧ store_intent intent oid db2 = Some db'
            ∧ r = Json secret oid.
Proof.
  unfold checkout. intros H.
  destruct (bool_decide (items req = [])); [left; simplify_eq; eauto 8|].
  destruct (Nat.eqb_spec (length (select_products (product_id <$> items req) db))
              (length (items req))) as [Hlen|_]; simpl in H;
    [|left; simplify_eq; eauto 8].
  destruct (build_lines _ _ _ _) as [e|[sub lis]] eqn:Hb.
  - left. simplify_eq. split; [done|]. left.
    apply stripe_build_lines_inl in Hb as [m ->]. eauto.
  - unfold insert_order in H.
    destruct (bool_decide (default "none" (gift_wrapping req) ∈ GIFT_WRAPPING_CHECK))
      eqn:Hw; [|apply bool_decide_eq_false in Hw; left; simplify_eq; eauto].
    right. exists sub, lis. split; [done|]. split; [done|].
    change (insert_items now (orders_seq db + 1) lis _)
      with (with_order now user req sub lis db) in H.
    cbv zeta.
    destruct (paymentIntents_create sub (orders_seq db + 1) (Auth.id user))
      as [[intent secret]|]; [|left; simplify_eq; eauto].
    destruct (store_intent intent (orders_seq db + 1) (with_order now user req sub lis db))
      as [db3|] eqn:Hs; simplify_eq.
    + right. eauto.
    + left. split; [done|]. split; [done|]. right. eauto.
Qed.

End Handler.

Section Properties.

Variable paymentIntents_create : Z → Z → Z → option (string * string).

(** X19.  The Stripe checkout wants one cart entry per product.  When
    product ids are the key of the table, a cart in which a product id
    comes twice, or which names a product that is missing or not active,
    is answered 422 'One or more products not found or inactive' and
    nothing is written: the rows found are counted against the entries
    of the cart. *)
Theorem cart_must_name_distinct_active_products now user req db :
  NoDup (p_id <$> products db) →
  items req ≠ [] →
  ¬ NoDup (product_id <$> items req)
  ∨ (∃ item, item ∈ items req
       ∧ ∀ p, p ∈ products db → p_id p = product_id item → is_active p ≠ 1) →
  checkout paymentIntents_create now user req db = (db, jsonError NotFoundOrInactive 422).
Proof.
  intros Hkey Hne Hbad. unfold checkout.
  rewrite bool_decide_eq_false_2 by done.
  destruct (Nat.eqb_spec (length (select_products (product_id <$> items req) db))
              (length (items req))) as [Hlen|_]; [exfalso|done].
  rewrite <- (length_fmap product_id (items req)) in Hlen.
  apply full_selection in Hlen as [Hnd Hall]; [|done].
  destruct Hbad as [Hdup|(item & Hin & Hnone)]; [by apply Hdup|].
  assert (Hid : product_id item ∈ product_id <$> items req)
    by (by apply list_elem_of_fmap_2).
  apply Hall, list_elem_of_fmap in Hid as (p & Hp & Hsel).
  unfold select_products in Hsel. apply list_elem_of_filter in Hsel as [[_ Hact] Hprod].
  by apply (Hnone p).
Qed.

(** *** An order that goes through *)

Lemma find_last_fresh (rows : list StripeWorker.order) o oid :
  Forall (λ o, StripeWorker.id o < oid) rows → StripeWorker.id o = oid →
  List.find (λ o, StripeWorker.id o =? oid) (rows ++ [o]) = Some o.
Proof.
  intros Hall Hid. induction Hall as [|o' rows Ho' _ IH]; simpl.
  - by rewrite Hid, Z.eqb_refl.
  - destruct (Z.eqb_spec (StripeWorker.id o') oid); [lia|done].
Qed.

(** The database after an order that goes through. *)
Lemma success_state now user req db db' secret oid :
  ids_issued db →
  checkout paymentIntents_create now user req db = (db', Json secret oid) →
  ∃ sub lis intent,
    oid = orders_seq db + 1
    ∧ paymentIntents_create sub oid (Auth.id user) = Some (intent, secret)
    ∧ build_lines (select_products (product_id <$> items req) db) (items req) 0 []
        = inr (sub, lis)
    ∧ products db' = products db
    ∧ orders db' = orders db ++ [with_intent intent (new_order now user req oid sub)]
    ∧ order_items db' = order_items db ++ item_rows now oid (order_items_seq db) lis
    ∧ (∀ o, o ∈ orders db → StripeWorker.stripe_payment_intent o ≠ Some intent).
Proof.
  intros Hids H.
  apply stripe_checkout_outcomes in H as [(_ & [(? & ? & ? & _)|[? _]])|H]; [discriminate..|].
  destruct H as (sub & lis & _ & Hb & [(? & _)|(intent & secret' & Hc & Hs & Hr)]);
    [discriminate|].
  inversion Hr; subst. exists sub, lis, intent.
  unfold store_intent in Hs.
  destruct (bool_decide (Exists _ _)) eqn:Hex; [discriminate|].
  apply bool_decide_eq_false in Hex. inversion Hs; subst; clear Hs. simpl.
  assert (Hold : Forall (λ o, StripeWorker.id o ≠ orders_seq db + 1) (orders db))
    by (eapply Forall_impl; [exact Hids|]; intros o ?; simpl in *; lia).
  do 4 (split; [done|]). split; [|split; [done|]].
  - rewrite fmap_app. f_equal.
    + clear -Hold. induction Hold as [|o rows Ho _ IH]; [done|].
      rewrite fmap_cons, IH. destruct (Z.eqb_spec (StripeWorker.id o) (orders_seq db + 1));
        [contradiction|done].
    + simpl. by rewrite Z.eqb_refl.
  - intros o Ho Hint. apply Hex. apply Exists_exists. exists o. split.
    + apply elem_of_app. by left.
    + split; [|done]. rewrite Forall_forall in Hold. by apply Hold.
Qed.

Lemma stripe_item_rows_columns now orderId ls : ∀ seq,
  oi_product_id <$> item_rows now orderId seq ls = li_product_id <$> ls
  ∧ oi_quantity <$> item_rows now orderId seq ls = li_quantity <$> ls
  ∧ Forall (λ row, oi_order_id row = orderId) (item_rows now orderId seq ls)
  ∧ foldr (λ row acc, oi_unit_price_cents row * oi_quantity row + acc) 0
      (item_rows now orderId seq ls) = sum_cents ls.
Proof.
  induction ls as [|li rest IH]; intros seq; [by repeat split|].
  cbn [item_rows]. rewrite !fmap_cons.
  destruct (IH (seq + 1)) as (-> & -> & ? & Hsum).
  simpl. rewrite Hsum. repeat split. by constructor.
Qed.

(** X20.  The Stripe checkout takes quantities as they are sent.  For
    an order that goes through, the item rows carry, entry by entry, the
    product id and the quantity of the cart; the only condition that a
    quantity has met is that it does not exceed the stock of its active
    product, so nothing keeps it at 1 or more; and the total charged and
    stored is the sum of unit price times quantity over the rows. *)
Theorem quantities_are_taken_as_sent now user req db db' secret oid :
  ids_issued db →
  checkout paymentIntents_create now user req db = (db', Json secret oid) →
  Forall (λ item, ∃ p, p ∈ products db ∧ p_id p = product_id item
                    ∧ is_active p = 1 ∧ quantity item ≤ stock p) (items req)
  ∧ ∃ rows o,
      order_items db' = order_items db ++ rows
      ∧ oi_product_id <$> rows = product_id <$> items req
      ∧ oi_quantity <$> rows = quantity <$> items req
      ∧ last (orders db') = Some o ∧ StripeWorker.id o = oid
      ∧ StripeWorker.total_cents o
        = foldr (λ row acc, oi_unit_price_cents row * oi_quantity row + acc) 0 rows
      ∧ ∃ intent, paymentIntents_create (StripeWorker.total_cents o) oid (Auth.id user)
                  = Some (intent, secret).
Proof.
  intros Hids H.
  apply success_state in H as (sub & lis & intent & -> & Hc & Hb & _ & Ho & Hi & _); [|done].
  apply stripe_build_lines_inr in Hb as (ls & Hall & -> & ->). simpl in *.
  assert (Hcols : li_product_id <$> ls = product_id <$> items req
                  ∧ li_quantity <$> ls = quantity <$> items req
                  ∧ Forall (λ item, ∃ p, p ∈ products db ∧ p_id p = product_id item
                                      ∧ is_active p = 1 ∧ quantity item ≤ stock p)
                      (items req)).
  { clear -Hall. induction Hall as [|item li cart ls Hl _ (IH1 & IH2 & IH3)];
      [by repeat split|].
    destruct Hl as (p & Hp & Hs & ->). rewrite !fmap_cons. simpl.
    apply find_some in Hp as [Hp%list_elem_of_In Hid%Z.eqb_eq].
    unfold select_products in Hp. apply list_elem_of_filter in Hp as [[_ Hact] Hp].
    rewrite IH1, IH2, Hid. repeat split. constructor; [|done]. exists p. done. }
  destruct Hcols as (Hpid & Hqty & Hok). split; [exact Hok|].
  destruct (stripe_item_rows_columns now (orders_seq db + 1) ls (order_items_seq db))
    as (Hp & Hq & _ & Hsum).
  eexists _, _. split; [exact Hi|]. rewrite Hp, Hq, Hsum.
  split; [done|]. split; [done|]. rewrite Ho, last_snoc.
  split; [done|]. split; [done|]. split; [simpl; lia|].
  exists intent. exact Hc.
Qed.

(** X21.  The buyer can read the order and other customers cannot.
    After an order has gone through for the user of the token, the order
    detail for its id answers 200 with that order to the same user and
    to any administrator, and 403 'Forbidden' to every other user. *)
Theorem buyer_reads_the_order_and_others_do_not now user req db db' secret oid :
  ids_issued db →
  checkout paymentIntents_create now user req db = (db', Json secret oid) →
  ∃ o, last (orders db') = Some o
    ∧ StripeWorker.id o = oid ∧ StripeWorker.user_id o = Some (Auth.id user)
    ∧ get_order user oid db' = Http.json (o, order_items_joined oid db') 200
    ∧ (∀ other, Auth.role other = "admin" →
         get_order other oid db' = Http.json (o, order_items_joined oid db') 200)
    ∧ (∀ other, Auth.id other ≠ Auth.id user → Auth.role other ≠ "admin" →
         get_order other oid db' = Http.jsonError "Forbidden" 403).
Proof.
  intros Hids H.
  apply success_state in H as (sub & lis & intent & -> & _ & _ & _ & Ho & _ & _); [|done].
  set (oid := orders_seq db + 1) in *.
  set (o := with_intent intent (new_order now user req oid sub)) in *.
  assert (Hfind : List.find (λ o, StripeWorker.id o =? oid) (orders db') = Some o).
  { rewrite Ho. apply find_last_fresh; [|done].
    eapply Forall_impl; [exact Hids|]. intros o' ?. subst oid. simpl in *. lia. }
  exists o. rewrite Ho, last_snoc. split; [done|]. split; [done|]. split; [done|].
  unfold get_order. rewrite Hfind. split; [|split].
  - rewrite (bool_decide_eq_false_2 (StripeWorker.user_id o ≠ _)) by (intros Hne; by apply Hne).
    done.
  - intros other Hadmin.
    rewrite (bool_decide_eq_false_2 (Auth.role other ≠ _)) by (intros Hne; by apply Hne).
    by rewrite andb_false_r.
  - intros other Hid Hrole.
    rewrite !bool_decide_eq_true_2; [done|done|]. simpl. congruence.
Qed.

End Properties.

Section Confirmation.

Variable paymentIntents_create : Z → Z → Z → option (string * string).
Variable constructEventAsync : string → string → string → string + StripeWorker.event.

(** X22.  Checkout and confirmation fit together.  After an order has
    gone through, the verified "payment succeeded" event of the intent
    stored on it is acknowledged and marks exactly that order paid, with
    the event's charge: the order keeps its id, its buyer and its total,
    and every other order in the table stays as it was. *)
Theorem confirmed_payment_marks_exactly_the_new_order
    now user req db db' client_secret oid secret t body signature ev :
  ids_issued db →
  checkout paymentIntents_create now user req db = (db', Json client_secret oid) →
  constructEventAsync body signature secret = inr ev →
  StripeWorker.type ev = "payment_intent.succeeded" →
  (∃ o, o ∈ orders db' ∧ StripeWorker.id o = oid
        ∧ StripeWorker.stripe_payment_intent o
          = Some (StripeWorker.pi_id (StripeWorker.data_object ev))) →
  ∃ o,
    StripeWorker.webhook constructEventAsync secret t body signature (orders db')
      = (orders db ++ [o], StripeWorker.JsonReceived)
    ∧ StripeWorker.id o = oid
    ∧ StripeWorker.status o = StripeWorker.paid
    ∧ StripeWorker.stripe_charge_id o
      = Some (default "" (StripeWorker.latest_charge (StripeWorker.data_object ev)))
    ∧ StripeWorker.user_id o = Some (Auth.id user)
    ∧ (∃ before, last (orders db') = Some before
         ∧ StripeWorker.total_cents o = StripeWorker.total_cents before).
Proof.
  intros Hids H Hev Hty (o & Hin & Hid & Hint).
  apply success_state in H as (sub & lis & intent & -> & _ & _ & _ & Ho & _ & Hothers);
    [|done].
  set (oid := orders_seq db + 1) in *.
  assert (Hintent : StripeWorker.pi_id (StripeWorker.data_object ev) = intent).
  { rewrite Ho in Hin. apply elem_of_app in Hin as [Hin|Hin].
    - unfold ids_issued in Hids. rewrite Forall_forall in Hids.
      specialize (Hids o Hin). subst oid. simpl in *. lia.
    - apply list_elem_of_singleton in Hin. subst o. simpl in Hint. congruence. }
  rewrite (WebhookFacts.webhook_verified constructEventAsync _ _ _ _ _ ev Hev).
  rewrite bool_decide_eq_true_2 by done. rewrite Hintent, Ho.
  unfold StripeWorker.update_paid. rewrite fmap_app.
  assert (Hsame : StripeWorker.set_paid
                    (default "" (StripeWorker.latest_charge (StripeWorker.data_object ev)))
                    intent t <$> orders db = orders db).
  { apply (WebhookFacts.update_paid_unmatched). exact Hothers. }
  rewrite Hsame.
  exists (StripeWorker.set_paid
            (default "" (StripeWorker.latest_charge (StripeWorker.data_object ev)))
            intent t (with_intent intent (new_order now user req oid sub))).
  split; [reflexivity|].
  unfold StripeWorker.set_paid. rewrite bool_decide_eq_true_2 by reflexivity.
  do 4 (split; [reflexivity|]).
  eexists. split; [by rewrite last_snoc|reflexivity].
Qed.

End Confirmation.

Lemma boutique_ids_issued : ids_issued boutique.
Proof. constructor. Qed.

Lemma cart_must_name_distinct_witness :
  checkout sample_stripe "2025-03-01 10:00:00" buyer (cart [(1, 1); (1, 2)]) boutique
  = (boutique, jsonError NotFoundOrInactive 422).
Proof.
  apply (cart_must_name_distinct_active_products sample_stripe "2025-03-01 10:00:00"
           buyer (cart [(1, 1); (1, 2)]) boutique).
  - vm_compute. apply NoDup_cons. split; [|apply NoDup_singleton].
    intros Hin. apply list_elem_of_singleton in Hin. discriminate.
  - discriminate.
  - left. vm_compute. intros Hnd. apply NoDup_cons in Hnd as [Hnot _].
    apply Hnot. left.
Defined.

Lemma quantities_taken_as_sent_witness :
  ∃ db',
    checkout sample_stripe "2025-03-01 10:00:00" buyer (cart [(1, 2); (2, -1)]) boutique
      = (db', Json "pi_order_1_secret" 1)
    ∧ oi_quantity <$> order_items db' = [2; -1]
    ∧ StripeWorker.total_cents <$> orders db' = [2 * 18500 - 16000].
Proof.
  eexists. split; [vm_compute; reflexivity|].
  edestruct (quantities_are_taken_as_sent sample_stripe "2025-03-01 10:00:00" buyer
               (cart [(1, 2); (2, -1)]) boutique) as (_ & rows & o & Hrows & _ & Hq & _);
    [exact boutique_ids_issued|vm_compute; reflexivity|].
  split; [|reflexivity]. rewrite Hrows. exact Hq.
Defined.

Lemma buyer_reads_the_order_witness :
  ∃ db' o,
    checkout sample_stripe "2025-03-01 10:00:00" buyer (cart [(1, 1)]) boutique
      = (db', Json "pi_order_1_secret" 1)
    ∧ get_order buyer 1 db' = Http.json (o, order_items_joined 1 db') 200
    ∧ get_order stranger 1 db' = Http.jsonError "Forbidden" 403.
Proof.
  edestruct (buyer_reads_the_order_and_others_do_not sample_stripe "2025-03-01 10:00:00"
               buyer (cart [(1, 1)]) boutique) as (o & _ & _ & _ & Hown & _ & Hother);
    [exact boutique_ids_issued|vm_compute; reflexivity|].
  eexists _, o. split; [vm_compute; reflexivity|]. split; [exact Hown|].
  apply Hother; discriminate.
Defined.

Lemma confirmed_payment_witness :
  ∃ db' o,
    checkout sample_stripe "2025-03-01 10:00:00" buyer (cart [(1, 1)]) boutique
      = (db', Json "pi_order_1_secret" 1)
    ∧ StripeWorker.status <$> orders db' = [StripeWorker.pending]
    ∧ StripeWorker.webhook sample_construct "whsec_1" "2025-03-01 10:02:00"
        "payload" "whsec_1" (orders db') = ([o], StripeWorker.JsonReceived)
    ∧ StripeWorker.status o = StripeWorker.paid
    ∧ StripeWorker.stripe_charge_id o = Some "ch_1".
Proof.
  destruct (confirmed_payment_marks_exactly_the_new_order sample_stripe sample_construct
              "2025-03-01 10:00:00" buyer (cart [(1, 1)]) boutique
              (fst (checkout sample_stripe "2025-03-01 10:00:00" buyer (cart [(1, 1)])
                      boutique))
              "pi_order_1_secret" 1 "whsec_1" "2025-03-01 10:02:00" "payload" "whsec_1"
              (StripeWorker.succeeded "pi_order_1" (Some "ch_1")))
    as (o & Hweb & _ & Hst & Hch & _);
    [exact boutique_ids_issued|vm_compute; reflexivity|reflexivity|reflexivity| |].
  - eexists. split; [vm_compute; left|split; reflexivity].
  - eexists _, o. split; [vm_compute; reflexivity|]. split; [reflexivity|].
    split; [exact Hweb|]. split; [exact Hst|exact Hch].
Defined.

Section Frame.

Variable constructEventAsync : string → string → string → string + StripeWorker.event.

Lemma set_paid_keeps charge intent now o :
  StripeWorker.id (StripeWorker.set_paid charge intent now o) = StripeWorker.id o
  ∧ StripeWorker.user_id (StripeWorker.set_paid charge intent now o) = StripeWorker.user_id o
  ∧ StripeWorker.total_cents (StripeWorker.set_paid charge intent now o)
    = StripeWorker.total_cents o
  ∧ StripeWorker.stripe_payment_intent (StripeWorker.set_paid charge intent now o)
    = StripeWorker.stripe_payment_intent o
  ∧ (StripeWorker.status o = StripeWorker.paid →
     StripeWorker.status (StripeWorker.set_paid charge intent now o) = StripeWorker.paid).
Proof. unfold StripeWorker.set_paid. by destruct (bool_decide _). Qed.

(** X24.  What the webhook can never do.  Whatever the payload and the
    signature, the call leaves the number and the order of the rows, and
    on every row the id, the buyer, the total and the stored payment
    intent; an order that is paid stays paid; and a row whose stored
    intent is not the id of the verified event's intent (a row without an
    intent among them) is not changed at all. *)
Theorem webhook_never_changes_amounts_or_buyers secret now body signature
    (db : list StripeWorker.order) :
  let db' := fst (StripeWorker.webhook constructEventAsync secret now body signature db) in
  StripeWorker.id <$> db' = StripeWorker.id <$> db
  ∧ StripeWorker.user_id <$> db' = StripeWorker.user_id <$> db
  ∧ StripeWorker.total_cents <$> db' = StripeWorker.total_cents <$> db
  ∧ StripeWorker.stripe_payment_intent <$> db' = StripeWorker.stripe_payment_intent <$> db
  ∧ (∀ i o, db !! i = Some o → StripeWorker.status o = StripeWorker.paid →
       StripeWorker.status <$> db' !! i = Some StripeWorker.paid)
  ∧ (∀ i o, db !! i = Some o →
       (∀ ev, constructEventAsync body signature secret = inr ev →
          StripeWorker.stripe_payment_intent o
          ≠ Some (StripeWorker.pi_id (StripeWorker.data_object ev))) →
       db' !! i = Some o).
Proof.
  intros db'. subst db'. unfold StripeWorker.webhook.
  assert (Hpaid : ∀ i o, db !! i = Some o → StripeWorker.status o = StripeWorker.paid →
                    StripeWorker.status <$> db !! i = Some StripeWorker.paid)
    by (intros i o Hi Hp; by rewrite Hi, <- Hp).
  destruct (constructEventAsync body signature secret) as [err|ev] eqn:Hev; simpl;
    [do 4 (split; [done|]); split; [exact Hpaid|by intros i o Hi _]|].
  destruct (bool_decide (StripeWorker.type ev = "payment_intent.succeeded"));
    [|do 4 (split; [done|]); split; [exact Hpaid|by intros i o Hi _]].
  clear Hpaid.
  unfold StripeWorker.update_paid.
  set (charge := default "" (StripeWorker.latest_charge (StripeWorker.data_object ev))).
  set (intent := StripeWorker.pi_id (StripeWorker.data_object ev)).
  rewrite <- !list_fmap_compose.
  split; [apply list_fmap_ext; intros ? o _; apply set_paid_keeps|].
  split; [apply list_fmap_ext; intros ? o _; apply set_paid_keeps|].
  split; [apply list_fmap_ext; intros ? o _; apply set_paid_keeps|].
  split; [apply list_fmap_ext; intros ? o _; apply set_paid_keeps|].
  split.
  - intros i o Hi Hpaid. rewrite list_lookup_fmap, Hi. simpl. f_equal.
    by apply set_paid_keeps.
  - intros i o Hi Hother. rewrite list_lookup_fmap, Hi. simpl. f_equal.
    apply WebhookFacts.set_paid_other. by apply Hother.
Qed.

End Frame.

Lemma webhook_frame_witness :
  let db' := fst (StripeWorker.webhook StripeWorker.sample_construct "whsec_1"
                    "2025-03-01 10:00:00" "succeeded pi_101" "whsec_1"
                    StripeWorker.sample_orders) in
  StripeWorker.total_cents <$> db' = [12000; 12000; 12000; 12000]
  ∧ db' !! 1%nat = StripeWorker.sample_orders !! 1%nat
  ∧ db' !! 3%nat = StripeWorker.sample_orders !! 3%nat.
Proof.
  intros db'.
  destruct (webhook_never_changes_amounts_or_buyers StripeWorker.sample_construct "whsec_1"
              "2025-03-01 10:00:00" "succeeded pi_101" "whsec_1" StripeWorker.sample_orders)
    as (_ & _ & Htot & _ & _ & Hsame).
  split; [exact Htot|]. split.
  - apply (Hsame 1%nat _ eq_refl). intros ev Hev. vm_compute in Hev.
    inversion Hev; subst. discriminate.
  - apply (Hsame 3%nat _ eq_refl). intros ev Hev. discriminate.
Defined.

End StripeFacts.
